(** * SQLite MCP server: the tool dispatcher and the insights memo

    A shallow embedding of [src/sqlite/server.py] (class [McpServer]):
    the query executor [_execute_query], the memo renderer
    [_synthesize_memo], the tool catalog [handle_list_tools] and the tool
    dispatcher [handle_call_tool], followed by the properties of the
    dispatch core.

    Modelling conventions.
    - A Python [str] is a [str]: a sequence of Unicode code points.  A
      literal stands for the code points of its UTF-8 text.  [str.strip]
      removes the white space of [str.isspace]; [str.upper] maps every
      character through the interpreter's upper-case table, which is
      [UPPER_TABLE] outside ASCII (CPython 3.11, Unicode 14.0.0).
    - A Python exception that is an instance of [Exception] is a value of
      [exception]: its class and the text of [str(e)].  What a [raise]
      carries is a value of [raised]: such an exception, or asyncio's
      [CancelledError], which derives from [BaseException] only and
      reaches a coroutine at an [await].  Code that can raise lives in the
      monad [M], a state monad over [McpServer] with an error alternative;
      mutations made before a [raise] stay in the state, as in Python.
    - The collaborators (the sqlite3 engine, the Anthropic client, the MCP
      session) are fields of an [Env] record.  Each call is appended to the
      server's [log] before the collaborator answers, and the answer may
      depend on everything that happened before.
    - Logging calls ([logger.debug] and the like) are not modelled. *)

From Stdlib Require Import ZArith NArith Ascii String List Bool Lia.
From Stdlib.Strings Require Import Byte.
From stdpp Require Import base option countable pretty gmap.

(** ** Python strings *)

(** A [str]: its code points, first to last. *)
Inductive str : Type :=
| EmptyStr
| StrCons (c : N) (s : str).

Declare Scope str_scope.
Delimit Scope str_scope with str.
Bind Scope str_scope with str.

(** UTF-8, for writing and printing literals. *)
Module Utf8.

Definition cont (b : byte) : option N :=
  let n := Byte.to_N b in
  if ((128 <=? n) && (n <? 192))%N then Some (n - 128)%N else None.

Fixpoint decode (bs : list byte) : option str :=
  match bs with
  | [] => Some EmptyStr
  | b :: rest =>
      let n := Byte.to_N b in
      if (n <? 128)%N then
        match decode rest with Some s => Some (StrCons n s) | None => None end
      else if (n <? 192)%N then None
      else if (n <? 224)%N then
        match rest with
        | b2 :: rest' =>
            match cont b2, decode rest' with
            | Some c2, Some s => Some (StrCons ((n - 192) * 64 + c2) s)
            | _, _ => None
            end
        | _ => None
        end
      else if (n <? 240)%N then
        match rest with
        | b2 :: b3 :: rest' =>
            match cont b2, cont b3, decode rest' with
            | Some c2, Some c3, Some s =>
                Some (StrCons ((n - 224) * 4096 + c2 * 64 + c3) s)
            | _, _, _ => None
            end
        | _ => None
        end
      else
        match rest with
        | b2 :: b3 :: b4 :: rest' =>
            match cont b2, cont b3, cont b4, decode rest' with
            | Some c2, Some c3, Some c4, Some s =>
                Some (StrCons ((n - 240) * 262144 + c2 * 4096 + c3 * 64 + c4) s)
            | _, _, _, _ => None
            end
        | _ => None
        end
  end%N.

Definition bytes_of (ns : list N) : option (list byte) :=
  fold_right (fun n acc =>
                match Byte.of_N n, acc with
                | Some b, Some bs => Some (b :: bs)
                | _, _ => None
                end) (Some []) ns.

Definition encode_char (c : N) : list N :=
  (if c <? 128 then [c]
   else if c <? 2048 then [192 + c / 64; 128 + c mod 64]
   else if c <? 65536 then [224 + c / 4096; 128 + (c / 64) mod 64; 128 + c mod 64]
   else [240 + c / 262144; 128 + (c / 4096) mod 64; 128 + (c / 64) mod 64;
         128 + c mod 64])%N.

Fixpoint encode_N (s : str) : list N :=
  match s with
  | EmptyStr => []
  | StrCons c s' => encode_char c ++ encode_N s'
  end.

Definition encode (s : str) : option (list byte) := bytes_of (encode_N s).

End Utf8.

String Notation str Utf8.decode Utf8.encode : str_scope.

Module Str.

Fixpoint append (a b : str) : str :=
  match a with
  | EmptyStr => b
  | StrCons c a' => StrCons c (append a' b)
  end.

Fixpoint eqb (a b : str) : bool :=
  match a, b with
  | EmptyStr, EmptyStr => true
  | StrCons x a', StrCons y b' => N.eqb x y && eqb a' b'
  | _, _ => false
  end.

Fixpoint length (s : str) : nat :=
  match s with
  | EmptyStr => O
  | StrCons _ s' => S (length s')
  end.

(** The characters of a list in front of a [str]. *)
Definition prepend (l : list N) (s : str) : str := fold_right StrCons s l.

Fixpoint to_list (s : str) : list N :=
  match s with
  | EmptyStr => []
  | StrCons c s' => c :: to_list s'
  end.

Definition of_list (l : list N) : str := prepend l EmptyStr.

(** The [str] of an ASCII text of the Standard Library. *)
Fixpoint of_ascii (s : String.string) : str :=
  match s with
  | String.EmptyString => EmptyStr
  | String.String a s' => StrCons (N_of_ascii a) (of_ascii s')
  end.

End Str.

Arguments Str.append : simpl never.

Infix "++" := Str.append (right associativity, at level 60) : str_scope.
Infix "=?" := Str.eqb (at level 70) : str_scope.

#[global] Instance str_eq_dec : EqDecision str.
Proof. solve_decision. Defined.

#[global] Instance str_countable : Countable str.
Proof.
  refine (inj_countable' Str.to_list Str.of_list _).
  intros s. induction s as [|c s IH]; [reflexivity|].
  unfold Str.of_list in *. simpl. now rewrite IH.
Defined.

Open Scope str_scope.

(** ** Python string primitives *)

Module PyStr.

(** The characters for which [str.isspace] holds; [str.strip] removes
    them. *)
Definition WHITESPACE : list N :=
  [ 9; 10; 11; 12; 13; 28; 29; 30; 31; 32; 133; 160; 5760; 8192; 8193; 8194;
    8195; 8196; 8197; 8198; 8199; 8200; 8201; 8202; 8232; 8233; 8239; 8287;
    12288 ]%N.

(** [str.isspace] on one character. *)
Definition isspace (c : N) : bool := existsb (N.eqb c) WHITESPACE.

(** The characters outside ASCII that [str.upper] changes, each with what
    it becomes: one character, or two or three. *)
Definition UPPER_TABLE : list (N * list N) :=
  [ (181, [924]); (223, [83; 83]); (224, [192]); (225, [193]); (226, [194]);
    (227, [195]); (228, [196]); (229, [197]); (230, [198]); (231, [199]);
    (232, [200]); (233, [201]); (234, [202]); (235, [203]); (236, [204]);
    (237, [205]); (238, [206]); (239, [207]); (240, [208]); (241, [209]);
    (242, [210]); (243, [211]); (244, [212]); (245, [213]); (246, [214]);
    (248, [216]); (249, [217]); (250, [218]); (251, [219]); (252, [220]);
    (253, [221]); (254, [222]); (255, [376]); (257, [256]); (259, [258]);
    (261, [260]); (263, [262]); (265, [264]); (267, [266]); (269, [268]);
    (271, [270]); (273, [272]); (275, [274]); (277, [276]); (279, [278]);
    (281, [280]); (283, [282]); (285, [284]); (287, [286]); (289, [288]);
    (291, [290]); (293, [292]); (295, [294]); (297, [296]); (299, [298]);
    (301, [300]); (303, [302]); (305, [73]); (307, [306]); (309, [308]);
    (311, [310]); (314, [313]); (316, [315]); (318, [317]); (320, [319]);
    (322, [321]); (324, [323]); (326, [325]); (328, [327]); (329, [700; 78]);
    (331, [330]); (333, [332]); (335, [334]); (337, [336]); (339, [338]);
    (341, [340]); (343, [342]); (345, [344]); (347, [346]); (349, [348]);
    (351, [350]); (353, [352]); (355, [354]); (357, [356]); (359, [358]);
    (361, [360]); (363, [362]); (365, [364]); (367, [366]); (369, [368]);
    (371, [370]); (373, [372]); (375, [374]); (378, [377]); (380, [379]);
    (382, [381]); (383, [83]); (384, [579]); (387, [386]); (389, [388]);
    (392, [391]); (396, [395]); (402, [401]); (405, [502]); (409, [408]);
    (410, [573]); (414, [544]); (417, [416]); (419, [418]); (421, [420]);
    (424, [423]); (429, [428]); (432, [431]); (436, [435]); (438, [437]);
    (441, [440]); (445, [444]); (447, [503]); (453, [452]); (454, [452]);
    (456, [455]); (457, [455]); (459, [458]); (460, [458]); (462, [461]);
    (464, [463]); (466, [465]); (468, [467]); (470, [469]); (472, [471]);
    (474, [473]); (476, [475]); (477, [398]); (479, [478]); (481, [480]);
    (483, [482]); (485, [484]); (487, [486]); (489, [488]); (491, [490]);
    (493, [492]); (495, [494]); (496, [74; 780]); (498, [497]); (499, [497]);
    (501, [500]); (505, [504]); (507, [506]); (509, [508]); (511, [510]);
    (513, [512]); (515, [514]); (517, [516]); (519, [518]); (521, [520]);
    (523, [522]); (525, [524]); (527, [526]); (529, [528]); (531, [530]);
    (533, [532]); (535, [534]); (537, [536]); (539, [538]); (541, [540]);
    (543, [542]); (547, [546]); (549, [548]); (551, [550]); (553, [552]);
    (555, [554]); (557, [556]); (559, [558]); (561, [560]); (563, [562]);
    (572, [571]); (575, [11390]); (576, [11391]); (578, [577]); (583, [582]);
    (585, [584]); (587, [586]); (589, [588]); (591, [590]); (592, [11375]);
    (593, [11373]); (594, [11376]); (595, [385]); (596, [390]); (598, [393]);
    (599, [394]); (601, [399]); (603, [400]); (604, [42923]); (608, [403]);
    (609, [42924]); (611, [404]); (613, [42893]); (614, [42922]); (616, [407]);
    (617, [406]); (618, [42926]); (619, [11362]); (620, [42925]); (623, [412]);
    (625, [11374]); (626, [413]); (629, [415]); (637, [11364]); (640, [422]);
    (642, [42949]); (643, [425]); (647, [42929]); (648, [430]); (649, [580]);
    (650, [433]); (651, [434]); (652, [581]); (658, [439]); (669, [42930]);
    (670, [42928]); (837, [921]); (881, [880]); (883, [882]); (887, [886]);
    (891, [1021]); (892, [1022]); (893, [1023]); (912, [921; 776; 769]);
    (940, [902]); (941, [904]); (942, [905]); (943, [906]);
    (944, [933; 776; 769]); (945, [913]); (946, [914]); (947, [915]);
    (948, [916]); (949, [917]); (950, [918]); (951, [919]); (952, [920]);
    (953, [921]); (954, [922]); (955, [923]); (956, [924]); (957, [925]);
    (958, [926]); (959, [927]); (960, [928]); (961, [929]); (962, [931]);
    (963, [931]); (964, [932]); (965, [933]); (966, [934]); (967, [935]);
    (968, [936]); (969, [937]); (970, [938]); (971, [939]); (972, [908]);
    (973, [910]); (974, [911]); (976, [914]); (977, [920]); (981, [934]);
    (982, [928]); (983, [975]); (985, [984]); (987, [986]); (989, [988]);
    (991, [990]); (993, [992]); (995, [994]); (997, [996]); (999, [998]);
    (1001, [1000]); (1003, [1002]); (1005, [1004]); (1007, [1006]);
    (1008, [922]); (1009, [929]); (1010, [1017]); (1011, [895]); (1013, [917]);
    (1016, [1015]); (1019, [1018]); (1072, [1040]); (1073, [1041]);
    (1074, [1042]); (1075, [1043]); (1076, [1044]); (1077, [1045]);
    (1078, [1046]); (1079, [1047]); (1080, [1048]); (1081, [1049]);
    (1082, [1050]); (1083, [1051]); (1084, [1052]); (1085, [1053]);
    (1086, [1054]); (1087, [1055]); (1088, [1056]); (1089, [1057]);
    (1090, [1058]); (1091, [1059]); (1092, [1060]); (1093, [1061]);
    (1094, [1062]); (1095, [1063]); (1096, [1064]); (1097, [1065]);
    (1098, [1066]); (1099, [1067]); (1100, [1068]); (1101, [1069]);
    (1102, [1070]); (1103, [1071]); (1104, [1024]); (1105, [1025]);
    (1106, [1026]); (1107, [1027]); (1108, [1028]); (1109, [1029]);
    (1110, [1030]); (1111, [1031]); (1112, [1032]); (1113, [1033]);
    (1114, [1034]); (1115, [1035]); (1116, [1036]); (1117, [1037]);
    (1118, [1038]); (1119, [1039]); (1121, [1120]); (1123, [1122]);
    (1125, [1124]); (1127, [1126]); (1129, [1128]); (1131, [1130]);
    (1133, [1132]); (1135, [1134]); (1137, [1136]); (1139, [1138]);
    (1141, [1140]); (1143, [1142]); (1145, [1144]); (1147, [1146]);
    (1149, [1148]); (1151, [1150]); (1153, [1152]); (1163, [1162]);
    (1165, [1164]); (1167, [1166]); (1169, [1168]); (1171, [1170]);
    (1173, [1172]); (1175, [1174]); (1177, [1176]); (1179, [1178]);
    (1181, [1180]); (1183, [1182]); (1185, [1184]); (1187, [1186]);
    (1189, [1188]); (1191, [1190]); (1193, [1192]); (1195, [1194]);
    (1197, [1196]); (1199, [1198]); (1201, [1200]); (1203, [1202]);
    (1205, [1204]); (1207, [1206]); (1209, [1208]); (1211, [1210]);
    (1213, [1212]); (1215, [1214]); (1218, [1217]); (1220, [1219]);
    (1222, [1221]); (1224, [1223]); (1226, [1225]); (1228, [1227]);
    (1230, [1229]); (1231, [1216]); (1233, [1232]); (1235, [1234]);
    (1237, [1236]); (1239, [1238]); (1241, [1240]); (1243, [1242]);
    (1245, [1244]); (1247, [1246]); (1249, [1248]); (1251, [1250]);
    (1253, [1252]); (1255, [1254]); (1257, [1256]); (1259, [1258]);
    (1261, [1260]); (1263, [1262]); (1265, [1264]); (1267, [1266]);
    (1269, [1268]); (1271, [1270]); (1273, [1272]); (1275, [1274]);
    (1277, [1276]); (1279, [1278]); (1281, [1280]); (1283, [1282]);
    (1285, [1284]); (1287, [1286]); (1289, [1288]); (1291, [1290]);
    (1293, [1292]); (1295, [1294]); (1297, [1296]); (1299, [1298]);
    (1301, [1300]); (1303, [1302]); (1305, [1304]); (1307, [1306]);
    (1309, [1308]); (1311, [1310]); (1313, [1312]); (1315, [1314]);
    (1317, [1316]); (1319, [1318]); (1321, [1320]); (1323, [1322]);
    (1325, [1324]); (1327, [1326]); (1377, [1329]); (1378, [1330]);
    (1379, [1331]); (1380, [1332]); (1381, [1333]); (1382, [1334]);
    (1383, [1335]); (1384, [1336]); (1385, [1337]); (1386, [1338]);
    (1387, [1339]); (1388, [1340]); (1389, [1341]); (1390, [1342]);
    (1391, [1343]); (1392, [1344]); (1393, [1345]); (1394, [1346]);
    (1395, [1347]); (1396, [1348]); (1397, [1349]); (1398, [1350]);
    (1399, [1351]); (1400, [1352]); (1401, [1353]); (1402, [1354]);
    (1403, [1355]); (1404, [1356]); (1405, [1357]); (1406, [1358]);
    (1407, [1359]); (1408, [1360]); (1409, [1361]); (1410, [1362]);
    (1411, [1363]); (1412, [1364]); (1413, [1365]); (1414, [1366]);
    (1415, [1333; 1362]); (4304, [7312]); (4305, [7313]); (4306, [7314]);
    (4307, [7315]); (4308, [7316]); (4309, [7317]); (4310, [7318]);
    (4311, [7319]); (4312, [7320]); (4313, [7321]); (4314, [7322]);
    (4315, [7323]); (4316, [7324]); (4317, [7325]); (4318, [7326]);
    (4319, [7327]); (4320, [7328]); (4321, [7329]); (4322, [7330]);
    (4323, [7331]); (4324, [7332]); (4325, [7333]); (4326, [7334]);
    (4327, [7335]); (4328, [7336]); (4329, [7337]); (4330, [7338]);
    (4331, [7339]); (4332, [7340]); (4333, [7341]); (4334, [7342]);
    (4335, [7343]); (4336, [7344]); (4337, [7345]); (4338, [7346]);
    (4339, [7347]); (4340, [7348]); (4341, [7349]); (4342, [7350]);
    (4343, [7351]); (4344, [7352]); (4345, [7353]); (4346, [7354]);
    (4349, [7357]); (4350, [7358]); (4351, [7359]); (5112, [5104]);
    (5113, [5105]); (5114, [5106]); (5115, [5107]); (5116, [5108]);
    (5117, [5109]); (7296, [1042]); (7297, [1044]); (7298, [1054]);
    (7299, [1057]); (7300, [1058]); (7301, [1058]); (7302, [1066]);
    (7303, [1122]); (7304, [42570]); (7545, [42877]); (7549, [11363]);
    (7566, [42950]); (7681, [7680]); (7683, [7682]); (7685, [7684]);
    (7687, [7686]); (7689, [7688]); (7691, [7690]); (7693, [7692]);
    (7695, [7694]); (7697, [7696]); (7699, [7698]); (7701, [7700]);
    (7703, [7702]); (7705, [7704]); (7707, [7706]); (7709, [7708]);
    (7711, [7710]); (7713, [7712]); (7715, [7714]); (7717, [7716]);
    (7719, [7718]); (7721, [7720]); (7723, [7722]); (7725, [7724]);
    (7727, [7726]); (7729, [7728]); (7731, [7730]); (7733, [7732]);
    (7735, [7734]); (7737, [7736]); (7739, [7738]); (7741, [7740]);
    (7743, [7742]); (7745, [7744]); (7747, [7746]); (7749, [7748]);
    (7751, [7750]); (7753, [7752]); (7755, [7754]); (7757, [7756]);
    (7759, [7758]); (7761, [7760]); (7763, [7762]); (7765, [7764]);
    (7767, [7766]); (7769, [7768]); (7771, [7770]); (7773, [7772]);
    (7775, [7774]); (7777, [7776]); (7779, [7778]); (7781, [7780]);
    (7783, [7782]); (7785, [7784]); (7787, [7786]); (7789, [7788]);
    (7791, [7790]); (7793, [7792]); (7795, [7794]); (7797, [7796]);
    (7799, [7798]); (7801, [7800]); (7803, [7802]); (7805, [7804]);
    (7807, [7806]); (7809, [7808]); (7811, [7810]); (7813, [7812]);
    (7815, [7814]); (7817, [7816]); (7819, [7818]); (7821, [7820]);
    (7823, [7822]); (7825, [7824]); (7827, [7826]); (7829, [7828]);
    (7830, [72; 817]); (7831, [84; 776]); (7832, [87; 778]); (7833, [89; 778]);
    (7834, [65; 702]); (7835, [7776]); (7841, [7840]); (7843, [7842]);
    (7845, [7844]); (7847, [7846]); (7849, [7848]); (7851, [7850]);
    (7853, [7852]); (7855, [7854]); (7857, [7856]); (7859, [7858]);
    (7861, [7860]); (7863, [7862]); (7865, [7864]); (7867, [7866]);
    (7869, [7868]); (7871, [7870]); (7873, [7872]); (7875, [7874]);
    (7877, [7876]); (7879, [7878]); (7881, [7880]); (7883, [7882]);
    (7885, [7884]); (7887, [7886]); (7889, [7888]); (7891, [7890]);
    (7893, [7892]); (7895, [7894]); (7897, [7896]); (7899, [7898]);
    (7901, [7900]); (7903, [7902]); (7905, [7904]); (7907, [7906]);
    (7909, [7908]); (7911, [7910]); (7913, [7912]); (7915, [7914]);
    (7917, [7916]); (7919, [7918]); (7921, [7920]); (7923, [7922]);
    (7925, [7924]); (7927, [7926]); (7929, [7928]); (7931, [7930]);
    (7933, [7932]); (7935, [7934]); (7936, [7944]); (7937, [7945]);
    (7938, [7946]); (7939, [7947]); (7940, [7948]); (7941, [7949]);
    (7942, [7950]); (7943, [7951]); (7952, [7960]); (7953, [7961]);
    (7954, [7962]); (7955, [7963]); (7956, [7964]); (7957, [7965]);
    (7968, [7976]); (7969, [7977]); (7970, [7978]); (7971, [7979]);
    (7972, [7980]); (7973, [7981]); (7974, [7982]); (7975, [7983]);
    (7984, [7992]); (7985, [7993]); (7986, [7994]); (7987, [7995]);
    (7988, [7996]); (7989, [7997]); (7990, [7998]); (7991, [7999]);
    (8000, [8008]); (8001, [8009]); (8002, [8010]); (8003, [8011]);
    (8004, [8012]); (8005, [8013]); (8016, [933; 787]); (8017, [8025]);
    (8018, [933; 787; 768]); (8019, [8027]); (8020, [933; 787; 769]);
    (8021, [8029]); (8022, [933; 787; 834]); (8023, [8031]); (8032, [8040]);
    (8033, [8041]); (8034, [8042]); (8035, [8043]); (8036, [8044]);
    (8037, [8045]); (8038, [8046]); (8039, [8047]); (8048, [8122]);
    (8049, [8123]); (8050, [8136]); (8051, [8137]); (8052, [8138]);
    (8053, [8139]); (8054, [8154]); (8055, [8155]); (8056, [8184]);
    (8057, [8185]); (8058, [8170]); (8059, [8171]); (8060, [8186]);
    (8061, [8187]); (8064, [7944; 921]); (8065, [7945; 921]);
    (8066, [7946; 921]); (8067, [7947; 921]); (8068, [7948; 921]);
    (8069, [7949; 921]); (8070, [7950; 921]); (8071, [7951; 921]);
    (8072, [7944; 921]); (8073, [7945; 921]); (8074, [7946; 921]);
    (8075, [7947; 921]); (8076, [7948; 921]); (8077, [7949; 921]);
    (8078, [7950; 921]); (8079, [7951; 921]); (8080, [7976; 921]);
    (8081, [7977; 921]); (8082, [7978; 921]); (8083, [7979; 921]);
    (8084, [7980; 921]); (8085, [7981; 921]); (8086, [7982; 921]);
    (8087, [7983; 921]); (8088, [7976; 921]); (8089, [7977; 921]);
    (8090, [7978; 921]); (8091, [7979; 921]); (8092, [7980; 921]);
    (8093, [7981; 921]); (8094, [7982; 921]); (8095, [7983; 921]);
    (8096, [8040; 921]); (8097, [8041; 921]); (8098, [8042; 921]);
    (8099, [8043; 921]); (8100, [8044; 921]); (8101, [8045; 921]);
    (8102, [8046; 921]); (8103, [8047; 921]); (8104, [8040; 921]);
    (8105, [8041; 921]); (8106, [8042; 921]); (8107, [8043; 921]);
    (8108, [8044; 921]); (8109, [8045; 921]); (8110, [8046; 921]);
    (8111, [8047; 921]); (8112, [8120]); (8113, [8121]); (8114, [8122; 921]);
    (8115, [913; 921]); (8116, [902; 921]); (8118, [913; 834]);
    (8119, [913; 834; 921]); (8124, [913; 921]); (8126, [921]);
    (8130, [8138; 921]); (8131, [919; 921]); (8132, [905; 921]);
    (8134, [919; 834]); (8135, [919; 834; 921]); (8140, [919; 921]);
    (8144, [8152]); (8145, [8153]); (8146, [921; 776; 768]);
    (8147, [921; 776; 769]); (8150, [921; 834]); (8151, [921; 776; 834]);
    (8160, [8168]); (8161, [8169]); (8162, [933; 776; 768]);
    (8163, [933; 776; 769]); (8164, [929; 787]); (8165, [8172]);
    (8166, [933; 834]); (8167, [933; 776; 834]); (8178, [8186; 921]);
    (8179, [937; 921]); (8180, [911; 921]); (8182, [937; 834]);
    (8183, [937; 834; 921]); (8188, [937; 921]); (8526, [8498]); (8560, [8544]);
    (8561, [8545]); (8562, [8546]); (8563, [8547]); (8564, [8548]);
    (8565, [8549]); (8566, [8550]); (8567, [8551]); (8568, [8552]);
    (8569, [8553]); (8570, [8554]); (8571, [8555]); (8572, [8556]);
    (8573, [8557]); (8574, [8558]); (8575, [8559]); (8580, [8579]);
    (9424, [9398]); (9425, [9399]); (9426, [9400]); (9427, [9401]);
    (9428, [9402]); (9429, [9403]); (9430, [9404]); (9431, [9405]);
    (9432, [9406]); (9433, [9407]); (9434, [9408]); (9435, [9409]);
    (9436, [9410]); (9437, [9411]); (9438, [9412]); (9439, [9413]);
    (9440, [9414]); (9441, [9415]); (9442, [9416]); (9443, [9417]);
    (9444, [9418]); (9445, [9419]); (9446, [9420]); (9447, [9421]);
    (9448, [9422]); (9449, [9423]); (11312, [11264]); (11313, [11265]);
    (11314, [11266]); (11315, [11267]); (11316, [11268]); (11317, [11269]);
    (11318, [11270]); (11319, [11271]); (11320, [11272]); (11321, [11273]);
    (11322, [11274]); (11323, [11275]); (11324, [11276]); (11325, [11277]);
    (11326, [11278]); (11327, [11279]); (11328, [11280]); (11329, [11281]);
    (11330, [11282]); (11331, [11283]); (11332, [11284]); (11333, [11285]);
    (11334, [11286]); (11335, [11287]); (11336, [11288]); (11337, [11289]);
    (11338, [11290]); (11339, [11291]); (11340, [11292]); (11341, [11293]);
    (11342, [11294]); (11343, [11295]); (11344, [11296]); (11345, [11297]);
    (11346, [11298]); (11347, [11299]); (11348, [11300]); (11349, [11301]);
    (11350, [11302]); (11351, [11303]); (11352, [11304]); (11353, [11305]);
    (11354, [11306]); (11355, [11307]); (11356, [11308]); (11357, [11309]);
    (11358, [11310]); (11359, [11311]); (11361, [11360]); (11365, [570]);
    (11366, [574]); (11368, [11367]); (11370, [11369]); (11372, [11371]);
    (11379, [11378]); (11382, [11381]); (11393, [11392]); (11395, [11394]);
    (11397, [11396]); (11399, [11398]); (11401, [11400]); (11403, [11402]);
    (11405, [11404]); (11407, [11406]); (11409, [11408]); (11411, [11410]);
    (11413, [11412]); (11415, [11414]); (11417, [11416]); (11419, [11418]);
    (11421, [11420]); (11423, [11422]); (11425, [11424]); (11427, [11426]);
    (11429, [11428]); (11431, [11430]); (11433, [11432]); (11435, [11434]);
    (11437, [11436]); (11439, [11438]); (11441, [11440]); (11443, [11442]);
    (11445, [11444]); (11447, [11446]); (11449, [11448]); (11451, [11450]);
    (11453, [11452]); (11455, [11454]); (11457, [11456]); (11459, [11458]);
    (11461, [11460]); (11463, [11462]); (11465, [11464]); (11467, [11466]);
    (11469, [11468]); (11471, [11470]); (11473, [11472]); (11475, [11474]);
    (11477, [11476]); (11479, [11478]); (11481, [11480]); (11483, [11482]);
    (11485, [11484]); (11487, [11486]); (11489, [11488]); (11491, [11490]);
    (11500, [11499]); (11502, [11501]); (11507, [11506]); (11520, [4256]);
    (11521, [4257]); (11522, [4258]); (11523, [4259]); (11524, [4260]);
    (11525, [4261]); (11526, [4262]); (11527, [4263]); (11528, [4264]);
    (11529, [4265]); (11530, [4266]); (11531, [4267]); (11532, [4268]);
    (11533, [4269]); (11534, [4270]); (11535, [4271]); (11536, [4272]);
    (11537, [4273]); (11538, [4274]); (11539, [4275]); (11540, [4276]);
    (11541, [4277]); (11542, [4278]); (11543, [4279]); (11544, [4280]);
    (11545, [4281]); (11546, [4282]); (11547, [4283]); (11548, [4284]);
    (11549, [4285]); (11550, [4286]); (11551, [4287]); (11552, [4288]);
    (11553, [4289]); (11554, [4290]); (11555, [4291]); (11556, [4292]);
    (11557, [4293]); (11559, [4295]); (11565, [4301]); (42561, [42560]);
    (42563, [42562]); (42565, [42564]); (42567, [42566]); (42569, [42568]);
    (42571, [42570]); (42573, [42572]); (42575, [42574]); (42577, [42576]);
    (42579, [42578]); (42581, [42580]); (42583, [42582]); (42585, [42584]);
    (42587, [42586]); (42589, [42588]); (42591, [42590]); (42593, [42592]);
    (42595, [42594]); (42597, [42596]); (42599, [42598]); (42601, [42600]);
    (42603, [42602]); (42605, [42604]); (42625, [42624]); (42627, [42626]);
    (42629, [42628]); (42631, [42630]); (42633, [42632]); (42635, [42634]);
    (42637, [42636]); (42639, [42638]); (42641, [42640]); (42643, [42642]);
    (42645, [42644]); (42647, [42646]); (42649, [42648]); (42651, [42650]);
    (42787, [42786]); (42789, [42788]); (42791, [42790]); (42793, [42792]);
    (42795, [42794]); (42797, [42796]); (42799, [42798]); (42803, [42802]);
    (42805, [42804]); (42807, [42806]); (42809, [42808]); (42811, [42810]);
    (42813, [42812]); (42815, [42814]); (42817, [42816]); (42819, [42818]);
    (42821, [42820]); (42823, [42822]); (42825, [42824]); (42827, [42826]);
    (42829, [42828]); (42831, [42830]); (42833, [42832]); (42835, [42834]);
    (42837, [42836]); (42839, [42838]); (42841, [42840]); (42843, [42842]);
    (42845, [42844]); (42847, [42846]); (42849, [42848]); (42851, [42850]);
    (42853, [42852]); (42855, [42854]); (42857, [42856]); (42859, [42858]);
    (42861, [42860]); (42863, [42862]); (42874, [42873]); (42876, [42875]);
    (42879, [42878]); (42881, [42880]); (42883, [42882]); (42885, [42884]);
    (42887, [42886]); (42892, [42891]); (42897, [42896]); (42899, [42898]);
    (42900, [42948]); (42903, [42902]); (42905, [42904]); (42907, [42906]);
    (42909, [42908]); (42911, [42910]); (42913, [42912]); (42915, [42914]);
    (42917, [42916]); (42919, [42918]); (42921, [42920]); (42933, [42932]);
    (42935, [42934]); (42937, [42936]); (42939, [42938]); (42941, [42940]);
    (42943, [42942]); (42945, [42944]); (42947, [42946]); (42952, [42951]);
    (42954, [42953]); (42961, [42960]); (42967, [42966]); (42969, [42968]);
    (42998, [42997]); (43859, [42931]); (43888, [5024]); (43889, [5025]);
    (43890, [5026]); (43891, [5027]); (43892, [5028]); (43893, [5029]);
    (43894, [5030]); (43895, [5031]); (43896, [5032]); (43897, [5033]);
    (43898, [5034]); (43899, [5035]); (43900, [5036]); (43901, [5037]);
    (43902, [5038]); (43903, [5039]); (43904, [5040]); (43905, [5041]);
    (43906, [5042]); (43907, [5043]); (43908, [5044]); (43909, [5045]);
    (43910, [5046]); (43911, [5047]); (43912, [5048]); (43913, [5049]);
    (43914, [5050]); (43915, [5051]); (43916, [5052]); (43917, [5053]);
    (43918, [5054]); (43919, [5055]); (43920, [5056]); (43921, [5057]);
    (43922, [5058]); (43923, [5059]); (43924, [5060]); (43925, [5061]);
    (43926, [5062]); (43927, [5063]); (43928, [5064]); (43929, [5065]);
    (43930, [5066]); (43931, [5067]); (43932, [5068]); (43933, [5069]);
    (43934, [5070]); (43935, [5071]); (43936, [5072]); (43937, [5073]);
    (43938, [5074]); (43939, [5075]); (43940, [5076]); (43941, [5077]);
    (43942, [5078]); (43943, [5079]); (43944, [5080]); (43945, [5081]);
    (43946, [5082]); (43947, [5083]); (43948, [5084]); (43949, [5085]);
    (43950, [5086]); (43951, [5087]); (43952, [5088]); (43953, [5089]);
    (43954, [5090]); (43955, [5091]); (43956, [5092]); (43957, [5093]);
    (43958, [5094]); (43959, [5095]); (43960, [5096]); (43961, [5097]);
    (43962, [5098]); (43963, [5099]); (43964, [5100]); (43965, [5101]);
    (43966, [5102]); (43967, [5103]); (64256, [70; 70]); (64257, [70; 73]);
    (64258, [70; 76]); (64259, [70; 70; 73]); (64260, [70; 70; 76]);
    (64261, [83; 84]); (64262, [83; 84]); (64275, [1348; 1350]);
    (64276, [1348; 1333]); (64277, [1348; 1339]); (64278, [1358; 1350]);
    (64279, [1348; 1341]); (65345, [65313]); (65346, [65314]); (65347, [65315]);
    (65348, [65316]); (65349, [65317]); (65350, [65318]); (65351, [65319]);
    (65352, [65320]); (65353, [65321]); (65354, [65322]); (65355, [65323]);
    (65356, [65324]); (65357, [65325]); (65358, [65326]); (65359, [65327]);
    (65360, [65328]); (65361, [65329]); (65362, [65330]); (65363, [65331]);
    (65364, [65332]); (65365, [65333]); (65366, [65334]); (65367, [65335]);
    (65368, [65336]); (65369, [65337]); (65370, [65338]); (66600, [66560]);
    (66601, [66561]); (66602, [66562]); (66603, [66563]); (66604, [66564]);
    (66605, [66565]); (66606, [66566]); (66607, [66567]); (66608, [66568]);
    (66609, [66569]); (66610, [66570]); (66611, [66571]); (66612, [66572]);
    (66613, [66573]); (66614, [66574]); (66615, [66575]); (66616, [66576]);
    (66617, [66577]); (66618, [66578]); (66619, [66579]); (66620, [66580]);
    (66621, [66581]); (66622, [66582]); (66623, [66583]); (66624, [66584]);
    (66625, [66585]); (66626, [66586]); (66627, [66587]); (66628, [66588]);
    (66629, [66589]); (66630, [66590]); (66631, [66591]); (66632, [66592]);
    (66633, [66593]); (66634, [66594]); (66635, [66595]); (66636, [66596]);
    (66637, [66597]); (66638, [66598]); (66639, [66599]); (66776, [66736]);
    (66777, [66737]); (66778, [66738]); (66779, [66739]); (66780, [66740]);
    (66781, [66741]); (66782, [66742]); (66783, [66743]); (66784, [66744]);
    (66785, [66745]); (66786, [66746]); (66787, [66747]); (66788, [66748]);
    (66789, [66749]); (66790, [66750]); (66791, [66751]); (66792, [66752]);
    (66793, [66753]); (66794, [66754]); (66795, [66755]); (66796, [66756]);
    (66797, [66757]); (66798, [66758]); (66799, [66759]); (66800, [66760]);
    (66801, [66761]); (66802, [66762]); (66803, [66763]); (66804, [66764]);
    (66805, [66765]); (66806, [66766]); (66807, [66767]); (66808, [66768]);
    (66809, [66769]); (66810, [66770]); (66811, [66771]); (66967, [66928]);
    (66968, [66929]); (66969, [66930]); (66970, [66931]); (66971, [66932]);
    (66972, [66933]); (66973, [66934]); (66974, [66935]); (66975, [66936]);
    (66976, [66937]); (66977, [66938]); (66979, [66940]); (66980, [66941]);
    (66981, [66942]); (66982, [66943]); (66983, [66944]); (66984, [66945]);
    (66985, [66946]); (66986, [66947]); (66987, [66948]); (66988, [66949]);
    (66989, [66950]); (66990, [66951]); (66991, [66952]); (66992, [66953]);
    (66993, [66954]); (66995, [66956]); (66996, [66957]); (66997, [66958]);
    (66998, [66959]); (66999, [66960]); (67000, [66961]); (67001, [66962]);
    (67003, [66964]); (67004, [66965]); (68800, [68736]); (68801, [68737]);
    (68802, [68738]); (68803, [68739]); (68804, [68740]); (68805, [68741]);
    (68806, [68742]); (68807, [68743]); (68808, [68744]); (68809, [68745]);
    (68810, [68746]); (68811, [68747]); (68812, [68748]); (68813, [68749]);
    (68814, [68750]); (68815, [68751]); (68816, [68752]); (68817, [68753]);
    (68818, [68754]); (68819, [68755]); (68820, [68756]); (68821, [68757]);
    (68822, [68758]); (68823, [68759]); (68824, [68760]); (68825, [68761]);
    (68826, [68762]); (68827, [68763]); (68828, [68764]); (68829, [68765]);
    (68830, [68766]); (68831, [68767]); (68832, [68768]); (68833, [68769]);
    (68834, [68770]); (68835, [68771]); (68836, [68772]); (68837, [68773]);
    (68838, [68774]); (68839, [68775]); (68840, [68776]); (68841, [68777]);
    (68842, [68778]); (68843, [68779]); (68844, [68780]); (68845, [68781]);
    (68846, [68782]); (68847, [68783]); (68848, [68784]); (68849, [68785]);
    (68850, [68786]); (71872, [71840]); (71873, [71841]); (71874, [71842]);
    (71875, [71843]); (71876, [71844]); (71877, [71845]); (71878, [71846]);
    (71879, [71847]); (71880, [71848]); (71881, [71849]); (71882, [71850]);
    (71883, [71851]); (71884, [71852]); (71885, [71853]); (71886, [71854]);
    (71887, [71855]); (71888, [71856]); (71889, [71857]); (71890, [71858]);
    (71891, [71859]); (71892, [71860]); (71893, [71861]); (71894, [71862]);
    (71895, [71863]); (71896, [71864]); (71897, [71865]); (71898, [71866]);
    (71899, [71867]); (71900, [71868]); (71901, [71869]); (71902, [71870]);
    (71903, [71871]); (93792, [93760]); (93793, [93761]); (93794, [93762]);
    (93795, [93763]); (93796, [93764]); (93797, [93765]); (93798, [93766]);
    (93799, [93767]); (93800, [93768]); (93801, [93769]); (93802, [93770]);
    (93803, [93771]); (93804, [93772]); (93805, [93773]); (93806, [93774]);
    (93807, [93775]); (93808, [93776]); (93809, [93777]); (93810, [93778]);
    (93811, [93779]); (93812, [93780]); (93813, [93781]); (93814, [93782]);
    (93815, [93783]); (93816, [93784]); (93817, [93785]); (93818, [93786]);
    (93819, [93787]); (93820, [93788]); (93821, [93789]); (93822, [93790]);
    (93823, [93791]); (125218, [125184]); (125219, [125185]); (125220, [125186]);
    (125221, [125187]); (125222, [125188]); (125223, [125189]);
    (125224, [125190]); (125225, [125191]); (125226, [125192]);
    (125227, [125193]); (125228, [125194]); (125229, [125195]);
    (125230, [125196]); (125231, [125197]); (125232, [125198]);
    (125233, [125199]); (125234, [125200]); (125235, [125201]);
    (125236, [125202]); (125237, [125203]); (125238, [125204]);
    (125239, [125205]); (125240, [125206]); (125241, [125207]);
    (125242, [125208]); (125243, [125209]); (125244, [125210]);
    (125245, [125211]); (125246, [125212]); (125247, [125213]);
    (125248, [125214]); (125249, [125215]); (125250, [125216]);
    (125251, [125217]) ]%N.

Fixpoint table_lookup (c : N) (t : list (N * list N)) : option (list N) :=
  match t with
  | [] => None
  | (k, v) :: t' => if N.eqb c k then Some v else table_lookup c t'
  end.

(** [str.upper] on one character. *)
Definition upper_char (c : N) : list N :=
  (if c <? 128 then
     if (97 <=? c) && (c <=? 122) then [c - 32] else [c]
   else
     match table_lookup c UPPER_TABLE with
     | Some v => v
     | None => [c]
     end)%N.

(** [s.upper()] *)
Fixpoint upper (s : str) : str :=
  match s with
  | EmptyStr => EmptyStr
  | StrCons c s' => Str.prepend (upper_char c) (upper s')
  end.

(** [s.lstrip()] *)
Fixpoint lstrip (s : str) : str :=
  match s with
  | EmptyStr => EmptyStr
  | StrCons c s' => if isspace c then lstrip s' else s
  end.

(** [s.rstrip()] *)
Fixpoint rstrip (s : str) : str :=
  match s with
  | EmptyStr => EmptyStr
  | StrCons c s' =>
      match rstrip s' with
      | EmptyStr => if isspace c then EmptyStr else StrCons c EmptyStr
      | r => StrCons c r
      end
  end.

(** [s.strip()] *)
Definition strip (s : str) : str := rstrip (lstrip s).

(** [s.startswith(p)] *)
Fixpoint startswith (s p : str) {struct p} : bool :=
  match p, s with
  | EmptyStr, _ => true
  | StrCons _ _, EmptyStr => false
  | StrCons a p', StrCons b s' => if N.eqb a b then startswith s' p' else false
  end.

(** [s.startswith((p1, ..., pn))] *)
Definition startswith_any (s : str) (ps : list str) : bool :=
  existsb (startswith s) ps.

(** [sep.join(parts)] *)
Fixpoint join (sep : str) (parts : list str) : str :=
  match parts with
  | [] => ""
  | [p] => p
  | p :: rest => p ++ sep ++ join sep rest
  end.

Definition nl : str := StrCons 10 EmptyStr.

(** [str(n)] for an [int], and for a length. *)
Definition of_Z (n : Z) : str := Str.of_ascii (pretty n).
Definition of_nat (n : nat) : str := Str.of_ascii (pretty n).

(** [needle in s], as a proposition: [s] splits around [needle]. *)
Definition contains (s needle : str) : Prop :=
  exists pre post, s = pre ++ needle ++ post.

(** [x] occurs in [s] and [y] occurs after the end of that occurrence. *)
Definition occurs_before (s x y : str) : Prop :=
  exists pre mid post, s = pre ++ x ++ mid ++ y ++ post.

End PyStr.
(** ** Data model *)

(** The exception classes the handler tells apart: [sqlite3.Error] (with
    its subclasses) and the other subclasses of [Exception] raised in the
    module or by a collaborator. *)
Inductive exc_kind : Type :=
| SqliteError
| ValueError
| KeyError
| AttributeError
| TypeError
| OtherException.

Record exception : Type := Exc { exc_class : exc_kind; exc_str : str }.

(** What a [raise] carries up the stack: an instance of [Exception], or
    asyncio's [CancelledError].  The latter derives from [BaseException]
    only, so no [except Exception] clause catches it; it is raised into a
    coroutine at an [await], and a synchronous call cannot receive it.
    [KeyboardInterrupt] and [SystemExit], which neither the module nor its
    collaborators raise, are left out. *)
Inductive raised : Type :=
| Exn (e : exception)
| Cancelled.

Coercion Exn : exception >-> raised.

(** Let an expected type reach the argument of [inl] and the components of
    a pair, so that an [exception] can stand where a [raised] is due. *)
Arguments inl {A B} & _.
Arguments pair {A B} & _ _.

(** The outcome of a call that cannot be cancelled, as an outcome. *)
Definition of_sync {A} (r : exception + A) : raised + A :=
  match r with
  | inl e => inl (Exn e)
  | inr a => inr a
  end.

(** [isinstance(e, sqlite3.Error)] *)
Definition is_sqlite_error (e : exception) : bool :=
  match exc_class e with SqliteError => true | _ => false end.

(** A value bound in the [arguments] mapping of a tool call (decoded JSON).
    Floats, lists and dicts carry the text Python's [str] gives them. *)
Inductive jvalue : Type :=
| JNull
| JBool (b : bool)
| JInt (n : Z)
| JStr (s : str)
| JFloat (text : str)
| JList (text : str)
| JDict (text : str).

(** [type(v).__name__] *)
Definition type_name (v : jvalue) : str :=
  match v with
  | JNull => "NoneType"
  | JBool _ => "bool"
  | JInt _ => "int"
  | JStr _ => "str"
  | JFloat _ => "float"
  | JList _ => "list"
  | JDict _ => "dict"
  end.

(** [str(v)], which is also what an f-str field [{v}] produces. *)
Definition py_str (v : jvalue) : str :=
  match v with
  | JNull => "None"
  | JBool true => "True"
  | JBool false => "False"
  | JInt n => PyStr.of_Z n
  | JStr s => s
  | JFloat t | JList t | JDict t => t
  end.

(** A value in a row returned by the engine. *)
Inductive sql_value : Type :=
| SqlNull
| SqlInt (n : Z)
| SqlText (s : str)
| SqlReal (text : str)
| SqlBlob (text : str).

(** [dict(row)]: column name to value, in the engine's column order. *)
Definition Row : Type := list (str * sql_value).

(** What [cursor.execute] leaves behind: the row count and the outcome of a
    later [fetchall()]. *)
Record cursor : Type := Cursor {
  rowcount : Z;
  fetchall : exception + list Row
}.

(** [types.TextContent] *)
Record TextContent : Type := mkTextContent { type : str; text : str }.

(** [types.Tool]: the name, the description and, from [inputSchema], the
    properties with their declared type and the required field names. *)
Record Tool : Type := mkTool {
  tool_name : str;
  description : str;
  properties : list (str * str);
  required : list str
}.

(** Calls that leave the class. *)
Inductive event : Type :=
| EvConnect (path : str)
| EvExecute (sql : str) (params : list sql_value)
| EvCommit
| EvClose
| EvCreateMessage (prompt : str)
| EvResourceUpdated (uri : str).

(** The server object: the attributes set by [__init__] and the history of
    its calls to the collaborators. *)
Record McpServer : Type := mkServer {
  db_path : str;
  anthropic_api_key : option str;
  anthropic_client : bool;
  insights : list jvalue;
  log : list event
}.

(** The collaborators.  Every field receives the log as it was before the
    call. [None] in an [option] means the call returned.  The engine and
    the Anthropic client are called synchronously; the session is awaited,
    and the await can also be cancelled. *)
Record Env : Type := mkEnv {
  sqlite3_connect : list event -> str -> option exception;
  cursor_execute : list event -> str -> list sql_value -> exception + cursor;
  conn_commit : list event -> option exception;
  messages_create : list event -> str -> exception + str;
  send_resource_updated : list event -> str -> option raised;
  str_rows : list Row -> str
}.

(** ** The monad of methods *)

Definition M (A : Type) : Type := McpServer -> (raised + A) * McpServer.

Definition ret {A} (a : A) : M A := fun self => (inr a, self).

Definition bind {A B} (m : M A) (k : A -> M B) : M B :=
  fun self =>
    match m self with
    | (inr a, self') => k a self'
    | (inl e, self') => (inl e, self')
    end.

Definition raise {A} (e : raised) : M A := fun self => (inl e, self).

(** [try: m  except Exception as e: h e]; a [CancelledError] is not an
    [Exception] and goes on up. *)
Definition try_except {A} (m : M A) (h : exception -> M A) : M A :=
  fun self =>
    match m self with
    | (inr a, self') => (inr a, self')
    | (inl (Exn e), self') => h e self'
    | (inl Cancelled, self') => (inl Cancelled, self')
    end.

(** [try: m  finally: f], for an [f] that cannot raise. *)
Definition try_finally {A} (m : M A) (f : McpServer -> McpServer) : M A :=
  fun self => let '(r, self') := m self in (r, f self').

Definition get : M McpServer := fun self => (inr self, self).

Definition modify (f : McpServer -> McpServer) : M unit :=
  fun self => (inr tt, f self).

Notation "x <- m ;; k" := (bind m (fun x => k))
  (at level 100, m at next level, right associativity).

Definition emit (ev : event) (self : McpServer) : McpServer :=
  mkServer (db_path self) (anthropic_api_key self) (anthropic_client self)
           (insights self) (log self ++ [ev]).

Definition set_insights (l : list jvalue) (self : McpServer) : McpServer :=
  mkServer (db_path self) (anthropic_api_key self) (anthropic_client self)
           l (log self).

(** A call whose collaborator either returns a value or raises. *)
Definition call {A} (ev : event) (answer : list event -> exception + A) : M A :=
  fun self => (of_sync (answer (log self)), emit ev self).

Definition of_option (o : option exception) : exception + unit :=
  match o with Some e => inl e | None => inr tt end.

(** [await] of a coroutine that returns nothing: it returns, raises, or
    is cancelled. *)
Definition await (ev : event) (answer : list event -> option raised) : M unit :=
  fun self =>
    (match answer (log self) with Some r => inl r | None => inr tt end,
     emit ev self).

(** [McpServer.__init__], without the file system: the client attribute is
    only set when the key is truthy. *)
Definition McpServer_init (path : str) (key : option str) : McpServer :=
  mkServer path key
           (match key with Some k => negb (k =? "") | None => false end)
           [] [].

(** ** The memo *)

Definition NO_INSIGHTS : str :=
  "No business insights have been discovered yet.".

Definition MEMO_HEADING : str :=
  "📊 Business Intelligence Memo 📊" ++ PyStr.nl ++ PyStr.nl.

(** ["\n".join(f"- {insight}" for insight in self.insights)] *)
Definition bullets (l : list jvalue) : str :=
  PyStr.join PyStr.nl (map (fun insight => "- " ++ py_str insight) l).

(** The memo built when no API key is configured. *)
Definition basic_memo (l : list jvalue) : str :=
  let memo := MEMO_HEADING in
  let memo := memo ++ "Key Insights Discovered:" ++ PyStr.nl ++ PyStr.nl in
  let memo := memo ++ bullets l in
  if (1 <? length l)%nat then
    let memo := memo ++ PyStr.nl ++ "Summary:" ++ PyStr.nl in
    memo ++ "Analysis has revealed " ++ PyStr.of_nat (length l)
         ++ " key business insights that suggest opportunities for strategic optimization and growth."
  else memo.

Definition prompt_head : str :=
  PyStr.join PyStr.nl
    [
     "";
     "                You are tasked with summarizing a set of business insights into a formal business memo. The insights are typically 1-2 sentences each and cover various aspects of the business. Your goal is to create a concise, well-organized memo that effectively communicates these insights to the recipient.";
     "";
     "                Here are the business insights you need to summarize:";
     "";
     "                <insights>";
     "                "
    ].

Definition prompt_tail : str :=
  PyStr.join PyStr.nl
    [
     "";
     "                </insights>";
     "";
     "                To create the memo, follow these steps:";
     "";
     "                1. Review all the insights carefully.";
     "                2. Group related insights together under appropriate subheadings.";
     "                3. Summarize each group of insights into 1-2 concise paragraphs.";
     "                4. Ensure the memo flows logically from one point to the next.";
     "                5. Use professional language and maintain a formal tone throughout the memo.";
     "";
     "                Format the memo using these guidelines:";
     "                - Single-space the content, with a blank line between paragraphs";
     "                - Use bullet points or numbered lists where appropriate";
     "                - Keep the entire memo to one page if possible, two pages maximum";
     "";
     "                Write your final memo within <memo> tags. Ensure that all components of the memo are included and properly formatted.";
     "                "
    ].

(** The prompt sent to the model: the template with the bullet list in
    place of its [{insights}] field. *)
Definition memo_prompt (l : list jvalue) : str :=
  prompt_head ++ bullets l ++ prompt_tail.

(** ** Tool catalog: [handle_list_tools] *)

Definition handle_list_tools : list Tool :=
  [ mkTool "read-query" "Execute a SELECT query on the SQLite database"
           [("query", "string")] ["query"];
    mkTool "write-query"
           "Execute an INSERT, UPDATE, or DELETE query on the SQLite database"
           [("query", "string")] ["query"];
    mkTool "create-table" "Create a new table in the SQLite database"
           [("query", "string")] ["query"];
    mkTool "list-tables" "List all tables in the SQLite database" [] [];
    mkTool "describe-table" "Get the schema information for a specific table"
           [("table_name", "string")] ["table_name"];
    mkTool "append-insight" "Add a business insight to the memo"
           [("insight", "string")] ["insight"] ].

(** ** Argument mappings *)

(** [bool(arguments)]: [None] and the empty dict are falsy. *)
Definition truthy (arguments : option (gmap str jvalue)) : bool :=
  match arguments with
  | Some m => negb (bool_decide (m = ∅))
  | None => false
  end.

(** [key in arguments], for a dict. *)
Definition has_key (arguments : option (gmap str jvalue)) (key : str) : bool :=
  match arguments with
  | Some m => bool_decide (is_Some (m !! key))
  | None => false
  end.

(** [repr(key)] of a key without quotes or escapes in it. *)
Definition repr_key (key : str) : str := "'" ++ key ++ "'".

(** [arguments[key]] *)
Definition getitem (arguments : option (gmap str jvalue)) (key : str) : M jvalue :=
  match arguments with
  | Some m =>
      match m !! key with
      | Some v => ret v
      | None => raise (Exc KeyError (repr_key key))
      end
  | None => raise (Exc TypeError "'NoneType' object is not subscriptable")
  end.

(** [v.strip()]: only a [str] has the method. *)
Definition str_strip (v : jvalue) : M str :=
  match v with
  | JStr s => ret (PyStr.strip s)
  | _ => raise (Exc AttributeError
                    ("'" ++ type_name v ++ "' object has no attribute 'strip'"))
  end.

(** The expression [query.strip().upper()] every keyword test starts from. *)
Definition leading_form (query : str) : str :=
  PyStr.upper (PyStr.strip query).

Definition WRITE_KEYWORDS : list str :=
  ["INSERT"; "UPDATE"; "DELETE"; "CREATE"; "DROP"; "ALTER"].

(** The executor's test: commit and report affected rows. *)
Definition commits (query : str) : bool :=
  PyStr.startswith_any (leading_form query) WRITE_KEYWORDS.

(** The test of [read-query] and [write-query]. *)
Definition is_select (query : str) : bool :=
  PyStr.startswith (leading_form query) "SELECT".

(** The test of [create-table]. *)
Definition is_create_table (query : str) : bool :=
  PyStr.startswith (leading_form query) "CREATE TABLE".

Definition text_content (t : str) : list TextContent :=
  [mkTextContent "text" t].

Definition MEMO_URI : str := "memo://insights".

Section Server.

Variable E : Env.

(** *** [_execute_query] *)

(** [with closing(sqlite3.connect(self.db_path)) as conn: body] *)
Definition with_connection {A} (body : M A) : M A :=
  self <- get ;;
  _ <- call (EvConnect (db_path self))
            (fun h => of_option (sqlite3_connect E h (db_path self))) ;;
  try_finally body (emit EvClose).

(** [params] is the parameter sequence; the empty list stands for the falsy
    values ([None], no parameters), for which the source calls
    [cursor.execute(query)]. *)
Definition _execute_query (query : str) (params : list sql_value) : M (list Row) :=
  try_except
    (with_connection
       (cur <- call (EvExecute query params)
                    (fun h => cursor_execute E h query params) ;;
        if commits query then
          _ <- call EvCommit (fun h => of_option (conn_commit E h)) ;;
          ret [[("affected_rows", SqlInt (rowcount cur))]]
        else
          fun self => (of_sync (fetchall cur), self)))
    (fun e => raise e).

(** *** [_synthesize_memo] *)

(** [self.anthropic_client]: the attribute exists only when [__init__] got
    a truthy key. *)
Definition get_anthropic_client : M unit :=
  self <- get ;;
  if anthropic_client self then ret tt
  else raise (Exc AttributeError
                  "'McpServer' object has no attribute 'anthropic_client'").

Definition _synthesize_memo : M str :=
  self <- get ;;
  match insights self with
  | [] => ret NO_INSIGHTS
  | _ :: _ =>
      let insights_text := bullets (insights self) in
      match anthropic_api_key self with
      | None => ret (basic_memo (insights self))
      | Some _ =>
          try_except
            (let prompt := memo_prompt (insights self) in
             _ <- get_anthropic_client ;;
             reply <- call (EvCreateMessage prompt)
                           (fun h => messages_create E h prompt) ;;
             ret (PyStr.strip reply))
            (fun _ => ret insights_text)
      end
  end.

(** *** [handle_call_tool] *)

Definition missing (arguments : option (gmap str jvalue)) (key : str) : bool :=
  negb (truthy arguments) || negb (has_key arguments key).

(** The second chain of the handler: the three query tools and the final
    [else]. *)
Definition query_tools (name : str) (arguments : option (gmap str jvalue))
  : M (list TextContent) :=
  if name =? "read-query" then
    q <- getitem arguments "query" ;;
    s <- str_strip q ;;
    if negb (PyStr.startswith (PyStr.upper s) "SELECT") then
      raise (Exc ValueError "Only SELECT queries are allowed for read-query")
    else
      results <- _execute_query (py_str q) [] ;;
      ret (text_content (str_rows E results))
  else if name =? "write-query" then
    q <- getitem arguments "query" ;;
    s <- str_strip q ;;
    if PyStr.startswith (PyStr.upper s) "SELECT" then
      raise (Exc ValueError "SELECT queries are not allowed for write-query")
    else
      results <- _execute_query (py_str q) [] ;;
      ret (text_content (str_rows E results))
  else if name =? "create-table" then
    q <- getitem arguments "query" ;;
    s <- str_strip q ;;
    if negb (PyStr.startswith (PyStr.upper s) "CREATE TABLE") then
      raise (Exc ValueError "Only CREATE TABLE statements are allowed")
    else
      _ <- _execute_query (py_str q) [] ;;
      ret (text_content "Table created successfully")
  else
    raise (Exc ValueError ("Unknown tool: " ++ name)).

(** The body of the [try] block. *)
Definition call_tool_body (name : str) (arguments : option (gmap str jvalue))
  : M (list TextContent) :=
  if name =? "list-tables" then
    results <- _execute_query "SELECT name FROM sqlite_master WHERE type='table'" [] ;;
    ret (text_content (str_rows E results))
  else if name =? "describe-table" then
    if missing arguments "table_name" then
      raise (Exc ValueError "Missing table_name argument")
    else
      table_name <- getitem arguments "table_name" ;;
      results <- _execute_query ("PRAGMA table_info(" ++ py_str table_name ++ ")") [] ;;
      ret (text_content (str_rows E results))
  else if name =? "append-insight" then
    if missing arguments "insight" then
      raise (Exc ValueError "Missing insight argument")
    else
      insight <- getitem arguments "insight" ;;
      _ <- modify (fun self => set_insights (insights self ++ [insight]) self) ;;
      memo <- _synthesize_memo ;;
      _ <- await (EvResourceUpdated MEMO_URI)
                 (fun h => send_resource_updated E h MEMO_URI) ;;
      ret (text_content "Insight added to memo")
  else if negb (truthy arguments) then
    raise (Exc ValueError "Missing arguments")
  else
    query_tools name arguments.

Definition DATABASE_ERROR : str := "Database error: ".
Definition GENERIC_ERROR : str := "Error: ".

(** The [except] clauses: [sqlite3.Error] first, then [Exception]. *)
Definition error_text (e : exception) : str :=
  if is_sqlite_error e then DATABASE_ERROR ++ exc_str e
  else GENERIC_ERROR ++ exc_str e.

Definition handle_call_tool (name : str) (arguments : option (gmap str jvalue))
  : M (list TextContent) :=
  try_except (call_tool_body name arguments)
             (fun e => ret (text_content (error_text e))).

End Server.

(** ** Concrete collaborators, for running the handlers *)

(** [str] of a list of row dicts, for values without quotes or escapes. *)
Definition repr_value (v : sql_value) : str :=
  match v with
  | SqlNull => "None"
  | SqlInt n => PyStr.of_Z n
  | SqlText s => "'" ++ s ++ "'"
  | SqlReal t | SqlBlob t => t
  end.

Definition repr_row (r : Row) : str :=
  "{" ++ PyStr.join ", " (map (fun kv => repr_key (fst kv) ++ ": " ++ repr_value (snd kv)) r) ++ "}".

Definition repr_rows (rows : list Row) : str :=
  "[" ++ PyStr.join ", " (map repr_row rows) ++ "]".

(** An engine that accepts every statement and holds no rows, a model that
    answers with a fixed memo, a session that accepts notifications. *)
Definition quiet_env : Env :=
  mkEnv (fun _ _ => None)
        (fun _ _ _ => inr (Cursor 0 (inr [])))
        (fun _ => None)
        (fun _ _ => inr " Executive memo ")
        (fun _ _ => None)
        repr_rows.

Definition APIConnectionError : exception := Exc OtherException "Connection error.".

(** The same, with a model endpoint that cannot be reached. *)
Definition offline_env : Env :=
  mkEnv (sqlite3_connect quiet_env) (cursor_execute quiet_env)
        (conn_commit quiet_env)
        (fun _ _ => inl APIConnectionError)
        (send_resource_updated quiet_env) repr_rows.

Definition is_create_message (ev : event) : bool :=
  match ev with EvCreateMessage _ => true | _ => false end.

(** The same, with a model endpoint that answers the first request and is
    unreachable afterwards. *)
Definition flaky_env : Env :=
  mkEnv (sqlite3_connect quiet_env) (cursor_execute quiet_env)
        (conn_commit quiet_env)
        (fun h _ => if existsb is_create_message h then inl APIConnectionError
                    else inr " Executive memo ")
        (send_resource_updated quiet_env) repr_rows.

Definition ClosedSession : exception := Exc OtherException "session closed".

(** The same as [quiet_env], with a session that has gone away. *)
Definition closed_session_env : Env :=
  mkEnv (sqlite3_connect quiet_env) (cursor_execute quiet_env)
        (conn_commit quiet_env) (messages_create quiet_env)
        (fun _ _ => Some (Exn ClosedSession)) repr_rows.

(** The same as [quiet_env], with a request that is cancelled while the
    notification is awaited. *)
Definition cancelling_env : Env :=
  mkEnv (sqlite3_connect quiet_env) (cursor_execute quiet_env)
        (conn_commit quiet_env) (messages_create quiet_env)
        (fun _ _ => Some Cancelled) repr_rows.

(** An engine that rejects every statement. *)
Definition rejecting_env : Env :=
  mkEnv (fun _ _ => None)
        (fun _ sql _ => inl (Exc SqliteError "near syntax error"))
        (fun _ => None)
        (messages_create quiet_env)
        (send_resource_updated quiet_env) repr_rows.

Definition fresh : McpServer := McpServer_init "test.db" None.
Definition fresh_with_key : McpServer := McpServer_init "test.db" (Some "sk-test").

Definition args1 (k : str) (v : jvalue) : option (gmap str jvalue) :=
  Some {[ k := v ]}.
Definition no_args : option (gmap str jvalue) := Some ∅.

Definition two_insights (self : McpServer) : McpServer :=
  set_insights [JStr "X"; JStr "Y"] self.

Definition describe_table_tool : Tool :=
  mkTool "describe-table" "Get the schema information for a specific table"
         [("table_name", "string")] ["table_name"].

(** ** Vocabulary of the statements *)

(** A computation that, when it returns, returns one text content. *)
Definition returns_text (c : M (list TextContent)) : Prop :=
  forall self r self', c self = (inr r, self') -> exists t, r = text_content t.

(** A computation that is never cancelled. *)
Definition never_cancelled {A} (c : M A) : Prop :=
  forall self, fst (c self) <> inl Cancelled.

(** [name] is the name of a tool of the catalog. *)
Definition known_tool (name : str) : bool :=
  existsb (Str.eqb name) (map tool_name handle_list_tools).

(** The value bound to [key], if the call has arguments and binds it. *)
Definition lookup_arg (arguments : option (gmap str jvalue)) (key : str)
  : option jvalue :=
  match arguments with
  | Some m => m !! key
  | None => None
  end.

Definition is_str (v : jvalue) : bool :=
  match v with JStr _ => true | _ => false end.

(** The statement shapes each query tool refuses. *)
Definition violates_policy (name query : str) : bool :=
  if name =? "read-query" then negb (is_select query)
  else if name =? "write-query" then is_select query
  else if name =? "create-table" then negb (is_create_table query)
  else false.

(** The text of the [ValueError] raised on a refused statement. *)
Definition policy_message (name : str) : str :=
  if name =? "read-query" then "Only SELECT queries are allowed for read-query"
  else if name =? "write-query" then "SELECT queries are not allowed for write-query"
  else "Only CREATE TABLE statements are allowed".

(** A summarization client is available: the key is set and [__init__]
    created the client. *)
Definition configured (self : McpServer) : bool :=
  match anthropic_api_key self with
  | Some _ => anthropic_client self
  | None => false
  end.

(** The request a rendering of a non-empty memo sends, if any. *)
Definition memo_requests (self : McpServer) : list event :=
  match insights self with
  | [] => []
  | _ :: _ =>
      if configured self then [EvCreateMessage (memo_prompt (insights self))]
      else []
  end.

Definition add_log (evs : list event) (self : McpServer) : McpServer :=
  mkServer (db_path self) (anthropic_api_key self) (anthropic_client self)
           (insights self) (log self ++ evs).

(** The summarization requests in a log. *)
Definition requests (h : list event) : list event :=
  List.filter is_create_message h.

(** A computation that sends no summarization request. *)
Definition sends_no_request {A} (c : M A) : Prop :=
  forall self, requests (log (snd (c self))) = requests (log self).

(** The summarization requests one tool call sends. *)
Definition requests_of_call (name : str)
    (arguments : option (gmap str jvalue)) (self : McpServer) : list event :=
  if name =? "append-insight" then
    match lookup_arg arguments "insight" with
    | Some v =>
        if configured self
        then [EvCreateMessage (memo_prompt (insights self ++ [v]))]
        else []
    | None => []
    end
  else [].

(** What the renderer returns when it sends no request. *)
Definition plain_memo (self : McpServer) : str :=
  match insights self with
  | [] => NO_INSIGHTS
  | _ :: _ =>
      match anthropic_api_key self with
      | None => basic_memo (insights self)
      | Some _ => bullets (insights self)
      end
  end.

(** What [str.upper] makes of a character other than white space: at
    least one character, none of them white space, each left alone by
    [str.upper]. *)
Definition regular_image (v : list N) : bool :=
  forallb (fun d => bool_decide (PyStr.upper_char d = [d])) v
  && (negb (bool_decide (v = [])) && forallb (fun d => negb (PyStr.isspace d)) v).

Definition regular_char (c : N) : bool :=
  if PyStr.isspace c then bool_decide (PyStr.upper_char c = [c])
  else regular_image (PyStr.upper_char c).

Definition regular_entry (kv : N * list N) : bool :=
  negb (PyStr.isspace (fst kv)) && regular_image (snd kv).

(** A str that does not begin with white space. *)
Definition trimmed_left (s : str) : Prop :=
  match s with
  | EmptyStr => True
  | StrCons c _ => PyStr.isspace c = false
  end.

(** ** Resources and prompts *)

(** [s.replace(old, new)] for a non-empty [old]: [skip] counts the
    characters of a match that are still to be dropped. *)
Fixpoint replace_from (skip : nat) (s old new : str) : str :=
  match s with
  | EmptyStr => EmptyStr
  | StrCons c s' =>
      match skip with
      | S k => replace_from k s' old new
      | O =>
          if PyStr.startswith s old
          then new ++ replace_from (Str.length old - 1) s' old new
          else StrCons c (replace_from 0 s' old new)
      end
  end.

(** [new] after every character, as [replace] does for an empty [old]. *)
Fixpoint follow_each (s new : str) : str :=
  match s with
  | EmptyStr => EmptyStr
  | StrCons c s' => StrCons c (new ++ follow_each s' new)
  end.

(** [s.replace(old, new)] *)
Definition py_replace (s old new : str) : str :=
  match old with
  | EmptyStr => new ++ follow_each s new
  | StrCons _ _ => replace_from 0 s old new
  end.

(** An [AnyUrl] as the handlers see it: [uri.scheme] and [str(uri)].
    Every URL the library builds is one of these pairs; the library
    normalises the text it prints, so not every pair is a URL. *)
Record AnyUrl : Type := mkUrl { scheme : str; url_str : str }.

(** [types.Resource] *)
Record Resource : Type := mkResource {
  resource_uri : AnyUrl;
  resource_name : str;
  resource_description : str;
  mimeType : str
}.

(** [handle_list_resources] *)
Definition handle_list_resources : list Resource :=
  [ mkResource (mkUrl "memo" "memo://insights") "Business Insights Memo"
               "A living document of discovered business insights" "text/plain" ].

Section Resources.

Variable E : Env.

(** [handle_read_resource]: its exceptions are not caught in the module. *)
Definition handle_read_resource (uri : AnyUrl) : M str :=
  if negb (scheme uri =? "memo") then
    raise (Exc ValueError ("Unsupported URI scheme: " ++ scheme uri))
  else
    let path := py_replace (url_str uri) "memo://" "" in
    if (path =? "") || negb (path =? "insights") then
      raise (Exc ValueError ("Unknown resource path: " ++ path))
    else
      _synthesize_memo E.

(** A session: tool calls handled one after the other. *)
Fixpoint run_calls (calls : list (str * option (gmap str jvalue)))
    (self : McpServer) : McpServer :=
  match calls with
  | [] => self
  | (name, arguments) :: rest =>
      run_calls rest (snd (handle_call_tool E name arguments self))
  end.

End Resources.

(** [types.PromptArgument], [types.Prompt], [types.PromptMessage] and
    [types.GetPromptResult] *)
Record PromptArgument : Type := mkPromptArgument {
  argument_name : str;
  argument_description : str;
  argument_required : bool
}.

Record Prompt : Type := mkPrompt {
  prompt_name : str;
  prompt_description : str;
  prompt_arguments : list PromptArgument
}.

Record PromptMessage : Type := mkPromptMessage { role : str; content : TextContent }.

Record GetPromptResult : Type := mkGetPromptResult {
  result_description : str;
  messages : list PromptMessage
}.

(** [handle_list_prompts] *)
Definition handle_list_prompts : list Prompt :=
  [ mkPrompt "mcp-demo"
      "A prompt to seed the database with initial data and demonstrate what you can do with an SQLite MCP Server + Claude"
      [ mkPromptArgument "topic" "Topic to seed the database with initial data" true ] ].

Definition dq : str := StrCons 34 EmptyStr.

(** The demo template around its three [{topic}] fields. *)
Definition demo_head : str :=
  PyStr.join PyStr.nl
    [
     "";
     "            The assistants goal is to walkthrough an informative demo of MCP. To demonstrate the Model Context Protocol (MCP) we will leverage this example server to interact with an SQLite database.";
     "            It is important that you first explain to the user what is going on. The user has downloaded and installed the SQLite MCP Server and is now ready to use it.";
     "            The have selected the MCP menu item which is contained within a parent menu denoted by the paperclip icon. Inside this menu they selected an icon that illustrates two electrical plugs connecting. This is the MCP menu.";
     "            Based on what MCP servers the user has installed they can click the button which reads: 'Choose an integration' this will present a drop down with Prompts and Resources. The user hase selected the prompt titled: 'mcp-demo'.";
     "            This text file is that prompt. The goal of the following instructions is to walk the user through the process of using the 3 core aspects of an MCP server. These are: Prompts, Tools, and Resources.";
     "            They have already used a prompt and provided a topic. The topic is: "
    ].

Definition demo_mid1 : str :=
  PyStr.join PyStr.nl
    [
     ". The user is now ready to begin the demo.";
     "            Here is some more information about mcp and this specific mcp server:";
     "            <mcp>";
     "            Prompts:";
     "            This server provides a pre-written prompt called " ++ dq ++ "mcp-demo" ++ dq ++ " that helps users create and analyze database scenarios. The prompt accepts a " ++ dq ++ "topic" ++ dq ++ " argument and guides users through creating tables, analyzing data, and generating insights. For example, if a user provides " ++ dq ++ "retail sales" ++ dq ++ " as the topic, the prompt will help create relevant database tables and guide the analysis process. Prompts basically serve as interactive templates that help structure the conversation with the LLM in a useful way.";
     "            Resources:";
     "            This server exposes one key resource: " ++ dq ++ "memo://insights" ++ dq ++ ", which is a business insights memo that gets automatically updated throughout the analysis process. As users analyze the database and discover insights, the memo resource gets updated in real-time to reflect new findings. The memo can even be enhanced with Claude's help if an Anthropic API key is provided, turning raw insights into a well-structured business document. Resources act as living documents that provide context to the conversation.";
     "            Tools:";
     "            This server provides several SQL-related tools:";
     "            " ++ dq ++ "read-query" ++ dq ++ ": Executes SELECT queries to read data from the database";
     "            " ++ dq ++ "write-query" ++ dq ++ ": Executes INSERT, UPDATE, or DELETE queries to modify data";
     "            " ++ dq ++ "create-table" ++ dq ++ ": Creates new tables in the database";
     "            " ++ dq ++ "list-tables" ++ dq ++ ": Shows all existing tables";
     "            " ++ dq ++ "describe-table" ++ dq ++ ": Shows the schema for a specific table";
     "            " ++ dq ++ "append-insight" ++ dq ++ ": Adds a new business insight to the memo resource";
     "            </mcp>";
     "            <demo-instructions>";
     "            You are an AI assistant tasked with generating a comprehensive business scenario based on a given topic. ";
     "            Your goal is to create a narrative that involves a data-driven business problem, develop a database structure to support it, generate relevant queries, create a dashboard, and provide a final solution. ";
     "            ";
     "            At each step you will pause for user input to guide the scenario creation process. Overall ensure the scenario is engaging, informative, and demonstrates the capabilities of the SQLite MCP Server.";
     "            You should guide the scenario to completion. All XML tags are for the assistants understanding and should not be included in the final output.";
     "";
     "            1. The user has chosen the topic: "
    ].

Definition demo_mid2 : str :=
  PyStr.join PyStr.nl
    [
     ".";
     "";
     "            2. Create a business problem narrative:";
     "            a. Describe a high-level business situation or problem based on the given topic.";
     "            b. Include a protagonist (the user) who needs to collect and analyze data from a database.";
     "            c. Add an external, potentially comedic reason why the data hasn't been prepared yet.";
     "            d. Mention an approaching deadline and the need to use Claude (you) as a business tool to help.";
     "";
     "            3. Setup the data:";
     "            a. Instead of asking about the data that is required for the scenario, just go ahead and use the tools to create the data. Inform the user you are " ++ dq ++ "Setting up the data" ++ dq ++ ".";
     "            b. Design a set of table schemas that represent the data needed for the business problem.";
     "            c. Include at least 2-3 tables with appropriate columns and data types.";
     "            d. Leverage the tools to create the tables in the SQLite database.";
     "            e. Create INSERT statements to populate each table with relevant synthetic data.";
     "            f. Ensure the data is diverse and representative of the business problem.";
     "            g. Include at least 10-15 rows of data for each table.";
     "";
     "            4. Pause for user input:";
     "            a. Summarize to the user what data we have created.";
     "            b. Present the user with a set of multiple choices for the next steps.";
     "            c. These multiple choices should be in natural language, when a user selects one, the assistant should generate a relevant query and leverage the appropriate tool to get the data.";
     "";
     "            6. Iterate on queries:";
     "            a. Present 1 additional multiple-choice query options to the user. Its importnat to not loop too many times as this is a short demo.";
     "            b. Explain the purpose of each query option.";
     "            c. Wait for the user to select one of the query options.";
     "            d. After each query be sure to opine on the results.";
     "            e. Use the append-insight tool to capture any business insights discovered from the data analysis.";
     "";
     "            7. Generate a dashboard:";
     "            a. Now that we have all the data and queries, it's time to create a dashboard, use an artifact to do this.";
     "            b. Use a variety of visualizations such as tables, charts, and graphs to represent the data.";
     "            c. Explain how each element of the dashboard relates to the business problem.";
     "            d. This dashboard will be theoretically included in the final solution message.";
     "";
     "            8. Craft the final solution message:";
     "            a. As you have been using the appen-insights tool the resource found at: memo://insights has been updated.";
     "            b. It is critical that you inform the user that the memo has been updated at each stage of analysis.";
     "            c. Ask the user to go to the attachment menu (paperclip icon) and select the MCP menu (two electrical plugs connecting) and choose an integration: " ++ dq ++ "Business Insights Memo" ++ dq ++ ".";
     "            d. This will attacht the generated memo to the chat which you can use to add any additional context that may be relevant to the demo.";
     "            e. Present the final memo to the user in an artifact.";
     "            ";
     "            9. Wrap up the scenario:";
     "            a. Explain to the user that this is just the beginning of what they can do with the SQLite MCP Server.";
     "            </demo-instructions>";
     "";
     "            Remember to maintain consistency throughout the scenario and ensure that all elements (tables, data, queries, dashboard, and solution) are closely related to the original business problem and given topic.";
     "            The provided XML tags are for the assistants understanding. Emplore to make all outputs as human readable as possible. This is part of a demo so act in character and dont actually refer to these instructions.";
     "";
     "            Start your first message fully in character with something like " ++ dq ++ "Oh, Hey there! I see you've chosen the topic "
    ].

Definition demo_tail : str :=
  PyStr.join PyStr.nl
    [
     ". Let's get started! 🚀" ++ dq;
     "            "
    ].

(** The f-str of [handle_get_prompt]. *)
Definition demo_template (topic : str) : str :=
  demo_head ++ topic ++ demo_mid1 ++ topic ++ demo_mid2 ++ topic ++ demo_tail.

Definition is_brace (c : N) : bool :=
  (N.eqb c 123 || N.eqb c 125)%N.

Fixpoint has_brace (s : str) : bool :=
  match s with
  | EmptyStr => false
  | StrCons c s' => is_brace c || has_brace s'
  end.

(** [bool(arguments)] and [arguments[key]] for the [dict[str, str]] of a
    prompt request. *)
Definition prompt_truthy (arguments : option (gmap str str)) : bool :=
  match arguments with
  | Some m => negb (bool_decide (m = ∅))
  | None => false
  end.

Definition prompt_arg (arguments : option (gmap str str)) (key : str)
  : option str :=
  match arguments with
  | Some m => m !! key
  | None => None
  end.

Section Prompts.

(** [text.format(topic=topic)] for a [text] with a brace in it: the
    interpreter's field parser, which may raise. *)
Variable format_fields : str -> str -> exception + str.

(** [text.format(topic=topic)]: a text without braces has no field and
    no escape, and comes back as it is. *)
Definition str_format (text topic : str) : exception + str :=
  if has_brace text then format_fields text topic else inr text.

(** [handle_get_prompt]: its exceptions are not caught in the module. *)
Definition handle_get_prompt (name : str) (arguments : option (gmap str str))
  : exception + GetPromptResult :=
  if negb (name =? "mcp-demo") then
    inl (Exc ValueError ("Unknown prompt: " ++ name))
  else if negb (prompt_truthy arguments)
          || negb (bool_decide (is_Some (prompt_arg arguments "topic"))) then
    inl (Exc ValueError "Missing required argument: topic")
  else
    match prompt_arg arguments "topic" with
    | None => inl (Exc KeyError (repr_key "topic"))
    | Some topic =>
        match str_format (demo_template topic) topic with
        | inl e => inl e
        | inr template =>
            inr (mkGetPromptResult
                   ("Demo template for " ++ topic)
                   [ mkPromptMessage "user"
                       (mkTextContent "text" (PyStr.strip template)) ])
        end
    end.

End Prompts.

(** A field parser for running [handle_get_prompt]: it knows the one field
    [{topic}] alone in the text. *)
Definition only_topic_field (text topic : str) : exception + str :=
  if text =? "{topic}" then inr topic
  else inl (Exc ValueError "unsupported format string").

(** Fixtures of the further statements. *)
Definition SyntaxError : exception := Exc SqliteError "near syntax error".

Definition memo_resource : Resource :=
  mkResource (mkUrl "memo" "memo://insights") "Business Insights Memo"
             "A living document of discovered business insights" "text/plain".

(** ** Vocabulary of the further statements *)

Definition is_commit (ev : event) : bool :=
  match ev with EvCommit => true | _ => false end.

Definition is_notification (ev : event) : bool :=
  match ev with EvResourceUpdated _ => true | _ => false end.

Definition is_statement (ev : event) : bool :=
  match ev with EvExecute _ _ => true | _ => false end.

Definition is_connection_event (ev : event) : bool :=
  match ev with EvConnect _ | EvClose => true | _ => false end.

(** A computation that only adds events of kind [P] to the log and leaves
    the rest of the server alone. *)
Definition logs_only {A} (P : event -> bool) (c : M A) : Prop :=
  forall self, exists evs, snd (c self) = add_log evs self /\ forallb P evs = true.

(** The insight a tool call appends, if any. *)
Definition appended_by_call (name : str)
    (arguments : option (gmap str jvalue)) : list jvalue :=
  if name =? "append-insight" then
    match lookup_arg arguments "insight" with
    | Some v => [v]
    | None => []
    end
  else [].

(** The client attribute is there exactly when the key is truthy, as
    [__init__] leaves it. *)
Definition well_configured (self : McpServer) : Prop :=
  anthropic_client self =
    match anthropic_api_key self with
    | Some k => negb (k =? "")
    | None => false
    end.

Definition is_engine_event (ev : event) : bool :=
  match ev with
  | EvConnect _ | EvExecute _ _ | EvCommit | EvClose => true
  | _ => false
  end.

(** The events one run of the executor on [query] can add. *)
Definition executor_event (query : str) (ev : event) : bool :=
  match ev with
  | EvConnect _ | EvExecute _ _ | EvClose => true
  | EvCommit => commits query
  | _ => false
  end.

(** * Properties *)

(** ** Strings *)

Section StringFacts.

Lemma str_eqb_spec (a b : str) : reflect (a = b) (a =? b).
Proof.
  revert b. induction a as [|x a IH]; intros [|y b]; simpl; try (constructor; congruence).
  destruct (N.eqb_spec x y) as [-> | Hne]; simpl.
  - destruct (IH b) as [-> | Hne]; constructor; congruence.
  - constructor. congruence.
Qed.

Lemma str_eqb_neq (a b : str) : (a =? b) = false <-> a <> b.
Proof. destruct (str_eqb_spec a b); split; congruence. Qed.

Lemma append_cons (x : N) (a b : str) : StrCons x a ++ b = StrCons x (a ++ b).
Proof. reflexivity. Qed.

Lemma append_empty_l (b : str) : "" ++ b = b.
Proof. reflexivity. Qed.

Lemma append_assoc (a b c : str) : (a ++ b) ++ c = a ++ (b ++ c).
Proof.
  induction a as [|x a IH]; [reflexivity|].
  now rewrite !append_cons, IH.
Qed.

Lemma append_empty_r (a : str) : a ++ "" = a.
Proof.
  induction a as [|x a IH]; [reflexivity|].
  now rewrite append_cons, IH.
Qed.

(** Characters below a bound, by enumeration. *)
Lemma forall_below (P : N -> bool) (n : nat) :
  forallb P (map N.of_nat (seq 0 n)) = true ->
  forall c, (c < N.of_nat n)%N -> P c = true.
Proof.
  intros H c Hc. rewrite forallb_forall in H. apply H.
  apply in_map_iff. exists (N.to_nat c). split; [apply N2Nat.id|].
  apply in_seq. lia.
Qed.

Lemma table_lookup_in c t v : PyStr.table_lookup c t = Some v -> In (c, v) t.
Proof.
  induction t as [|[k w] t IH]; simpl; [discriminate|].
  destruct (N.eqb_spec c k) as [-> | _].
  - intros [= ->]. now left.
  - intros H. right. now apply IH.
Qed.

Lemma upper_table_entries_regular :
  forallb regular_entry PyStr.UPPER_TABLE = true.
Proof. vm_compute. reflexivity. Qed.

Lemma ascii_regular : forallb regular_char (map N.of_nat (seq 0 128)) = true.
Proof. vm_compute. reflexivity. Qed.

(** Every character is regular: what [str.upper] makes of it is left
    alone by [str.upper], and is white space only if it is the white space
    character itself. *)
Lemma every_char_regular c : regular_char c = true.
Proof.
  destruct (N.ltb_spec c 128) as [Hlt | Hge].
  - apply (forall_below regular_char 128 ascii_regular). exact Hlt.
  - assert (Hup : PyStr.upper_char c =
                  match PyStr.table_lookup c PyStr.UPPER_TABLE with
                  | Some v => v
                  | None => [c]
                  end).
    { unfold PyStr.upper_char. apply N.ltb_ge in Hge. now rewrite Hge. }
    destruct (PyStr.table_lookup c PyStr.UPPER_TABLE) as [v|] eqn:Hl.
    + unfold regular_char. rewrite Hup.
      apply table_lookup_in in Hl.
      pose proof upper_table_entries_regular as Ht.
      rewrite forallb_forall in Ht. specialize (Ht _ Hl).
      unfold regular_entry in Ht. cbn [fst snd] in Ht.
      apply andb_true_iff in Ht as [Hk Hv]. apply negb_true_iff in Hk.
      now rewrite Hk.
    + unfold regular_char, regular_image. rewrite !Hup.
      destruct (PyStr.isspace c) eqn:Hs.
      * now rewrite bool_decide_eq_true_2.
      * cbn [forallb]. rewrite Hup, Hs.
        rewrite (bool_decide_eq_true_2 ([c] = [c])) by reflexivity.
        now rewrite (bool_decide_eq_false_2 ([c] = [])) by discriminate.
Qed.

Lemma upper_char_fixed c d :
  In d (PyStr.upper_char c) -> PyStr.upper_char d = [d].
Proof.
  intros Hin. pose proof (every_char_regular c) as H. unfold regular_char in H.
  assert (Hf : forallb (fun d => bool_decide (PyStr.upper_char d = [d]))
                 (PyStr.upper_char c) = true).
  { destruct (PyStr.isspace c).
    - apply bool_decide_eq_true in H. rewrite H in *. simpl.
      destruct Hin as [<- | []]. rewrite H. now rewrite bool_decide_eq_true_2.
    - unfold regular_image in H. now apply andb_true_iff in H as [H _]. }
  rewrite forallb_forall in Hf. specialize (Hf d Hin).
  now apply bool_decide_eq_true in Hf.
Qed.

Lemma upper_char_space c : PyStr.isspace c = true -> PyStr.upper_char c = [c].
Proof.
  intros Hs. pose proof (every_char_regular c) as H. unfold regular_char in H.
  rewrite Hs in H. now apply bool_decide_eq_true in H.
Qed.

Lemma upper_char_not_space c :
  PyStr.isspace c = false ->
  exists d ds, PyStr.upper_char c = d :: ds /\
               forallb (fun x => negb (PyStr.isspace x)) (d :: ds) = true.
Proof.
  intros Hs. pose proof (every_char_regular c) as H. unfold regular_char in H.
  rewrite Hs in H. unfold regular_image in H.
  apply andb_true_iff in H as [_ H]. apply andb_true_iff in H as [Hne Hall].
  destruct (PyStr.upper_char c) as [|d ds]; [discriminate Hne|]. eauto.
Qed.

Lemma prepend_app l1 l2 s :
  Str.prepend (l1 ++ l2)%list s = Str.prepend l1 (Str.prepend l2 s).
Proof. unfold Str.prepend. apply fold_right_app. Qed.

Lemma upper_prepend l s :
  PyStr.upper (Str.prepend l s) =
  Str.prepend (flat_map PyStr.upper_char l) (PyStr.upper s).
Proof.
  induction l as [|c l IH]; [reflexivity|].
  simpl. now rewrite IH, prepend_app.
Qed.

Lemma flat_map_fixed l :
  (forall d, In d l -> PyStr.upper_char d = [d]) ->
  flat_map PyStr.upper_char l = l.
Proof.
  induction l as [|d l IH]; intros H; [reflexivity|].
  simpl. rewrite (H d) by now left. simpl. f_equal. apply IH.
  intros x Hx. apply H. now right.
Qed.

Lemma upper_idem s : PyStr.upper (PyStr.upper s) = PyStr.upper s.
Proof.
  induction s as [|c s IH]; [reflexivity|].
  simpl. rewrite upper_prepend, IH. f_equal.
  apply flat_map_fixed. intros d Hd. exact (upper_char_fixed c d Hd).
Qed.

Lemma lstrip_upper s : PyStr.lstrip (PyStr.upper s) = PyStr.upper (PyStr.lstrip s).
Proof.
  induction s as [|c s IH]; [reflexivity|].
  simpl. destruct (PyStr.isspace c) eqn:Hc.
  - rewrite (upper_char_space c Hc). simpl. now rewrite Hc.
  - destruct (upper_char_not_space c Hc) as (d & ds & Hup & Hall).
    simpl. rewrite Hup. simpl in *.
    apply andb_true_iff in Hall as [Hd _]. apply negb_true_iff in Hd.
    now rewrite Hd.
Qed.

Lemma rstrip_prepend_not_space l s :
  l <> [] -> forallb (fun x => negb (PyStr.isspace x)) l = true ->
  PyStr.rstrip (Str.prepend l s) = Str.prepend l (PyStr.rstrip s).
Proof.
  induction l as [|d l IH]; [congruence|]. intros _ Hall.
  simpl in Hall. apply andb_true_iff in Hall as [Hd Hall]. apply negb_true_iff in Hd.
  simpl. destruct l as [|d' l].
  - simpl. destruct (PyStr.rstrip s); [now rewrite Hd | reflexivity].
  - rewrite IH by (congruence || exact Hall). reflexivity.
Qed.

Lemma upper_not_empty s : s <> "" -> PyStr.upper s <> "".
Proof.
  destruct s as [|c s]; [congruence|]. intros _. simpl.
  destruct (PyStr.isspace c) eqn:Hc.
  - now rewrite (upper_char_space c Hc).
  - destruct (upper_char_not_space c Hc) as (d & ds & -> & _). discriminate.
Qed.

Lemma rstrip_cons c s :
  PyStr.rstrip (StrCons c s) =
  match PyStr.rstrip s with
  | EmptyStr => if PyStr.isspace c then EmptyStr else StrCons c EmptyStr
  | r => StrCons c r
  end.
Proof. reflexivity. Qed.

Lemma upper_cons c s :
  PyStr.upper (StrCons c s) = Str.prepend (PyStr.upper_char c) (PyStr.upper s).
Proof. reflexivity. Qed.

Lemma rstrip_upper s : PyStr.rstrip (PyStr.upper s) = PyStr.upper (PyStr.rstrip s).
Proof.
  induction s as [|c s IH]; [reflexivity|].
  rewrite upper_cons, rstrip_cons.
  destruct (PyStr.isspace c) eqn:Hc.
  - rewrite (upper_char_space c Hc).
    change (Str.prepend [c] (PyStr.upper s)) with (StrCons c (PyStr.upper s)).
    rewrite rstrip_cons, IH, Hc.
    destruct (PyStr.rstrip s) as [|x r] eqn:Hr; [reflexivity|].
    pose proof (upper_not_empty (StrCons x r)) as Hne.
    destruct (PyStr.upper (StrCons x r)) eqn:Hu.
    + exfalso. apply Hne; [discriminate | reflexivity].
    + rewrite (upper_cons c), (upper_char_space c Hc), Hu. reflexivity.
  - destruct (upper_char_not_space c Hc) as (d & ds & Hup & Hall).
    rewrite Hup, rstrip_prepend_not_space by (congruence || exact Hall).
    rewrite IH. destruct (PyStr.rstrip s) as [|x r].
    + now rewrite (upper_cons c), Hup.
    + now rewrite (upper_cons c), Hup.
Qed.

Lemma strip_upper s : PyStr.strip (PyStr.upper s) = PyStr.upper (PyStr.strip s).
Proof. unfold PyStr.strip. now rewrite lstrip_upper, rstrip_upper. Qed.

Lemma rstrip_idem s : PyStr.rstrip (PyStr.rstrip s) = PyStr.rstrip s.
Proof.
  induction s as [|c s IH]; simpl; [reflexivity|].
  destruct (PyStr.rstrip s) as [|d r] eqn:Hr.
  - destruct (PyStr.isspace c) eqn:Hc; simpl; [reflexivity | now rewrite Hc].
  - change (PyStr.rstrip (StrCons c (StrCons d r))) with
      (match PyStr.rstrip (StrCons d r) with
       | "" => if PyStr.isspace c then "" else StrCons c ""
       | r' => StrCons c r'
       end).
    now rewrite IH.
Qed.

Lemma lstrip_trimmed_left s : trimmed_left (PyStr.lstrip s).
Proof.
  induction s as [|c s IH]; simpl; [exact I|].
  destruct (PyStr.isspace c) eqn:Hc; [exact IH | exact Hc].
Qed.

Lemma lstrip_fixes s : trimmed_left s -> PyStr.lstrip s = s.
Proof. destruct s as [|c s]; simpl; [reflexivity | now intros ->]. Qed.

Lemma rstrip_trimmed_left s : trimmed_left s -> trimmed_left (PyStr.rstrip s).
Proof.
  destruct s as [|c s]; simpl; [easy|]. intros Hc.
  destruct (PyStr.rstrip s); [rewrite Hc|]; exact Hc.
Qed.

Lemma strip_idem s : PyStr.strip (PyStr.strip s) = PyStr.strip s.
Proof.
  unfold PyStr.strip.
  rewrite (lstrip_fixes (PyStr.rstrip (PyStr.lstrip s))).
  - apply rstrip_idem.
  - apply rstrip_trimmed_left, lstrip_trimmed_left.
Qed.

Lemma leading_form_idem q : leading_form (leading_form q) = leading_form q.
Proof.
  unfold leading_form. now rewrite strip_upper, strip_idem, upper_idem.
Qed.

Lemma leading_form_upper q : leading_form (PyStr.upper q) = leading_form q.
Proof. unfold leading_form. now rewrite strip_upper, upper_idem. Qed.

Lemma leading_form_strip q : leading_form (PyStr.strip q) = leading_form q.
Proof. unfold leading_form. now rewrite strip_idem. Qed.

End StringFacts.

(** ** Leading-keyword classification *)

(** C5. The keyword tests of the executor ([commits]) and of the policy
    checks ([is_select], [is_create_table]) give the same answer on a
    statement and on its trimmed, upper-cased form; in particular "  select 1",
    "SELECT 1" and "Select 1" are all taken as reads: the policy test for
    SELECT accepts them and the executor materialises their rows instead of
    committing. *)
Theorem classification_case_and_space_insensitive :
  (forall q : str,
      is_select q = is_select (leading_form q) /\
      commits q = commits (leading_form q) /\
      is_create_table q = is_create_table (leading_form q)) /\
  (forall q : str,
      leading_form (PyStr.upper q) = leading_form q /\
      leading_form (PyStr.strip q) = leading_form q) /\
  (is_select "  select 1" = true /\ commits "  select 1" = false) /\
  (is_select "SELECT 1" = true /\ commits "SELECT 1" = false) /\
  (is_select "Select 1" = true /\ commits "Select 1" = false).
Proof.
  split; [|split; [|repeat split; reflexivity]].
  - intros q. unfold is_select, commits, is_create_table.
    now rewrite leading_form_idem.
  - intros q. split; [apply leading_form_upper | apply leading_form_strip].
Qed.

(** ** The dispatcher *)

Section Dispatch.

Variable E : Env.

Implicit Types (name : str) (arguments : option (gmap str jvalue)).
Implicit Types (self : McpServer) (m : gmap str jvalue) (e : exception).

(** *** The memo renderer *)

Lemma add_log_nil self : add_log [] self = self.
Proof. destruct self. unfold add_log. simpl. now rewrite app_nil_r. Qed.

Lemma emit_add_log ev self : emit ev self = add_log [ev] self.
Proof. reflexivity. Qed.

Lemma synthesize_empty self :
  insights self = [] -> _synthesize_memo E self = (inr NO_INSIGHTS, self).
Proof. intros H. unfold _synthesize_memo, bind, get. now rewrite H. Qed.

Lemma synthesize_basic self :
  insights self <> [] -> anthropic_api_key self = None ->
  _synthesize_memo E self = (inr (basic_memo (insights self)), self).
Proof.
  intros Hne Hkey. unfold _synthesize_memo, bind, get. rewrite Hkey.
  destruct (insights self); [contradiction | reflexivity].
Qed.

Lemma synthesize_no_client self key :
  insights self <> [] -> anthropic_api_key self = Some key ->
  anthropic_client self = false ->
  _synthesize_memo E self = (inr (bullets (insights self)), self).
Proof.
  intros Hne Hkey Hclient.
  unfold _synthesize_memo, bind, get, try_except, get_anthropic_client, bind, get.
  cbv beta iota. rewrite Hkey.
  destruct (insights self); [contradiction|].
  cbv beta iota. now rewrite Hclient.
Qed.

Lemma synthesize_request self key :
  insights self <> [] -> anthropic_api_key self = Some key ->
  anthropic_client self = true ->
  _synthesize_memo E self =
    (inr (match messages_create E (log self) (memo_prompt (insights self)) with
          | inr reply => PyStr.strip reply
          | inl _ => bullets (insights self)
          end),
     emit (EvCreateMessage (memo_prompt (insights self))) self).
Proof.
  intros Hne Hkey Hclient.
  unfold _synthesize_memo, bind, get, try_except, get_anthropic_client, bind, get, call.
  cbv beta iota. rewrite Hkey.
  destruct (insights self) as [|i l] eqn:Hl; [contradiction|].
  cbv beta iota. rewrite Hclient. unfold ret. cbv beta iota.
  destruct (messages_create E (log self) (memo_prompt (i :: l))); reflexivity.
Qed.

(** Rendering returns a str, whatever the collaborator does. *)
Lemma synthesize_returns self : exists memo, fst (_synthesize_memo E self) = inr memo.
Proof.
  destruct (insights self) as [|i l] eqn:Hl.
  - rewrite synthesize_empty by exact Hl. eauto.
  - assert (Hne : insights self <> []) by (rewrite Hl; discriminate).
    destruct (anthropic_api_key self) as [key|] eqn:Hkey.
    + destruct (anthropic_client self) eqn:Hclient.
      * rewrite (synthesize_request self key) by assumption. eauto.
      * rewrite (synthesize_no_client self key) by assumption. eauto.
    + rewrite synthesize_basic by assumption. eauto.
Qed.

(** Rendering only adds its own request to the log. *)
Lemma synthesize_state self :
  snd (_synthesize_memo E self) = add_log (memo_requests self) self.
Proof.
  unfold memo_requests, configured.
  destruct (insights self) as [|i l] eqn:Hl.
  - rewrite synthesize_empty by exact Hl. now rewrite add_log_nil.
  - assert (Hne : insights self <> []) by (rewrite Hl; discriminate).
    destruct (anthropic_api_key self) as [key|] eqn:Hkey.
    + destruct (anthropic_client self) eqn:Hclient.
      * rewrite (synthesize_request self key) by assumption.
        simpl. now rewrite Hl.
      * rewrite (synthesize_no_client self key) by assumption.
        now rewrite add_log_nil.
    + rewrite synthesize_basic by assumption. now rewrite add_log_nil.
Qed.

(** *** Dispatch equations, one per tool name *)

Lemma call_list_tables arguments :
  call_tool_body E "list-tables" arguments =
  (results <- _execute_query E "SELECT name FROM sqlite_master WHERE type='table'" [] ;;
   ret (text_content (str_rows E results))).
Proof. reflexivity. Qed.

Lemma call_describe_table arguments :
  call_tool_body E "describe-table" arguments =
  if missing arguments "table_name" then
    raise (Exc ValueError "Missing table_name argument")
  else
    (table_name <- getitem arguments "table_name" ;;
     results <- _execute_query E ("PRAGMA table_info(" ++ py_str table_name ++ ")") [] ;;
     ret (text_content (str_rows E results))).
Proof. reflexivity. Qed.

Lemma call_append_insight arguments :
  call_tool_body E "append-insight" arguments =
  if missing arguments "insight" then
    raise (Exc ValueError "Missing insight argument")
  else
    (insight <- getitem arguments "insight" ;;
     _ <- modify (fun self => set_insights (insights self ++ [insight]) self) ;;
     memo <- _synthesize_memo E ;;
     _ <- await (EvResourceUpdated MEMO_URI)
                (fun h => send_resource_updated E h MEMO_URI) ;;
     ret (text_content "Insight added to memo")).
Proof. reflexivity. Qed.

Lemma call_read_query arguments :
  call_tool_body E "read-query" arguments =
  if negb (truthy arguments) then raise (Exc ValueError "Missing arguments")
  else
    (q <- getitem arguments "query" ;;
     s <- str_strip q ;;
     if negb (PyStr.startswith (PyStr.upper s) "SELECT") then
       raise (Exc ValueError "Only SELECT queries are allowed for read-query")
     else
       (results <- _execute_query E (py_str q) [] ;;
        ret (text_content (str_rows E results)))).
Proof. reflexivity. Qed.

Lemma call_write_query arguments :
  call_tool_body E "write-query" arguments =
  if negb (truthy arguments) then raise (Exc ValueError "Missing arguments")
  else
    (q <- getitem arguments "query" ;;
     s <- str_strip q ;;
     if PyStr.startswith (PyStr.upper s) "SELECT" then
       raise (Exc ValueError "SELECT queries are not allowed for write-query")
     else
       (results <- _execute_query E (py_str q) [] ;;
        ret (text_content (str_rows E results)))).
Proof. reflexivity. Qed.

Lemma call_create_table arguments :
  call_tool_body E "create-table" arguments =
  if negb (truthy arguments) then raise (Exc ValueError "Missing arguments")
  else
    (q <- getitem arguments "query" ;;
     s <- str_strip q ;;
     if negb (PyStr.startswith (PyStr.upper s) "CREATE TABLE") then
       raise (Exc ValueError "Only CREATE TABLE statements are allowed")
     else
       (_ <- _execute_query E (py_str q) [] ;;
        ret (text_content "Table created successfully"))).
Proof. reflexivity. Qed.

Lemma call_unknown name arguments :
  known_tool name = false ->
  call_tool_body E name arguments =
  if negb (truthy arguments) then raise (Exc ValueError "Missing arguments")
  else raise (Exc ValueError ("Unknown tool: " ++ name)).
Proof.
  unfold known_tool. simpl. rewrite !orb_false_iff.
  intros (Hr & Hw & Hc & Hl & Hd & Ha & _).
  unfold call_tool_body, query_tools.
  now rewrite Hr, Hw, Hc, Hl, Hd, Ha.
Qed.

(** *** Arguments *)

Lemma lookup_truthy m key v : m !! key = Some v -> truthy (Some m) = true.
Proof.
  intros H. unfold truthy. rewrite bool_decide_eq_false_2; [reflexivity|].
  intros ->. rewrite lookup_empty in H. discriminate.
Qed.

Lemma lookup_has_key m key v : m !! key = Some v -> has_key (Some m) key = true.
Proof. intros H. unfold has_key. rewrite H. reflexivity. Qed.

Lemma lookup_not_missing m key v : m !! key = Some v -> missing (Some m) key = false.
Proof.
  intros H. unfold missing.
  now rewrite (lookup_truthy _ _ _ H), (lookup_has_key _ _ _ H).
Qed.

Lemma getitem_lookup m key v : m !! key = Some v -> getitem (Some m) key = ret v.
Proof. intros H. unfold getitem. now rewrite H. Qed.

Lemma lookup_none_missing arguments key :
  lookup_arg arguments key = None -> missing arguments key = true.
Proof.
  unfold missing, has_key. destruct arguments as [m|]; simpl; [|reflexivity].
  intros ->. rewrite (bool_decide_eq_false_2 (is_Some None)) by apply is_Some_None.
  apply orb_true_r.
Qed.

(** *** What the handler makes of the body's outcome *)

Lemma handle_raised name arguments self e self' :
  call_tool_body E name arguments self = (inl e, self') ->
  handle_call_tool E name arguments self = (inr (text_content (error_text e)), self').
Proof. intros H. unfold handle_call_tool, try_except. now rewrite H. Qed.

Lemma handle_returned name arguments self r self' :
  call_tool_body E name arguments self = (inr r, self') ->
  handle_call_tool E name arguments self = (inr r, self').
Proof. intros H. unfold handle_call_tool, try_except. now rewrite H. Qed.

(** *** C1 *)

Lemma returns_text_ret t : returns_text (ret (text_content t)).
Proof. intros self r self' H. inversion H. eauto. Qed.

Lemma returns_text_raise e : returns_text (raise e).
Proof. intros self r self' H. inversion H. Qed.

Lemma returns_text_bind {A} (c : M A) (k : A -> M (list TextContent)) :
  (forall a, returns_text (k a)) -> returns_text (bind c k).
Proof.
  intros Hk self r self' H. unfold bind in H.
  destruct (c self) as [[e|a] s1]; [inversion H|].
  exact (Hk a s1 r self' H).
Qed.

Ltac returns_text_step :=
  first
    [ apply returns_text_ret
    | apply returns_text_raise
    | apply returns_text_bind; intros ?
    | match goal with
      | |- returns_text (if ?b then _ else _) => destruct b
      end ].

Lemma call_tool_body_returns_text name arguments :
  returns_text (call_tool_body E name arguments).
Proof. unfold call_tool_body, query_tools. repeat returns_text_step. Qed.

Lemma error_text_prefix e :
  PyStr.startswith (error_text e) DATABASE_ERROR = is_sqlite_error e.
Proof. unfold error_text. destruct (is_sqlite_error e); reflexivity. Qed.

(** A computation that is never cancelled: whatever it raises is an
    instance of [Exception]. *)
Lemma never_cancelled_ret {A} (a : A) : never_cancelled (ret a).
Proof. intros self. discriminate. Qed.

Lemma never_cancelled_raise {A} e : never_cancelled (@raise A (Exn e)).
Proof. intros self. discriminate. Qed.

Lemma never_cancelled_sync {A} (r : exception + A) :
  never_cancelled (fun self => (of_sync r, self)).
Proof. intros self. destruct r; discriminate. Qed.

Lemma never_cancelled_get : never_cancelled get.
Proof. intros self. discriminate. Qed.

Lemma never_cancelled_bind {A B} (c : M A) (k : A -> M B) :
  never_cancelled c -> (forall a, never_cancelled (k a)) -> never_cancelled (bind c k).
Proof.
  intros Hc Hk self. specialize (Hc self). unfold bind.
  destruct (c self) as [[[e|]|a] s1]; simpl in *; [discriminate | congruence |].
  apply Hk.
Qed.

Lemma never_cancelled_try_except {A} (c : M A) (h : exception -> M A) :
  never_cancelled c -> (forall e, never_cancelled (h e)) ->
  never_cancelled (try_except c h).
Proof.
  intros Hc Hh self. specialize (Hc self). unfold try_except.
  destruct (c self) as [[[e|]|a] s1]; simpl in *; [apply Hh | congruence | discriminate].
Qed.

Lemma never_cancelled_try_finally {A} (c : M A) f :
  never_cancelled c -> never_cancelled (try_finally c f).
Proof.
  intros Hc self. specialize (Hc self). unfold try_finally.
  now destruct (c self) as [r s1].
Qed.

Lemma never_cancelled_call {A} ev (answer : list event -> exception + A) :
  never_cancelled (call ev answer).
Proof. intros self. unfold call. simpl. destruct (answer (log self)); discriminate. Qed.

Lemma never_cancelled_execute_query query params :
  never_cancelled (_execute_query E query params).
Proof.
  unfold _execute_query, with_connection.
  apply never_cancelled_try_except; [|intros e; apply never_cancelled_raise].
  apply never_cancelled_bind; [apply never_cancelled_get | intros self0].
  apply never_cancelled_bind; [apply never_cancelled_call | intros _].
  apply never_cancelled_try_finally.
  apply never_cancelled_bind; [apply never_cancelled_call | intros cur].
  destruct (commits query).
  - apply never_cancelled_bind; [apply never_cancelled_call | intros _].
    apply never_cancelled_ret.
  - apply never_cancelled_sync.
Qed.

Lemma never_cancelled_getitem arguments key : never_cancelled (getitem arguments key).
Proof.
  unfold getitem. destruct arguments as [m|]; [|apply never_cancelled_raise].
  destruct (m !! key); [apply never_cancelled_ret | apply never_cancelled_raise].
Qed.

Lemma never_cancelled_str_strip v : never_cancelled (str_strip v).
Proof. destruct v; first [apply never_cancelled_ret | apply never_cancelled_raise]. Qed.

Ltac never_cancelled_step :=
  first
    [ apply never_cancelled_ret
    | apply never_cancelled_raise
    | apply never_cancelled_getitem
    | apply never_cancelled_str_strip
    | apply never_cancelled_execute_query
    | apply never_cancelled_bind; [|intros ?]
    | match goal with
      | |- never_cancelled (if ?b then _ else _) => destruct b
      end ].

(** Only the [await] of [append-insight] can be cancelled. *)
Lemma other_tools_never_cancelled name arguments :
  (name =? "append-insight") = false ->
  never_cancelled (call_tool_body E name arguments).
Proof.
  intros Hname. unfold call_tool_body, query_tools. rewrite Hname.
  repeat never_cancelled_step.
Qed.

(** C1, amended. Whatever the tool name and the arguments,
    [handle_call_tool] turns every outcome of its [try] block but a
    cancellation into one text content: a returned result is such a content;
    a raised instance of [Exception] becomes the text "Database error: "
    followed by [str(e)] when it is an [sqlite3.Error], and "Error: "
    followed by [str(e)] otherwise.  A [CancelledError] is not an
    [Exception]: it leaves the handler, and it can only come from the
    [await] of the notification in [append-insight]. *)
Theorem handle_call_tool_catches_exceptions name arguments self :
  match fst (call_tool_body E name arguments self) with
  | inr r =>
      exists t,
        r = [mkTextContent "text" t] /\
        handle_call_tool E name arguments self =
          (inr [mkTextContent "text" t], snd (call_tool_body E name arguments self))
  | inl (Exn e) =>
      handle_call_tool E name arguments self =
        (inr [mkTextContent "text"
                (match exc_class e with
                 | SqliteError => "Database error: "
                 | _ => "Error: "
                 end ++ exc_str e)],
         snd (call_tool_body E name arguments self))
  | inl Cancelled =>
      handle_call_tool E name arguments self =
        (inl Cancelled, snd (call_tool_body E name arguments self)) /\
      name = "append-insight" /\
      exists v, lookup_arg arguments "insight" = Some v
  end.
Proof.
  unfold handle_call_tool, try_except.
  destruct (call_tool_body E name arguments self) as [[[e|]|r] self'] eqn:Hbody;
    cbn [fst snd].
  - unfold ret, error_text, is_sqlite_error, text_content,
      DATABASE_ERROR, GENERIC_ERROR.
    destruct (exc_class e); reflexivity.
  - split; [reflexivity|].
    destruct (str_eqb_spec name "append-insight") as [-> | Hne].
    + split; [reflexivity|].
      destruct (lookup_arg arguments "insight") as [v|] eqn:Hv; [eauto|].
      rewrite call_append_insight, (lookup_none_missing _ _ Hv) in Hbody.
      discriminate Hbody.
    + apply str_eqb_neq in Hne.
      pose proof (other_tools_never_cancelled name arguments Hne self) as H.
      rewrite Hbody in H. now contradiction H.
  - destruct (call_tool_body_returns_text name arguments self r self' Hbody) as [t ->].
    exists t. split; reflexivity.
Qed.

(** *** C2 *)

(** C2, amended. A call to a name outside the catalog does not raise and
    does not reach the engine: the handler returns a text content under
    the generic prefix "Error: " (not the engine prefix) and leaves the
    server as it was; when the call carries a non-empty argument mapping
    the text names the unknown tool. *)
Theorem unknown_tool_is_reported_as_text name arguments self :
  known_tool name = false ->
  exists msg,
    handle_call_tool E name arguments self =
      (inr (text_content (GENERIC_ERROR ++ msg)), self) /\
    PyStr.startswith (GENERIC_ERROR ++ msg) DATABASE_ERROR = false /\
    (truthy arguments = false \/ msg = "Unknown tool: " ++ name).
Proof.
  intros Hname. destruct (truthy arguments) eqn:Hargs.
  - exists ("Unknown tool: " ++ name). repeat split; [|now right].
    apply (handle_raised name arguments self (Exc ValueError ("Unknown tool: " ++ name))).
    now rewrite (call_unknown name arguments Hname), Hargs.
  - exists "Missing arguments". repeat split; [|now left].
    apply (handle_raised name arguments self (Exc ValueError "Missing arguments")).
    now rewrite (call_unknown name arguments Hname), Hargs.
Qed.

(** *** C3 *)

Lemma query_tool_name name query :
  violates_policy name query = true ->
  name = "read-query" \/ name = "write-query" \/ name = "create-table".
Proof.
  unfold violates_policy.
  destruct (str_eqb_spec name "read-query"); [tauto|].
  destruct (str_eqb_spec name "write-query"); [tauto|].
  destruct (str_eqb_spec name "create-table"); [tauto|discriminate].
Qed.

(** The opening of a query tool on a call that binds [query] to a str:
    what is left is the continuation on the str and its trimmed form. *)
Lemma query_prelude_string {A} m query (k : jvalue -> str -> M A) :
  m !! "query" = Some (JStr query) ->
  (if negb (truthy (Some m)) then raise (Exc ValueError "Missing arguments")
   else (q <- getitem (Some m) "query" ;; s <- str_strip q ;; k q s))
  = k (JStr query) (PyStr.strip query).
Proof.
  intros Hq. rewrite (lookup_truthy m "query" _ Hq), (getitem_lookup m "query" _ Hq).
  reflexivity.
Qed.

Lemma read_query_refused m query self :
  m !! "query" = Some (JStr query) -> is_select query = false ->
  call_tool_body E "read-query" (Some m) self =
    (inl (Exc ValueError "Only SELECT queries are allowed for read-query"), self).
Proof.
  intros Hq Hsel. rewrite call_read_query, (query_prelude_string m query _ Hq).
  fold (leading_form query). fold (is_select query). now rewrite Hsel.
Qed.

Lemma write_query_refused m query self :
  m !! "query" = Some (JStr query) -> is_select query = true ->
  call_tool_body E "write-query" (Some m) self =
    (inl (Exc ValueError "SELECT queries are not allowed for write-query"), self).
Proof.
  intros Hq Hsel. rewrite call_write_query, (query_prelude_string m query _ Hq).
  fold (leading_form query). fold (is_select query). now rewrite Hsel.
Qed.

Lemma create_table_refused m query self :
  m !! "query" = Some (JStr query) -> is_create_table query = false ->
  call_tool_body E "create-table" (Some m) self =
    (inl (Exc ValueError "Only CREATE TABLE statements are allowed"), self).
Proof.
  intros Hq Hct. rewrite call_create_table, (query_prelude_string m query _ Hq).
  fold (leading_form query). fold (is_create_table query). now rewrite Hct.
Qed.

(** A statement that passes the test of its tool goes to the executor as
    it was given. *)
Lemma read_query_allowed m query :
  m !! "query" = Some (JStr query) -> is_select query = true ->
  call_tool_body E "read-query" (Some m) =
    (results <- _execute_query E query [] ;; ret (text_content (str_rows E results))).
Proof.
  intros Hq Hsel. rewrite call_read_query, (query_prelude_string m query _ Hq).
  fold (leading_form query). fold (is_select query). now rewrite Hsel.
Qed.

Lemma write_query_allowed m query :
  m !! "query" = Some (JStr query) -> is_select query = false ->
  call_tool_body E "write-query" (Some m) =
    (results <- _execute_query E query [] ;; ret (text_content (str_rows E results))).
Proof.
  intros Hq Hsel. rewrite call_write_query, (query_prelude_string m query _ Hq).
  fold (leading_form query). fold (is_select query). now rewrite Hsel.
Qed.

Lemma create_table_allowed m query :
  m !! "query" = Some (JStr query) -> is_create_table query = true ->
  call_tool_body E "create-table" (Some m) =
    (_ <- _execute_query E query [] ;; ret (text_content "Table created successfully")).
Proof.
  intros Hq Hct. rewrite call_create_table, (query_prelude_string m query _ Hq).
  fold (leading_form query). fold (is_create_table query). now rewrite Hct.
Qed.

(** C3. A query str handed to [read-query] that does not start with
    SELECT, to [write-query] that does, or to [create-table] that does not
    start with CREATE TABLE (each test on the trimmed, upper-cased str)
    is refused with the tool's policy message, and the server is left as it
    was: nothing is sent to the engine. *)
Theorem policy_violation_executes_nothing name m query self :
  m !! "query" = Some (JStr query) ->
  violates_policy name query = true ->
  handle_call_tool E name (Some m) self =
    (inr [mkTextContent "text" ("Error: " ++ policy_message name)], self).
Proof.
  intros Hq Hv.
  apply (handle_raised name (Some m) self (Exc ValueError (policy_message name))).
  destruct (query_tool_name name query Hv) as [-> | [-> | ->]].
  - apply (read_query_refused m query); [exact Hq|].
    change (negb (is_select query) = true) in Hv. now apply negb_true_iff.
  - now apply (write_query_refused m query).
  - apply (create_table_refused m query); [exact Hq|].
    change (negb (is_create_table query) = true) in Hv. now apply negb_true_iff.
Qed.

(** *** C6 *)

Lemma handle_generic name arguments self e :
  call_tool_body E name arguments self = (inl e, self) ->
  is_sqlite_error e = false ->
  handle_call_tool E name arguments self =
    (inr (text_content (GENERIC_ERROR ++ exc_str e)), self).
Proof.
  intros Hbody He. rewrite (handle_raised _ _ _ _ _ Hbody).
  unfold error_text. now rewrite He.
Qed.

(** The common opening of the three query tools refuses a call without a
    [query] and a call whose [query] is not a str, before the
    continuation [k] (the policy test and the executor) is entered. *)
Lemma query_prelude_rejects {A} arguments (k : jvalue -> str -> M A) (c : M A) self :
  c = (if negb (truthy arguments) then raise (Exc ValueError "Missing arguments")
       else (q <- getitem arguments "query" ;; s <- str_strip q ;; k q s)) ->
  lookup_arg arguments "query" = None \/
  (exists v, lookup_arg arguments "query" = Some v /\ is_str v = false) ->
  exists e, is_sqlite_error e = false /\ c self = (inl e, self).
Proof.
  intros -> H. destruct (truthy arguments) eqn:Ht; simpl negb; cbv iota.
  2: { eexists. split; [|reflexivity]. reflexivity. }
  destruct arguments as [m|]; [|discriminate Ht]. simpl in H.
  destruct H as [Hnone | (v & Hv & Hstr)].
  - unfold bind, getitem. rewrite Hnone. eexists. split; [|reflexivity]. reflexivity.
  - unfold bind, getitem. rewrite Hv. unfold ret at 1.
    destruct v; try discriminate Hstr; (eexists; split; [|reflexivity]; reflexivity).
Qed.

(** C6, amended. A call to a catalog tool that leaves out a required field
    is answered with an error text under "Error: ", and so is a call to
    one of the query tools whose [query] is not a str; in both cases the
    server is left as it was, so no statement reaches the engine and the
    memo is not touched. *)
Theorem missing_or_non_string_argument tool arguments field self :
  In tool handle_list_tools ->
  In field (required tool) ->
  lookup_arg arguments field = None \/
  (field = "query" /\ exists v, lookup_arg arguments field = Some v /\ is_str v = false) ->
  exists msg,
    handle_call_tool E (tool_name tool) arguments self =
      (inr (text_content (GENERIC_ERROR ++ msg)), self).
Proof.
  intros Htool Hfield Hbad.
  assert (Hquery :
    required tool = ["query"] ->
    (tool_name tool = "read-query" \/ tool_name tool = "write-query" \/
     tool_name tool = "create-table") ->
    exists msg,
      handle_call_tool E (tool_name tool) arguments self =
        (inr (text_content (GENERIC_ERROR ++ msg)), self)).
  { intros Hreq Hname. rewrite Hreq in Hfield.
    destruct Hfield as [<- | []].
    assert (Hbad' : lookup_arg arguments "query" = None \/
                    (exists v, lookup_arg arguments "query" = Some v /\ is_str v = false))
      by (destruct Hbad as [? | [_ ?]]; [now left | now right]).
    destruct Hname as [-> | [-> | ->]].
    - destruct (query_prelude_rejects arguments _ _ self (call_read_query arguments) Hbad')
        as (e & He & Hrun).
      exists (exc_str e). now apply handle_generic.
    - destruct (query_prelude_rejects arguments _ _ self (call_write_query arguments) Hbad')
        as (e & He & Hrun).
      exists (exc_str e). now apply handle_generic.
    - destruct (query_prelude_rejects arguments _ _ self (call_create_table arguments) Hbad')
        as (e & He & Hrun).
      exists (exc_str e). now apply handle_generic. }
  simpl in Htool.
  destruct Htool as [<- | [<- | [<- | [<- | [<- | [<- | []]]]]]]; simpl in *.
  - apply Hquery; auto.
  - apply Hquery; auto.
  - apply Hquery; auto.
  - destruct Hfield.
  - destruct Hfield as [<- | []].
    destruct Hbad as [Hnone | [Habs _]]; [|discriminate Habs].
    exists "Missing table_name argument".
    apply (handle_generic _ _ _ (Exc ValueError "Missing table_name argument"));
      [|reflexivity].
    rewrite call_describe_table. now rewrite (lookup_none_missing _ _ Hnone).
  - destruct Hfield as [<- | []].
    destruct Hbad as [Hnone | [Habs _]]; [|discriminate Habs].
    exists "Missing insight argument".
    apply (handle_generic _ _ _ (Exc ValueError "Missing insight argument"));
      [|reflexivity].
    rewrite call_append_insight. now rewrite (lookup_none_missing _ _ Hnone).
Qed.

(** *** C4 *)

(** C4, amended. With a key configured and a non-empty memo, a failed
    summarization call (the client is missing, or the request raises) makes
    the renderer return the bulleted insights alone (one "- insight" line
    each, without heading or summary sentence), and not raise. *)
Theorem collaborator_failure_returns_bullets self key :
  insights self <> [] ->
  anthropic_api_key self = Some key ->
  anthropic_client self = false \/
  (exists e, messages_create E (log self) (memo_prompt (insights self)) = inl e) ->
  fst (_synthesize_memo E self) = inr (bullets (insights self)).
Proof.
  intros Hne Hkey Hfail.
  destruct (anthropic_client self) eqn:Hclient.
  - destruct Hfail as [Habs | [e He]]; [discriminate Habs|].
    rewrite (synthesize_request self key) by assumption.
    simpl. now rewrite He.
  - now rewrite (synthesize_no_client self key) by assumption.
Qed.

(** *** The run of [append-insight] *)

Lemma append_insight_run m v self :
  m !! "insight" = Some v ->
  handle_call_tool E "append-insight" (Some m) self =
    let s1 := snd (_synthesize_memo E (set_insights (insights self ++ [v]) self)) in
    (match send_resource_updated E (log s1) MEMO_URI with
     | Some (Exn e) => inr (text_content (error_text e))
     | Some Cancelled => inl Cancelled
     | None => inr (text_content "Insight added to memo")
     end,
     emit (EvResourceUpdated MEMO_URI) s1).
Proof.
  intros Hv. unfold handle_call_tool, try_except.
  rewrite call_append_insight, (lookup_not_missing m "insight" v Hv).
  rewrite (getitem_lookup m "insight" v Hv).
  unfold bind at 1, ret at 1. unfold bind at 1, modify. unfold bind at 1.
  destruct (synthesize_returns (set_insights (insights self ++ [v]) self)) as [memo Hmemo].
  destruct (_synthesize_memo E (set_insights (insights self ++ [v]) self))
    as [r s1] eqn:Hrun.
  simpl in Hmemo. subst r. cbv zeta. unfold snd.
  unfold bind, await, ret.
  destruct (send_resource_updated E (log s1) MEMO_URI) as [[e|]|]; reflexivity.
Qed.

Lemma append_insight_state m v self :
  m !! "insight" = Some v ->
  snd (handle_call_tool E "append-insight" (Some m) self) =
    add_log (memo_requests (set_insights (insights self ++ [v]) self)
               ++ [EvResourceUpdated MEMO_URI])
            (set_insights (insights self ++ [v]) self).
Proof.
  intros Hv. rewrite (append_insight_run m v self Hv). cbv zeta. unfold snd at 1.
  rewrite synthesize_state. unfold emit, add_log. simpl. now rewrite app_assoc.
Qed.

(** *** C7 *)

(** The log of an [append-insight] call that carries an insight: the
    request of the rendering, if a client is configured, then the
    notification. *)
Lemma append_insight_log m v self :
  m !! "insight" = Some v ->
  log (snd (handle_call_tool E "append-insight" (Some m) self)) =
    (log self
       ++ (if configured self
           then [EvCreateMessage (memo_prompt (insights self ++ [v]))]
           else [])
       ++ [EvResourceUpdated MEMO_URI])%list.
Proof.
  intros Hv. rewrite (append_insight_state m v self Hv).
  unfold add_log, memo_requests, configured, set_insights. simpl.
  destruct (insights self ++ [v])%list eqn:Happ; [|reflexivity].
  now apply app_eq_nil in Happ as [_ ?].
Qed.

Lemma requests_app h1 h2 : requests (h1 ++ h2) = (requests h1 ++ requests h2)%list.
Proof. apply List.filter_app. Qed.

Lemma no_request_ret {A} (a : A) : sends_no_request (ret a).
Proof. intros self. reflexivity. Qed.

Lemma no_request_raise {A} e : sends_no_request (@raise A e).
Proof. intros self. reflexivity. Qed.

Lemma no_request_pure {A} (r : raised + A) : sends_no_request (fun self => (r, self)).
Proof. intros self. reflexivity. Qed.

Lemma no_request_get : sends_no_request get.
Proof. intros self. reflexivity. Qed.

Lemma no_request_bind {A B} (c : M A) (k : A -> M B) :
  sends_no_request c -> (forall a, sends_no_request (k a)) ->
  sends_no_request (bind c k).
Proof.
  intros Hc Hk self. specialize (Hc self). unfold bind.
  destruct (c self) as [[e|a] s1]; simpl in *; [exact Hc|].
  now rewrite (Hk a s1).
Qed.

Lemma no_request_try_except {A} (c : M A) (h : exception -> M A) :
  sends_no_request c -> (forall e, sends_no_request (h e)) ->
  sends_no_request (try_except c h).
Proof.
  intros Hc Hh self. specialize (Hc self). unfold try_except.
  destruct (c self) as [[[e|]|a] s1]; simpl in *; [|exact Hc..].
  now rewrite (Hh e s1).
Qed.

Lemma no_request_emit ev self :
  is_create_message ev = false -> requests (log (emit ev self)) = requests (log self).
Proof.
  intros Hev. simpl. rewrite requests_app. unfold requests at 2. simpl.
  rewrite Hev. apply app_nil_r.
Qed.

Lemma no_request_try_finally {A} (c : M A) ev :
  is_create_message ev = false -> sends_no_request c ->
  sends_no_request (try_finally c (emit ev)).
Proof.
  intros Hev Hc self. specialize (Hc self). unfold try_finally.
  destruct (c self) as [r s1]; simpl snd in *.
  now rewrite no_request_emit.
Qed.

Lemma no_request_call {A} ev (answer : list event -> exception + A) :
  is_create_message ev = false -> sends_no_request (call ev answer).
Proof. intros Hev self. unfold call. simpl snd. now apply no_request_emit. Qed.

Lemma no_request_execute_query query params :
  sends_no_request (_execute_query E query params).
Proof.
  unfold _execute_query, with_connection.
  apply no_request_try_except; [|intros e; apply no_request_raise].
  apply no_request_bind; [apply no_request_get | intros self0].
  apply no_request_bind; [now apply no_request_call | intros _].
  apply no_request_try_finally; [reflexivity|].
  apply no_request_bind; [now apply no_request_call | intros cur].
  destruct (commits query).
  - apply no_request_bind; [now apply no_request_call | intros _].
    apply no_request_ret.
  - apply no_request_pure.
Qed.

Lemma no_request_getitem arguments key : sends_no_request (getitem arguments key).
Proof.
  unfold getitem. destruct arguments as [m|]; [|apply no_request_raise].
  destruct (m !! key); [apply no_request_ret | apply no_request_raise].
Qed.

Lemma no_request_str_strip v : sends_no_request (str_strip v).
Proof. destruct v; first [apply no_request_ret | apply no_request_raise]. Qed.

Ltac no_request_step :=
  first
    [ apply no_request_ret
    | apply no_request_raise
    | apply no_request_getitem
    | apply no_request_str_strip
    | apply no_request_execute_query
    | apply no_request_bind; [|intros ?]
    | match goal with
      | |- sends_no_request (if ?b then _ else _) => destruct b
      end ].

(** Every tool but [append-insight] leaves the collaborator alone. *)
Lemma no_request_other_tools name arguments :
  (name =? "append-insight") = false ->
  sends_no_request (call_tool_body E name arguments).
Proof.
  intros Hname. unfold call_tool_body, query_tools. rewrite Hname.
  repeat no_request_step.
Qed.

Lemma no_request_handler name arguments :
  sends_no_request (call_tool_body E name arguments) ->
  sends_no_request (handle_call_tool E name arguments).
Proof.
  intros H. unfold handle_call_tool.
  apply no_request_try_except; [exact H | intros e; apply no_request_ret].
Qed.

(** C7, amended. The summarization requests a tool call adds to the log
    are those of [requests_of_call]: none for every tool but
    [append-insight], and for an [append-insight] call that carries an
    insight exactly one when a summarization client is configured (the
    handler renders the memo after appending; the prompt is that of the
    sequence ending with the new insight) and none otherwise. *)
Theorem summarization_requests_of_tool_call name arguments self :
  requests (log (snd (handle_call_tool E name arguments self))) =
    (requests (log self) ++ requests_of_call name arguments self)%list.
Proof.
  unfold requests_of_call.
  destruct (str_eqb_spec name "append-insight") as [-> | Hne].
  - destruct (lookup_arg arguments "insight") as [v|] eqn:Hv.
    + destruct arguments as [m|]; [|discriminate Hv]. simpl in Hv.
      rewrite (append_insight_log m v self Hv), !requests_app.
      destruct (configured self); simpl; [reflexivity | now rewrite app_nil_r].
    + rewrite (handle_generic "append-insight" arguments self
                 (Exc ValueError "Missing insight argument")).
      * simpl. now rewrite app_nil_r.
      * rewrite call_append_insight. now rewrite (lookup_none_missing _ _ Hv).
      * reflexivity.
  - rewrite app_nil_r. apply no_request_handler, no_request_other_tools.
    now apply str_eqb_neq.
Qed.

(** *** C10 *)

(** C10, amended. In a call of [append-insight] that carries an insight,
    the sequence is extended before the session is notified.  If the
    notification raises an instance of [Exception], the caller gets its
    error text; if the [await] is cancelled, the [CancelledError] leaves
    the handler.  In both cases the insight is in the memo all the same. *)
Theorem append_insight_not_atomic m v self r :
  m !! "insight" = Some v ->
  send_resource_updated E
    (log (snd (_synthesize_memo E (set_insights (insights self ++ [v]) self))))
    MEMO_URI = Some r ->
  fst (handle_call_tool E "append-insight" (Some m) self) =
    match r with
    | Exn e =>
        inr [mkTextContent "text"
               (match exc_class e with
                | SqliteError => "Database error: "
                | _ => "Error: "
                end ++ exc_str e)]
    | Cancelled => inl Cancelled
    end /\
  insights (snd (handle_call_tool E "append-insight" (Some m) self)) = (insights self ++ [v])%list /\
  insights (snd (_synthesize_memo E (set_insights (insights self ++ [v]) self)))
    = (insights self ++ [v])%list.
Proof.
  intros Hv He. split; [|split].
  - rewrite (append_insight_run m v self Hv). cbv zeta. unfold fst. rewrite He.
    destruct r as [e|]; [|reflexivity].
    unfold error_text, is_sqlite_error, text_content, DATABASE_ERROR, GENERIC_ERROR.
    destruct (exc_class e); reflexivity.
  - now rewrite (append_insight_state m v self Hv).
  - now rewrite synthesize_state.
Qed.

(** *** C8 *)

Lemma join_two_last sep (a : list str) u w :
  exists pre, PyStr.join sep (a ++ [u; w]) = pre ++ u ++ sep ++ w.
Proof.
  induction a as [|h t [pre IH]].
  - exists "". reflexivity.
  - exists (h ++ sep ++ pre).
    change ((h :: t) ++ [u; w])%list with (h :: (t ++ [u; w]))%list.
    destruct (t ++ [u; w])%list as [|h' t'] eqn:Ht.
    + now apply app_eq_nil in Ht as [_ ?].
    + change (PyStr.join sep (h :: h' :: t')) with (h ++ sep ++ PyStr.join sep (h' :: t')).
      now rewrite IH, !append_assoc.
Qed.

Lemma basic_memo_order l x y :
  PyStr.occurs_before (basic_memo (l ++ [JStr x; JStr y])) x y.
Proof.
  unfold basic_memo, bullets. rewrite map_app.
  destruct (join_two_last PyStr.nl (map (fun i => "- " ++ py_str i) l)
              ("- " ++ x) ("- " ++ y)) as [pre Hpre].
  change (map (fun i => "- " ++ py_str i) [JStr x; JStr y])
    with ["- " ++ x; "- " ++ y].
  rewrite Hpre.
  assert (Hlen : (1 <? length (l ++ [JStr x; JStr y]))%nat = true).
  { apply Nat.ltb_lt. rewrite length_app. simpl. lia. }
  rewrite Hlen.
  set (summary := "Analysis has revealed " ++ _).
  exists ((MEMO_HEADING ++ "Key Insights Discovered:" ++ PyStr.nl ++ PyStr.nl) ++ pre ++ "- "),
         (PyStr.nl ++ "- "),
         ((PyStr.nl ++ "Summary:" ++ PyStr.nl) ++ summary).
  now rewrite !append_assoc.
Qed.

(** C8. After [append-insight] with "X" and then with "Y", on a server
    without a summarization key, the rendered memo contains "X" and, after
    it, "Y". *)
Theorem append_order_preserved mx my x y self :
  anthropic_api_key self = None ->
  mx !! "insight" = Some (JStr x) ->
  my !! "insight" = Some (JStr y) ->
  exists memo,
    fst (_synthesize_memo E
           (snd (handle_call_tool E "append-insight" (Some my)
                   (snd (handle_call_tool E "append-insight" (Some mx) self)))))
      = inr memo /\
    PyStr.occurs_before memo x y.
Proof.
  intros Hkey Hx Hy.
  rewrite (append_insight_state mx (JStr x) self Hx).
  rewrite (append_insight_state my (JStr y) _ Hy).
  exists (basic_memo (insights self ++ [JStr x; JStr y])). split.
  - rewrite synthesize_basic.
    + simpl. now rewrite <- app_assoc.
    + simpl. intros Habs. now apply app_eq_nil in Habs as [_ ?].
    + exact Hkey.
  - apply basic_memo_order.
Qed.

(** *** C9 *)

Lemma synthesize_quiet self :
  configured self = false \/ insights self = [] ->
  _synthesize_memo E self = (inr (plain_memo self), self).
Proof.
  unfold plain_memo, configured. intros H.
  destruct (insights self) as [|i l] eqn:Hl.
  - now apply synthesize_empty.
  - assert (Hne : insights self <> []) by (rewrite Hl; discriminate).
    destruct H as [H | H]; [|discriminate H].
    destruct (anthropic_api_key self) as [key|] eqn:Hkey.
    + rewrite (synthesize_no_client self key) by assumption. now rewrite Hl.
    + rewrite synthesize_basic by assumption. now rewrite Hl.
Qed.

(** The text of a rendering depends on the insight sequence, on the
    configuration and, when a request is sent, on the collaborator's
    answer. *)
Lemma render_depends_on self self' :
  insights self' = insights self ->
  anthropic_api_key self' = anthropic_api_key self ->
  anthropic_client self' = anthropic_client self ->
  configured self = false \/ insights self = [] \/
  messages_create E (log self') (memo_prompt (insights self)) =
  messages_create E (log self) (memo_prompt (insights self)) ->
  fst (_synthesize_memo E self') = fst (_synthesize_memo E self).
Proof.
  intros Hi Hk Hc H.
  assert (Hquiet :
    configured self = false \/ insights self = [] ->
    fst (_synthesize_memo E self') = fst (_synthesize_memo E self)).
  { intros Hq. rewrite (synthesize_quiet self Hq), synthesize_quiet.
    - simpl. unfold plain_memo. now rewrite Hi, Hk.
    - unfold configured in *. now rewrite Hi, Hk, Hc. }
  destruct H as [H | [H | H]]; [auto | auto |].
  destruct (configured self) eqn:Hconf; [|auto].
  assert (Hdec : insights self = [] \/ insights self <> [])
    by (destruct (insights self); [now left | now right]).
  destruct Hdec as [Hnil | Hne]; [auto|].
  unfold configured in Hconf.
  destruct (anthropic_api_key self) as [key|] eqn:Hkey; [|discriminate Hconf].
  rewrite (synthesize_request self key Hne Hkey Hconf).
  rewrite (synthesize_request self' key);
    [| now rewrite Hi | exact Hk | now rewrite Hc].
  simpl. now rewrite Hi, H.
Qed.

Lemma synthesize_keeps_configuration self :
  insights (snd (_synthesize_memo E self)) = insights self /\
  anthropic_api_key (snd (_synthesize_memo E self)) = anthropic_api_key self /\
  anthropic_client (snd (_synthesize_memo E self)) = anthropic_client self.
Proof. rewrite synthesize_state. repeat split. Qed.

(** C9, amended. Rendering never changes the insight sequence and keeps
    no rendered text. Two renderings in a row return the same text when no
    summarization request is sent (no client is configured, or the memo is
    empty), and otherwise when the collaborator gives the second request the
    answer it gave the first. *)
Theorem render_twice self :
  configured self = false \/ insights self = [] \/
  messages_create E (log (snd (_synthesize_memo E self))) (memo_prompt (insights self)) =
  messages_create E (log self) (memo_prompt (insights self)) ->
  fst (_synthesize_memo E (snd (_synthesize_memo E self))) = fst (_synthesize_memo E self) /\
  insights (snd (_synthesize_memo E self)) = insights self.
Proof.
  intros H.
  destruct (synthesize_keeps_configuration self) as (Hi & Hk & Hc).
  split; [|exact Hi].
  now apply render_depends_on.
Qed.

End Dispatch.

(** ** The handlers on concrete calls *)

(** C2: [call("drop-everything", {})] on a fresh server returns a text
    content, and the text speaks of missing arguments. *)
Lemma unknown_tool_returns_text :
  handle_call_tool quiet_env "drop-everything" no_args fresh =
    (inr (text_content "Error: Missing arguments"), fresh) /\
  handle_call_tool quiet_env "drop-everything" (args1 "force" (JBool true)) fresh =
    (inr (text_content "Error: Unknown tool: drop-everything"), fresh).
Proof. split; reflexivity. Qed.

Lemma unknown_tool_is_reported_as_text_witness :
  known_tool "drop-everything" = false /\
  exists msg,
    handle_call_tool quiet_env "drop-everything" (args1 "force" (JBool true)) fresh =
      (inr (text_content (GENERIC_ERROR ++ msg)), fresh) /\
    PyStr.startswith (GENERIC_ERROR ++ msg) DATABASE_ERROR = false /\
    (truthy (args1 "force" (JBool true)) = false \/
     msg = "Unknown tool: " ++ "drop-everything").
Proof.
  split; [reflexivity|].
  apply (unknown_tool_is_reported_as_text quiet_env "drop-everything"
           (args1 "force" (JBool true)) fresh).
  reflexivity.
Defined.

Lemma policy_violation_executes_nothing_witness :
  handle_call_tool quiet_env "read-query"
      (Some {[ "query" := JStr "UPDATE t SET x=1" ]}) fresh =
    (inr [mkTextContent "text" ("Error: " ++ policy_message "read-query")], fresh) /\
  handle_call_tool quiet_env "write-query"
      (Some {[ "query" := JStr "SELECT * FROM t" ]}) fresh =
    (inr [mkTextContent "text" ("Error: " ++ policy_message "write-query")], fresh) /\
  handle_call_tool quiet_env "create-table"
      (Some {[ "query" := JStr "CREATE INDEX idx ON t(x)" ]}) fresh =
    (inr [mkTextContent "text" ("Error: " ++ policy_message "create-table")], fresh).
Proof.
  split; [|split].
  - apply (policy_violation_executes_nothing quiet_env "read-query"
             {[ "query" := JStr "UPDATE t SET x=1" ]} "UPDATE t SET x=1" fresh);
      reflexivity.
  - apply (policy_violation_executes_nothing quiet_env "write-query"
             {[ "query" := JStr "SELECT * FROM t" ]} "SELECT * FROM t" fresh);
      reflexivity.
  - apply (policy_violation_executes_nothing quiet_env "create-table"
             {[ "query" := JStr "CREATE INDEX idx ON t(x)" ]}
             "CREATE INDEX idx ON t(x)" fresh);
      reflexivity.
Defined.

(** C4: with the model endpoint unreachable, the memo of two insights is
    the two bullet lines; without a key it has the heading and the summary
    sentence around them. *)
Lemma fallback_differs_from_basic_memo :
  fst (_synthesize_memo offline_env (two_insights fresh_with_key)) =
    inr ("- X" ++ PyStr.nl ++ "- Y") /\
  fst (_synthesize_memo offline_env (two_insights fresh)) =
    inr (MEMO_HEADING ++ "Key Insights Discovered:" ++ PyStr.nl ++ PyStr.nl
           ++ "- X" ++ PyStr.nl ++ "- Y" ++ PyStr.nl ++ "Summary:" ++ PyStr.nl
           ++ "Analysis has revealed 2 key business insights that suggest opportunities for strategic optimization and growth.") /\
  fst (_synthesize_memo offline_env (two_insights fresh_with_key)) <>
  fst (_synthesize_memo offline_env (two_insights fresh)).
Proof. split; [|split]; [reflexivity | reflexivity | discriminate]. Qed.

Lemma collaborator_failure_returns_bullets_witness :
  fst (_synthesize_memo offline_env (two_insights fresh_with_key)) =
    inr (bullets [JStr "X"; JStr "Y"]).
Proof.
  apply (collaborator_failure_returns_bullets offline_env
           (two_insights fresh_with_key) "sk-test").
  - discriminate.
  - reflexivity.
  - right. exists APIConnectionError. reflexivity.
Defined.

(** C6: an integer where the schema asks for a str is taken as it is by
    [append-insight], which stores it, and by [describe-table], which
    formats it into the PRAGMA statement. *)
Lemma non_string_argument_accepted :
  handle_call_tool quiet_env "append-insight" (args1 "insight" (JInt 5)) fresh =
    (inr (text_content "Insight added to memo"),
     mkServer "test.db" None false [JInt 5] [EvResourceUpdated MEMO_URI]) /\
  handle_call_tool quiet_env "describe-table" (args1 "table_name" (JInt 5)) fresh =
    (inr (text_content "[]"),
     mkServer "test.db" None false []
              [EvConnect "test.db"; EvExecute "PRAGMA table_info(5)" []; EvClose]).
Proof. split; reflexivity. Qed.

Lemma missing_or_non_string_argument_witness :
  exists msg,
    handle_call_tool quiet_env "describe-table" no_args fresh =
      (inr (text_content (GENERIC_ERROR ++ msg)), fresh).
Proof.
  apply (missing_or_non_string_argument quiet_env describe_table_tool no_args
           "table_name" fresh).
  - simpl. tauto.
  - simpl. tauto.
  - left. reflexivity.
Defined.

(** C7: with a key configured, one [append-insight] sends a summarization
    request. *)
Lemma append_insight_calls_collaborator :
  log (snd (handle_call_tool quiet_env "append-insight"
              (args1 "insight" (JStr "X")) fresh_with_key)) =
    [EvCreateMessage (memo_prompt [JStr "X"]); EvResourceUpdated MEMO_URI] /\
  existsb is_create_message
    (log (snd (handle_call_tool quiet_env "append-insight"
                 (args1 "insight" (JStr "X")) fresh_with_key))) = true.
Proof. split; reflexivity. Qed.

Lemma append_insight_not_atomic_witness :
  fst (handle_call_tool closed_session_env "append-insight"
         (Some {[ "insight" := JStr "X" ]}) fresh) =
    inr [mkTextContent "text" "Error: session closed"] /\
  insights (snd (handle_call_tool closed_session_env "append-insight"
                   (Some {[ "insight" := JStr "X" ]}) fresh)) =
    (insights fresh ++ [JStr "X"])%list /\
  insights (snd (_synthesize_memo closed_session_env
                   (set_insights (insights fresh ++ [JStr "X"]) fresh))) =
    (insights fresh ++ [JStr "X"])%list.
Proof.
  apply (append_insight_not_atomic closed_session_env {[ "insight" := JStr "X" ]}
           (JStr "X") fresh (Exn ClosedSession)); reflexivity.
Defined.

(** C10: when the request is cancelled while the notification is awaited,
    the call gives no error text: the [CancelledError] leaves the handler,
    with the insight appended. *)
Lemma cancelled_append_returns_no_text :
  handle_call_tool cancelling_env "append-insight" (args1 "insight" (JStr "X")) fresh =
    (inl Cancelled,
     mkServer "test.db" None false [JStr "X"] [EvResourceUpdated MEMO_URI]).
Proof. reflexivity. Qed.

(** C1: the same call, seen from the caller: the handler raises. *)
Lemma cancellation_leaves_the_handler :
  fst (handle_call_tool cancelling_env "append-insight"
         (args1 "insight" (JStr "X")) fresh) = inl Cancelled /\
  forall content,
    fst (handle_call_tool cancelling_env "append-insight"
           (args1 "insight" (JStr "X")) fresh) <> inr content.
Proof.
  assert (H : fst (handle_call_tool cancelling_env "append-insight"
                     (args1 "insight" (JStr "X")) fresh) = inl Cancelled)
    by (vm_compute; reflexivity).
  split; [exact H|]. intros content Hc. rewrite H in Hc. discriminate Hc.
Qed.

(** The keyword tests on statements with characters outside ASCII: a
    leading no-break space is white space, the long s becomes S and the
    dotless i becomes I. *)
Lemma keyword_tests_beyond_ascii :
  is_select (StrCons 160 "SELECT 1") = true /\
  is_select "ſelect 1" = true /\
  commits "ınsert into t values (1)" = true /\
  commits (StrCons 160 "INSERT INTO t VALUES (1)") = true /\
  violates_policy "write-query" "ſelect 1" = true.
Proof. vm_compute. repeat split. Qed.

Lemma append_order_preserved_witness :
  exists memo,
    fst (_synthesize_memo quiet_env
           (snd (handle_call_tool quiet_env "append-insight"
                   (Some {[ "insight" := JStr "Y" ]})
                   (snd (handle_call_tool quiet_env "append-insight"
                           (Some {[ "insight" := JStr "X" ]}) fresh)))))
      = inr memo /\
    PyStr.occurs_before memo "X" "Y".
Proof.
  apply (append_order_preserved quiet_env {[ "insight" := JStr "X" ]}
           {[ "insight" := JStr "Y" ]} "X" "Y" fresh); reflexivity.
Defined.

(** C9: with an endpoint that answers once and then fails, two renderings
    of the same one-insight memo differ. *)
Lemma render_twice_differs :
  let s := set_insights [JStr "X"] fresh_with_key in
  let r1 := _synthesize_memo flaky_env s in
  let r2 := _synthesize_memo flaky_env (snd r1) in
  insights (snd r1) = insights s /\
  fst r1 = inr "Executive memo" /\
  fst r2 = inr "- X" /\
  fst r1 <> fst r2.
Proof. cbv zeta. split; [|split; [|split]]; [reflexivity.. | discriminate]. Qed.

Lemma render_twice_witness :
  fst (_synthesize_memo quiet_env
         (snd (_synthesize_memo quiet_env (two_insights fresh_with_key)))) =
  fst (_synthesize_memo quiet_env (two_insights fresh_with_key)) /\
  insights (snd (_synthesize_memo quiet_env (two_insights fresh_with_key))) =
  insights (two_insights fresh_with_key).
Proof.
  apply (render_twice quiet_env (two_insights fresh_with_key)).
  right. right. reflexivity.
Defined.

(** * Further properties *)

(** ** Policy tests and the executor's test *)

Lemma startswith_app s p p' :
  PyStr.startswith s (p ++ p') = true -> PyStr.startswith s p = true.
Proof.
  revert s. induction p as [|a p IH]; intros s H; [reflexivity|].
  rewrite append_cons in H. destruct s as [|b s]; simpl in *; [discriminate|].
  destruct (N.eqb a b); [now apply IH | discriminate].
Qed.

Lemma is_select_not_commits q : is_select q = true -> commits q = false.
Proof.
  unfold is_select, commits. destruct (leading_form q) as [|c r]; [discriminate|].
  change (PyStr.startswith (StrCons c r) "SELECT")
    with (if N.eqb 83 c then PyStr.startswith r "ELECT" else false).
  destruct (N.eqb_spec 83 c) as [<- | _]; [|discriminate].
  intros _. reflexivity.
Qed.

(** A statement the [read-query] test lets through is never one the
    executor commits: no write keyword begins with the S of SELECT. *)
Theorem select_is_never_committed q :
  is_select q = true -> commits q = false.
Proof. apply is_select_not_commits. Qed.

Lemma is_create_table_commits q : is_create_table q = true -> commits q = true.
Proof.
  unfold is_create_table, commits, PyStr.startswith_any, WRITE_KEYWORDS. intros H.
  apply (startswith_app (leading_form q) "CREATE" " TABLE") in H.
  apply existsb_exists. exists "CREATE". split; [|exact H].
  right. right. right. now left.
Qed.

(** A statement the [create-table] test lets through is one the executor
    commits. *)
Theorem create_table_is_always_committed q :
  is_create_table q = true -> commits q = true.
Proof. apply is_create_table_commits. Qed.

Lemma strip_keeps_head c s :
  PyStr.isspace c = false -> exists r, PyStr.strip (StrCons c s) = StrCons c r.
Proof.
  intros Hc. unfold PyStr.strip. simpl PyStr.lstrip. rewrite Hc. simpl.
  destruct (PyStr.rstrip s); [rewrite Hc|]; eauto.
Qed.

(** The statement of [describe-table] is never one the executor commits,
    whatever is spliced into it. *)
Lemma pragma_is_never_committed t :
  commits ("PRAGMA table_info(" ++ t ++ ")") = false.
Proof.
  unfold commits, leading_form.
  change ("PRAGMA table_info(" ++ t ++ ")")
    with (StrCons 80 ("RAGMA table_info(" ++ t ++ ")")).
  destruct (strip_keeps_head 80 ("RAGMA table_info(" ++ t ++ ")") eq_refl) as [r ->].
  reflexivity.
Qed.

(** ** The executor *)

Section Executor.

Variable E : Env.

Implicit Types (self : McpServer) (query : str) (params : list sql_value).
Implicit Types (e : exception).

Lemma add_log_add_log evs1 evs2 self :
  add_log evs2 (add_log evs1 self) = add_log (evs1 ++ evs2) self.
Proof. unfold add_log. simpl. now rewrite app_assoc. Qed.

Lemma log_add_log evs self : log (add_log evs self) = (log self ++ evs)%list.
Proof. reflexivity. Qed.

(** *** Computations that only write to the log *)

Lemma logs_only_ret {A} P (a : A) : logs_only P (ret a).
Proof. intros self. exists []. now rewrite add_log_nil. Qed.

Lemma logs_only_raise {A} P e : logs_only P (@raise A e).
Proof. intros self. exists []. now rewrite add_log_nil. Qed.

Lemma logs_only_pure {A} P (r : raised + A) : logs_only P (fun self => (r, self)).
Proof. intros self. exists []. now rewrite add_log_nil. Qed.

Lemma logs_only_get P : logs_only P get.
Proof. intros self. exists []. now rewrite add_log_nil. Qed.

Lemma logs_only_bind {A B} P (c : M A) (k : A -> M B) :
  logs_only P c -> (forall a, logs_only P (k a)) -> logs_only P (bind c k).
Proof.
  intros Hc Hk self. destruct (Hc self) as (evs1 & H1 & HP1). unfold bind.
  destruct (c self) as [[e|a] s1]; simpl in H1; subst s1.
  - now exists evs1.
  - destruct (Hk a (add_log evs1 self)) as (evs2 & H2 & HP2).
    exists (evs1 ++ evs2)%list. rewrite H2, add_log_add_log. split; [reflexivity|].
    rewrite forallb_app. now rewrite HP1, HP2.
Qed.

Lemma logs_only_try_except {A} P (c : M A) (h : exception -> M A) :
  logs_only P c -> (forall e, logs_only P (h e)) -> logs_only P (try_except c h).
Proof.
  intros Hc Hh self. destruct (Hc self) as (evs1 & H1 & HP1). unfold try_except.
  destruct (c self) as [[[e|]|a] s1]; simpl in H1; subst s1.
  - destruct (Hh e (add_log evs1 self)) as (evs2 & H2 & HP2).
    exists (evs1 ++ evs2)%list. rewrite H2, add_log_add_log. split; [reflexivity|].
    rewrite forallb_app. now rewrite HP1, HP2.
  - now exists evs1.
  - now exists evs1.
Qed.

Lemma logs_only_try_finally {A} P (c : M A) ev :
  P ev = true -> logs_only P c -> logs_only P (try_finally c (emit ev)).
Proof.
  intros Hev Hc self. destruct (Hc self) as (evs1 & H1 & HP1). unfold try_finally.
  destruct (c self) as [r s1]; simpl in H1; subst s1.
  exists (evs1 ++ [ev])%list. simpl snd. rewrite emit_add_log, add_log_add_log.
  split; [reflexivity|]. rewrite forallb_app, HP1. simpl. now rewrite Hev.
Qed.

Lemma logs_only_call {A} P ev (answer : list event -> exception + A) :
  P ev = true -> logs_only P (call ev answer).
Proof.
  intros Hev self. exists [ev]. unfold call. simpl. now rewrite Hev.
Qed.

Lemma logs_only_weaken {A} (P Q : event -> bool) (c : M A) :
  (forall ev, P ev = true -> Q ev = true) -> logs_only P c -> logs_only Q c.
Proof.
  intros HPQ Hc self. destruct (Hc self) as (evs & H & HP). exists evs.
  split; [exact H|]. apply forallb_forall. intros ev Hin.
  apply HPQ. rewrite forallb_forall in HP. now apply HP.
Qed.

(** Events of a kind [Q] that [P] excludes are not added. *)
Lemma logs_only_filter {A} (P Q : event -> bool) (c : M A) self :
  logs_only P c -> (forall ev, P ev = true -> Q ev = false) ->
  List.filter Q (log (snd (c self))) = List.filter Q (log self).
Proof.
  intros Hc HPQ. destruct (Hc self) as (evs & -> & HP).
  rewrite log_add_log, List.filter_app.
  assert (Hnil : List.filter Q evs = []).
  { clear -HP HPQ. induction evs as [|ev evs IH]; [reflexivity|].
    simpl in *. apply andb_true_iff in HP as [Hev HP].
    rewrite (HPQ ev Hev). now apply IH. }
  rewrite Hnil. apply app_nil_r.
Qed.

Lemma execute_query_logs_only query params :
  logs_only (executor_event query) (_execute_query E query params).
Proof.
  unfold _execute_query, with_connection.
  apply logs_only_try_except; [|intros e; apply logs_only_raise].
  apply logs_only_bind; [apply logs_only_get | intros self0].
  apply logs_only_bind; [now apply logs_only_call | intros _].
  apply logs_only_try_finally; [reflexivity|].
  apply logs_only_bind; [now apply logs_only_call | intros cur].
  destruct (commits query) eqn:Hc.
  - apply logs_only_bind; [now apply logs_only_call | intros _].
    apply logs_only_ret.
  - apply logs_only_pure.
Qed.

(** *** The five ways a run of the executor can go *)

Lemma execute_query_connect_fails query params self e :
  sqlite3_connect E (log self) (db_path self) = Some e ->
  _execute_query E query params self =
    (inl e, add_log [EvConnect (db_path self)] self).
Proof.
  intros Hc. unfold _execute_query, with_connection, try_except, bind, get, call, of_option.
  cbv beta iota. now rewrite Hc.
Qed.

Lemma execute_query_statement_fails query params self e :
  sqlite3_connect E (log self) (db_path self) = None ->
  cursor_execute E (log self ++ [EvConnect (db_path self)]) query params = inl e ->
  _execute_query E query params self =
    (inl e, add_log [EvConnect (db_path self); EvExecute query params; EvClose] self).
Proof.
  intros Hc Hx.
  unfold _execute_query, with_connection, try_except, try_finally, bind, get, call, of_option.
  cbv beta iota. rewrite Hc. cbv beta iota. simpl log. rewrite Hx.
  unfold raise, emit, add_log. simpl. now rewrite <- !app_assoc.
Qed.

Lemma execute_query_reads query params self cur :
  sqlite3_connect E (log self) (db_path self) = None ->
  cursor_execute E (log self ++ [EvConnect (db_path self)]) query params = inr cur ->
  commits query = false ->
  _execute_query E query params self =
    (of_sync (fetchall cur),
     add_log [EvConnect (db_path self); EvExecute query params; EvClose] self).
Proof.
  intros Hc Hx Hw.
  unfold _execute_query, with_connection, try_except, try_finally, bind, get, call, of_option.
  cbv beta iota. rewrite Hc. cbv beta iota. simpl log. rewrite Hx, Hw.
  unfold raise, emit, add_log. simpl.
  destruct (fetchall cur); now rewrite <- !app_assoc.
Qed.

Lemma execute_query_commit_fails query params self cur e :
  sqlite3_connect E (log self) (db_path self) = None ->
  cursor_execute E (log self ++ [EvConnect (db_path self)]) query params = inr cur ->
  commits query = true ->
  conn_commit E (log self ++ [EvConnect (db_path self); EvExecute query params]) = Some e ->
  _execute_query E query params self =
    (inl e,
     add_log [EvConnect (db_path self); EvExecute query params; EvCommit; EvClose] self).
Proof.
  intros Hc Hx Hw Hk.
  unfold _execute_query, with_connection, try_except, try_finally, bind, get, call, of_option.
  cbv beta iota. rewrite Hc. cbv beta iota. simpl log. rewrite Hx, Hw.
  cbv beta iota. simpl log. rewrite <- !app_assoc. simpl app. rewrite Hk.
  unfold raise, emit, add_log. simpl. now rewrite <- !app_assoc.
Qed.

Lemma execute_query_writes query params self cur :
  sqlite3_connect E (log self) (db_path self) = None ->
  cursor_execute E (log self ++ [EvConnect (db_path self)]) query params = inr cur ->
  commits query = true ->
  conn_commit E (log self ++ [EvConnect (db_path self); EvExecute query params]) = None ->
  _execute_query E query params self =
    (inr [[("affected_rows", SqlInt (rowcount cur))]],
     add_log [EvConnect (db_path self); EvExecute query params; EvCommit; EvClose] self).
Proof.
  intros Hc Hx Hw Hk.
  unfold _execute_query, with_connection, try_except, try_finally, bind, get, call, of_option.
  cbv beta iota. rewrite Hc. cbv beta iota. simpl log. rewrite Hx, Hw.
  cbv beta iota. simpl log. rewrite <- !app_assoc. simpl app. rewrite Hk.
  unfold ret, emit, add_log. simpl. now rewrite <- !app_assoc.
Qed.

(** *** What a run of the executor leaves in the log *)

(** One run opens one connection and, if it could be opened, closes it
    again on every path (statement refused, commit refused, rows fetched or
    not), as the last thing it does. *)
Theorem execute_query_closes_what_it_opens query params self :
  exists evs,
    snd (_execute_query E query params self) =
      add_log (EvConnect (db_path self) :: evs) self /\
    match sqlite3_connect E (log self) (db_path self) with
    | Some _ => evs = []
    | None =>
        exists mid,
          evs = (mid ++ [EvClose])%list /\
          forallb (fun ev => negb (is_connection_event ev)) mid = true
    end.
Proof.
  destruct (sqlite3_connect E (log self) (db_path self)) as [e|] eqn:Hc.
  { exists []. now rewrite (execute_query_connect_fails query params self e Hc). }
  destruct (cursor_execute E (log self ++ [EvConnect (db_path self)]) query params)
    as [e|cur] eqn:Hx.
  { exists [EvExecute query params; EvClose].
    rewrite (execute_query_statement_fails query params self e Hc Hx).
    split; [reflexivity|]. now exists [EvExecute query params]. }
  destruct (commits query) eqn:Hw.
  - destruct (conn_commit E (log self ++ [EvConnect (db_path self); EvExecute query params]))
      as [e|] eqn:Hk.
    + exists [EvExecute query params; EvCommit; EvClose].
      rewrite (execute_query_commit_fails query params self cur e Hc Hx Hw Hk).
      split; [reflexivity|]. now exists [EvExecute query params; EvCommit].
    + exists [EvExecute query params; EvCommit; EvClose].
      rewrite (execute_query_writes query params self cur Hc Hx Hw Hk).
      split; [reflexivity|]. now exists [EvExecute query params; EvCommit].
  - exists [EvExecute query params; EvClose].
    rewrite (execute_query_reads query params self cur Hc Hx Hw).
    split; [reflexivity|]. now exists [EvExecute query params].
Qed.

(** A run commits once when the engine took a statement that begins with
    one of the six write keywords, and not at all otherwise. *)
Theorem execute_query_commit_discipline query params self :
  List.filter is_commit (log (snd (_execute_query E query params self))) =
    (List.filter is_commit (log self)
       ++ match sqlite3_connect E (log self) (db_path self),
                cursor_execute E (log self ++ [EvConnect (db_path self)]) query params with
          | None, inr _ => if commits query then [EvCommit] else []
          | _, _ => []
          end)%list.
Proof.
  destruct (sqlite3_connect E (log self) (db_path self)) as [e|] eqn:Hc.
  { rewrite (execute_query_connect_fails query params self e Hc).
    simpl. now rewrite List.filter_app. }
  destruct (cursor_execute E (log self ++ [EvConnect (db_path self)]) query params)
    as [e|cur] eqn:Hx.
  { rewrite (execute_query_statement_fails query params self e Hc Hx).
    simpl. now rewrite List.filter_app. }
  destruct (commits query) eqn:Hw.
  - destruct (conn_commit E (log self ++ [EvConnect (db_path self); EvExecute query params]))
      as [e|] eqn:Hk.
    + rewrite (execute_query_commit_fails query params self cur e Hc Hx Hw Hk).
      simpl. now rewrite List.filter_app.
    + rewrite (execute_query_writes query params self cur Hc Hx Hw Hk).
      simpl. now rewrite List.filter_app.
  - rewrite (execute_query_reads query params self cur Hc Hx Hw).
    simpl. now rewrite List.filter_app.
Qed.

(** What a run returns: for a statement with a write keyword one record
    with the cursor's row count under "affected_rows", for any other
    statement the rows the cursor fetched. *)
Theorem execute_query_result_shape query params self rows :
  fst (_execute_query E query params self) = inr rows ->
  exists cur,
    cursor_execute E (log self ++ [EvConnect (db_path self)]) query params = inr cur /\
    if commits query then rows = [[("affected_rows", SqlInt (rowcount cur))]]
    else fetchall cur = inr rows.
Proof.
  destruct (sqlite3_connect E (log self) (db_path self)) as [e|] eqn:Hc.
  { rewrite (execute_query_connect_fails query params self e Hc). discriminate. }
  destruct (cursor_execute E (log self ++ [EvConnect (db_path self)]) query params)
    as [e|cur] eqn:Hx.
  { rewrite (execute_query_statement_fails query params self e Hc Hx). discriminate. }
  intros H. exists cur. split; [reflexivity|].
  destruct (commits query) eqn:Hw.
  - destruct (conn_commit E (log self ++ [EvConnect (db_path self); EvExecute query params]))
      as [e|] eqn:Hk.
    + rewrite (execute_query_commit_fails query params self cur e Hc Hx Hw Hk) in H.
      discriminate.
    + rewrite (execute_query_writes query params self cur Hc Hx Hw Hk) in H.
      simpl in H. congruence.
  - rewrite (execute_query_reads query params self cur Hc Hx Hw) in H.
    unfold fst in H. destruct (fetchall cur); simpl in H; [discriminate | congruence].
Qed.

(** The [except] clause passes the exception on: what the executor raises
    is what [connect], [execute], [commit] or [fetchall] raised. *)
Theorem execute_query_raises_what_the_engine_raised query params self e :
  fst (_execute_query E query params self) = inl e ->
  sqlite3_connect E (log self) (db_path self) = Some e \/
  cursor_execute E (log self ++ [EvConnect (db_path self)]) query params = inl e \/
  (exists cur,
     cursor_execute E (log self ++ [EvConnect (db_path self)]) query params = inr cur /\
     (conn_commit E (log self ++ [EvConnect (db_path self); EvExecute query params]) = Some e
      \/ fetchall cur = inl e)).
Proof.
  destruct (sqlite3_connect E (log self) (db_path self)) as [e0|] eqn:Hc.
  { rewrite (execute_query_connect_fails query params self e0 Hc). simpl.
    intros [= ->]. now left. }
  destruct (cursor_execute E (log self ++ [EvConnect (db_path self)]) query params)
    as [e0|cur] eqn:Hx.
  { rewrite (execute_query_statement_fails query params self e0 Hc Hx). simpl.
    intros [= ->]. right. now left. }
  intros H. right. right. exists cur. split; [reflexivity|].
  destruct (commits query) eqn:Hw.
  - destruct (conn_commit E (log self ++ [EvConnect (db_path self); EvExecute query params]))
      as [e0|] eqn:Hk.
    + rewrite (execute_query_commit_fails query params self cur e0 Hc Hx Hw Hk) in H.
      simpl in H. left. congruence.
    + rewrite (execute_query_writes query params self cur Hc Hx Hw Hk) in H.
      discriminate.
  - rewrite (execute_query_reads query params self cur Hc Hx Hw) in H.
    unfold fst in H. right. destruct (fetchall cur); simpl in H; [congruence | discriminate].
Qed.

End Executor.

(** ** Tool calls and the server state *)

Section Tools.

Variable E : Env.

Implicit Types (name : str) (arguments : option (gmap str jvalue)).
Implicit Types (self : McpServer) (m : gmap str jvalue) (e : exception).

Lemma executor_event_is_engine_event query ev :
  executor_event query ev = true -> is_engine_event ev = true.
Proof. destruct ev; simpl; auto. Qed.

Lemma executor_event_no_commit query ev :
  commits query = false -> executor_event query ev = true -> is_commit ev = false.
Proof. intros Hw. destruct ev; simpl; auto. rewrite Hw. discriminate. Qed.

Lemma logs_only_getitem P arguments key : logs_only P (getitem arguments key).
Proof.
  unfold getitem. destruct arguments as [m|]; [|apply logs_only_raise].
  destruct (m !! key); [apply logs_only_ret | apply logs_only_raise].
Qed.

Lemma logs_only_str_strip P v : logs_only P (str_strip v).
Proof. destruct v; first [apply logs_only_ret | apply logs_only_raise]. Qed.

Lemma execute_query_engine_events query params :
  logs_only is_engine_event (_execute_query E query params).
Proof.
  apply (logs_only_weaken (executor_event query)).
  - apply executor_event_is_engine_event.
  - apply execute_query_logs_only.
Qed.

Ltac logs_only_step :=
  first
    [ apply logs_only_ret
    | apply logs_only_raise
    | apply logs_only_getitem
    | apply logs_only_str_strip
    | apply execute_query_engine_events
    | apply logs_only_bind; [|intros ?]
    | match goal with
      | |- logs_only _ (if ?b then _ else _) => destruct b
      end ].

(** Every tool but [append-insight] only talks to the engine. *)
Lemma other_tools_log_engine_events name arguments :
  (name =? "append-insight") = false ->
  logs_only is_engine_event (handle_call_tool E name arguments).
Proof.
  intros Hname. unfold handle_call_tool.
  apply logs_only_try_except; [|intros e; apply logs_only_ret].
  unfold call_tool_body, query_tools. rewrite Hname.
  repeat logs_only_step.
Qed.

Lemma set_insights_same self : set_insights (insights self ++ []) self = self.
Proof. destruct self. unfold set_insights. simpl. now rewrite app_nil_r. Qed.

(** The state after a tool call, for every tool. *)
Lemma tool_call_state name arguments self :
  exists evs,
    snd (handle_call_tool E name arguments self) =
      add_log evs (set_insights (insights self ++ appended_by_call name arguments) self) /\
    if name =? "append-insight" then
      evs = match lookup_arg arguments "insight" with
            | Some v =>
                (memo_requests (set_insights (insights self ++ [v]) self)
                   ++ [EvResourceUpdated MEMO_URI])%list
            | None => []
            end
    else forallb is_engine_event evs = true.
Proof.
  unfold appended_by_call.
  destruct (str_eqb_spec name "append-insight") as [-> | Hne].
  - destruct (lookup_arg arguments "insight") as [v|] eqn:Hv.
    + destruct arguments as [m|]; [|discriminate Hv]. simpl in Hv.
      eexists. split; [apply (append_insight_state E m v self Hv) | reflexivity].
    + exists []. split; [|reflexivity].
      rewrite (handle_generic E "append-insight" arguments self
                 (Exc ValueError "Missing insight argument")).
      * simpl. now rewrite add_log_nil, set_insights_same.
      * rewrite call_append_insight. now rewrite (lookup_none_missing _ _ Hv).
      * reflexivity.
  - apply str_eqb_neq in Hne.
    destruct (other_tools_log_engine_events name arguments Hne self) as (evs & H & HP).
    exists evs. now rewrite set_insights_same.
Qed.

(** A tool call never changes the database path, the key or the client,
    never drops or reorders insights, and never erases the log: the memo
    grows by the insight of an [append-insight] call and by nothing else. *)
Theorem tool_call_frame name arguments self :
  let self' := snd (handle_call_tool E name arguments self) in
  db_path self' = db_path self /\
  anthropic_api_key self' = anthropic_api_key self /\
  anthropic_client self' = anthropic_client self /\
  insights self' = (insights self ++ appended_by_call name arguments)%list /\
  exists evs, log self' = (log self ++ evs)%list.
Proof.
  cbv zeta. destruct (tool_call_state name arguments self) as (evs & -> & _).
  repeat split. now exists evs.
Qed.

(** The session is notified once by an [append-insight] call that carries
    an insight, whether or not the notification then fails, and by no other
    call. *)
Theorem notifications_of_tool_call name arguments self :
  List.filter is_notification (log (snd (handle_call_tool E name arguments self))) =
    (List.filter is_notification (log self)
       ++ if name =? "append-insight" then
            match lookup_arg arguments "insight" with
            | Some _ => [EvResourceUpdated MEMO_URI]
            | None => []
            end
          else [])%list.
Proof.
  destruct (tool_call_state name arguments self) as (evs & -> & Hevs).
  rewrite log_add_log. simpl log. rewrite List.filter_app. f_equal.
  destruct (name =? "append-insight").
  - subst evs. destruct (lookup_arg arguments "insight") as [v|]; [|reflexivity].
    rewrite List.filter_app. unfold memo_requests.
    destruct (insights _); [reflexivity|]. destruct (configured _); reflexivity.
  - clear -Hevs. induction evs as [|ev evs IH]; [reflexivity|].
    simpl in *. apply andb_true_iff in Hevs as [Hev Hevs].
    destruct ev; try discriminate Hev; simpl; now apply IH.
Qed.

(** [append-insight] and names outside the catalog never reach the engine:
    no connection is opened, no statement run. *)
Theorem memo_and_unknown_tools_leave_engine_alone name arguments self :
  name = "append-insight" \/ known_tool name = false ->
  List.filter is_engine_event (log (snd (handle_call_tool E name arguments self))) =
  List.filter is_engine_event (log self).
Proof.
  intros [-> | Hname].
  - destruct (tool_call_state "append-insight" arguments self) as (evs & -> & Hevs).
    simpl in Hevs. rewrite log_add_log. simpl log. rewrite List.filter_app.
    subst evs. destruct (lookup_arg arguments "insight") as [v|]; [|apply app_nil_r].
    rewrite List.filter_app. unfold memo_requests.
    destruct (insights _); [apply app_nil_r|].
    destruct (configured _); apply app_nil_r.
  - unfold handle_call_tool, try_except. rewrite (call_unknown E name arguments Hname).
    destruct (truthy arguments); reflexivity.
Qed.

(** *** Commits *)

Lemma execute_query_no_commit query params :
  commits query = false ->
  logs_only (fun ev => negb (is_commit ev)) (_execute_query E query params).
Proof.
  intros Hw. apply (logs_only_weaken (executor_event query)).
  - intros ev Hev. now rewrite (executor_event_no_commit query ev Hw Hev).
  - apply execute_query_logs_only.
Qed.

Lemma query_argument_cases arguments :
  (lookup_arg arguments "query" = None \/
   (exists v, lookup_arg arguments "query" = Some v /\ is_str v = false)) \/
  (exists m query, arguments = Some m /\ m !! "query" = Some (JStr query)).
Proof.
  destruct arguments as [m|]; simpl; [|now left; left].
  destruct (m !! "query") as [v|] eqn:Hv; [|now left; left].
  destruct v; try (left; right; eexists; split; [reflexivity | reflexivity]).
  right. eauto.
Qed.

Lemma read_query_no_commit arguments :
  logs_only (fun ev => negb (is_commit ev)) (call_tool_body E "read-query" arguments).
Proof.
  intros self.
  destruct (query_argument_cases arguments) as [Hbad | (m & query & -> & Hq)].
  - destruct (query_prelude_rejects arguments _ _ self (call_read_query E arguments) Hbad)
      as (e & _ & ->).
    exists []. now rewrite add_log_nil.
  - destruct (is_select query) eqn:Hsel.
    + rewrite (read_query_allowed E m query Hq Hsel).
      apply logs_only_bind; [|intros ?; apply logs_only_ret].
      apply execute_query_no_commit. now apply is_select_not_commits.
    + rewrite (read_query_refused E m query self Hq Hsel).
      exists []. now rewrite add_log_nil.
Qed.

Lemma list_tables_no_commit arguments :
  logs_only (fun ev => negb (is_commit ev)) (call_tool_body E "list-tables" arguments).
Proof.
  rewrite call_list_tables.
  apply logs_only_bind; [|intros ?; apply logs_only_ret].
  now apply execute_query_no_commit.
Qed.

Lemma describe_table_no_commit arguments :
  logs_only (fun ev => negb (is_commit ev)) (call_tool_body E "describe-table" arguments).
Proof.
  rewrite call_describe_table.
  destruct (missing arguments "table_name"); [apply logs_only_raise|].
  apply logs_only_bind; [apply logs_only_getitem | intros table_name].
  apply logs_only_bind; [|intros ?; apply logs_only_ret].
  apply execute_query_no_commit, pragma_is_never_committed.
Qed.

Lemma handler_logs_only P name arguments :
  logs_only P (call_tool_body E name arguments) ->
  logs_only P (handle_call_tool E name arguments).
Proof.
  intros H. unfold handle_call_tool.
  apply logs_only_try_except; [exact H | intros e; apply logs_only_ret].
Qed.

Lemma filter_commit_no_commit {A} (c : M A) self :
  logs_only (fun ev => negb (is_commit ev)) c ->
  List.filter is_commit (log (snd (c self))) = List.filter is_commit (log self).
Proof.
  intros H. apply (logs_only_filter (fun ev => negb (is_commit ev))); [exact H|].
  intros ev Hev. now apply negb_true_iff.
Qed.

(** Only [write-query] and [create-table] ever commit: no call to another
    tool, known or not, adds a commit to the log. *)
Theorem only_write_tools_commit name arguments self :
  name <> "write-query" -> name <> "create-table" ->
  List.filter is_commit (log (snd (handle_call_tool E name arguments self))) =
  List.filter is_commit (log self).
Proof.
  intros Hw Hc.
  destruct (str_eqb_spec name "list-tables") as [-> | Hl].
  { apply filter_commit_no_commit, handler_logs_only, list_tables_no_commit. }
  destruct (str_eqb_spec name "describe-table") as [-> | Hd].
  { apply filter_commit_no_commit, handler_logs_only, describe_table_no_commit. }
  destruct (str_eqb_spec name "read-query") as [-> | Hr].
  { apply filter_commit_no_commit, handler_logs_only, read_query_no_commit. }
  destruct (str_eqb_spec name "append-insight") as [-> | Ha].
  { destruct (tool_call_state "append-insight" arguments self) as (evs & -> & Hevs).
    simpl in Hevs. rewrite log_add_log. simpl log. rewrite List.filter_app.
    subst evs. destruct (lookup_arg arguments "insight") as [v|]; [|apply app_nil_r].
    rewrite List.filter_app. unfold memo_requests.
    destruct (insights _); [apply app_nil_r|].
    destruct (configured _); apply app_nil_r. }
  assert (Hname : known_tool name = false).
  { unfold known_tool. simpl.
    apply str_eqb_neq in Hw, Hc, Hl, Hd, Hr, Ha.
    now rewrite Hw, Hc, Hl, Hd, Hr, Ha. }
  unfold handle_call_tool, try_except. rewrite (call_unknown E name arguments Hname).
  destruct (truthy arguments); reflexivity.
Qed.

(** *** The write channel *)

(** When the engine refuses the statement of a [write-query] call, the
    caller gets the engine's exception as text, the connection is closed
    and nothing is committed. *)
Theorem engine_rejection_is_reported m query self e :
  m !! "query" = Some (JStr query) ->
  is_select query = false ->
  sqlite3_connect E (log self) (db_path self) = None ->
  cursor_execute E (log self ++ [EvConnect (db_path self)]) query [] = inl e ->
  handle_call_tool E "write-query" (Some m) self =
    (inr [mkTextContent "text"
            (match exc_class e with
             | SqliteError => "Database error: "
             | _ => "Error: "
             end ++ exc_str e)],
     add_log [EvConnect (db_path self); EvExecute query []; EvClose] self).
Proof.
  intros Hq Hsel Hc Hx.
  replace [mkTextContent "text"
             (match exc_class e with
              | SqliteError => "Database error: "
              | _ => "Error: "
              end ++ exc_str e)]
    with (text_content (error_text e))
    by (unfold error_text, is_sqlite_error, text_content, DATABASE_ERROR, GENERIC_ERROR;
        destruct (exc_class e); reflexivity).
  apply handle_raised.
  rewrite (write_query_allowed E m query Hq Hsel). unfold bind.
  now rewrite (execute_query_statement_fails E query [] self e Hc Hx).
Qed.

(** [write-query] lets through every statement that does not begin with
    SELECT, but the executor commits only the six write keywords: another
    statement (REPLACE, WITH, PRAGMA, ...) is run, its rows are returned and
    the connection is closed without a commit. *)
Theorem write_query_outside_the_keywords_is_not_committed m query self cur rows :
  m !! "query" = Some (JStr query) ->
  is_select query = false ->
  commits query = false ->
  sqlite3_connect E (log self) (db_path self) = None ->
  cursor_execute E (log self ++ [EvConnect (db_path self)]) query [] = inr cur ->
  fetchall cur = inr rows ->
  handle_call_tool E "write-query" (Some m) self =
    (inr [mkTextContent "text" (str_rows E rows)],
     add_log [EvConnect (db_path self); EvExecute query []; EvClose] self).
Proof.
  intros Hq Hsel Hw Hc Hx Hrows. apply handle_returned.
  rewrite (write_query_allowed E m query Hq Hsel). unfold bind.
  rewrite (execute_query_reads E query [] self cur Hc Hx Hw), Hrows. reflexivity.
Qed.

(** A [write-query] statement with a write keyword that the engine takes
    is committed, and the caller gets the row count the cursor reports. *)
Theorem write_query_reports_affected_rows m query self cur :
  m !! "query" = Some (JStr query) ->
  commits query = true ->
  sqlite3_connect E (log self) (db_path self) = None ->
  cursor_execute E (log self ++ [EvConnect (db_path self)]) query [] = inr cur ->
  conn_commit E (log self ++ [EvConnect (db_path self); EvExecute query []]) = None ->
  handle_call_tool E "write-query" (Some m) self =
    (inr (text_content (str_rows E [[("affected_rows", SqlInt (rowcount cur))]])),
     add_log [EvConnect (db_path self); EvExecute query []; EvCommit; EvClose] self).
Proof.
  intros Hq Hw Hc Hx Hk. apply handle_returned.
  assert (Hsel : is_select query = false).
  { destruct (is_select query) eqn:Hs; [|reflexivity].
    rewrite (is_select_not_commits query Hs) in Hw. discriminate. }
  rewrite (write_query_allowed E m query Hq Hsel). unfold bind.
  now rewrite (execute_query_writes E query [] self cur Hc Hx Hw Hk).
Qed.

(** [create-table] answers with its fixed text whatever the cursor
    reports, once the statement is taken and committed. *)
Theorem create_table_confirms m query self cur :
  m !! "query" = Some (JStr query) ->
  is_create_table query = true ->
  sqlite3_connect E (log self) (db_path self) = None ->
  cursor_execute E (log self ++ [EvConnect (db_path self)]) query [] = inr cur ->
  conn_commit E (log self ++ [EvConnect (db_path self); EvExecute query []]) = None ->
  handle_call_tool E "create-table" (Some m) self =
    (inr (text_content "Table created successfully"),
     add_log [EvConnect (db_path self); EvExecute query []; EvCommit; EvClose] self).
Proof.
  intros Hq Hct Hc Hx Hk. apply handle_returned.
  assert (Hw : commits query = true) by now apply is_create_table_commits.
  rewrite (create_table_allowed E m query Hq Hct). unfold bind.
  now rewrite (execute_query_writes E query [] self cur Hc Hx Hw Hk).
Qed.

(** *** Sessions *)

Lemma run_calls_state calls self :
  let self' := run_calls E calls self in
  db_path self' = db_path self /\
  anthropic_api_key self' = anthropic_api_key self /\
  anthropic_client self' = anthropic_client self /\
  insights self' =
    (insights self
       ++ concat (map (fun c => appended_by_call (fst c) (snd c)) calls))%list /\
  exists evs, log self' = (log self ++ evs)%list.
Proof.
  cbv zeta. revert self. induction calls as [|[name arguments] calls IH]; intros self.
  - simpl. rewrite app_nil_r. repeat split. exists []. now rewrite app_nil_r.
  - simpl run_calls.
    destruct (IH (snd (handle_call_tool E name arguments self)))
      as (Hp & Hk & Hc & Hi & evs2 & Hl).
    destruct (tool_call_state name arguments self) as (evs1 & Hs & _).
    rewrite Hp, Hk, Hc, Hi, Hl, Hs. simpl.
    repeat split.
    + now rewrite <- app_assoc.
    + exists (evs1 ++ evs2)%list. now rewrite <- app_assoc.
Qed.

(** Over any sequence of tool calls the configuration stays what it was
    and the memo is the starting sequence followed by the insights of the
    [append-insight] calls, in call order; nothing ever leaves the log. *)
Theorem session_memo_is_append_only calls self :
  let self' := run_calls E calls self in
  db_path self' = db_path self /\
  anthropic_api_key self' = anthropic_api_key self /\
  anthropic_client self' = anthropic_client self /\
  insights self' =
    (insights self
       ++ concat (map (fun c => appended_by_call (fst c) (snd c)) calls))%list /\
  exists evs, log self' = (log self ++ evs)%list.
Proof. apply run_calls_state. Qed.

Lemma unconfigured_call_sends_no_request name arguments self :
  configured self = false ->
  requests (log (snd (handle_call_tool E name arguments self))) = requests (log self).
Proof.
  intros Hconf.
  destruct (tool_call_state name arguments self) as (evs & -> & Hevs).
  rewrite log_add_log. simpl log. unfold requests. rewrite List.filter_app.
  assert (Hnil : List.filter is_create_message evs = []); [|now rewrite Hnil, app_nil_r].
  destruct (name =? "append-insight").
  - subst evs. destruct (lookup_arg arguments "insight") as [v|]; [|reflexivity].
    rewrite List.filter_app. unfold memo_requests.
    destruct (insights _); [reflexivity|].
    change (configured (set_insights _ self)) with (configured self).
    now rewrite Hconf.
  - clear -Hevs. induction evs as [|ev evs IH]; [reflexivity|].
    simpl in *. apply andb_true_iff in Hevs as [Hev Hevs].
    destruct ev; try discriminate Hev; simpl; now apply IH.
Qed.

Lemma unconfigured_session_sends_no_request calls self :
  configured self = false ->
  requests (log (run_calls E calls self)) = requests (log self).
Proof.
  revert self. induction calls as [|[name arguments] calls IH]; intros self Hconf.
  - reflexivity.
  - simpl run_calls. rewrite IH.
    + now apply unconfigured_call_sends_no_request.
    + destruct (tool_call_state name arguments self) as (evs & -> & _). exact Hconf.
Qed.

(** A server created with the empty str as key has a key but no client:
    through any session it sends no summarization request, and its memo is
    the bare bullet list, without heading or summary. *)
Theorem empty_key_gives_bare_bullets calls path :
  let self := run_calls E calls (McpServer_init path (Some "")) in
  requests (log self) = [] /\
  _synthesize_memo E self =
    (inr (match insights self with
          | [] => NO_INSIGHTS
          | _ :: _ => bullets (insights self)
          end), self).
Proof.
  cbv zeta.
  destruct (run_calls_state calls (McpServer_init path (Some "")))
    as (_ & Hk & Hc & _ & _).
  split.
  - now rewrite unconfigured_session_sends_no_request.
  - rewrite synthesize_quiet.
    + unfold plain_memo. now rewrite Hk.
    + left. unfold configured. now rewrite Hk, Hc.
Qed.

(** A server created by [__init__] keeps, through any session, the client
    attribute exactly when its key is a non-empty str. *)
Lemma session_keeps_configuration calls path key :
  let self := run_calls E calls (McpServer_init path key) in
  db_path self = path /\ anthropic_api_key self = key /\ well_configured self.
Proof.
  cbv zeta.
  destruct (run_calls_state calls (McpServer_init path key)) as (Hp & Hk & Hc & _ & _).
  unfold well_configured. rewrite Hp, Hk, Hc. repeat split.
Qed.

End Tools.

(** ** The memo resource *)

Section ResourceFacts.

Variable E : Env.

Implicit Types (self : McpServer) (uri : AnyUrl).

(** Every resource that [handle_list_resources] announces can be read, and
    reading it renders the memo. *)
Theorem listed_resource_reads_the_memo r :
  In r handle_list_resources ->
  handle_read_resource E (resource_uri r) = _synthesize_memo E.
Proof. intros [<- | []]. reflexivity. Qed.

(** A URI of another scheme is refused with a [ValueError] that names the
    scheme; the exception leaves the handler, unlike those of a tool call,
    and the server is as it was: nothing is rendered. *)
Theorem read_resource_refuses_other_schemes uri self :
  scheme uri <> "memo" ->
  handle_read_resource E uri self =
    (inl (Exc ValueError ("Unsupported URI scheme: " ++ scheme uri)), self).
Proof.
  intros Hs. unfold handle_read_resource.
  apply str_eqb_neq in Hs. now rewrite Hs.
Qed.

(** A read either renders the memo or raises a [ValueError] and leaves the
    server as it was; in both cases the insight sequence and the
    configuration are as before. *)
Theorem read_resource_renders_or_raises uri self :
  (handle_read_resource E uri self = _synthesize_memo E self \/
   exists msg, handle_read_resource E uri self = (inl (Exc ValueError msg), self)) /\
  insights (snd (handle_read_resource E uri self)) = insights self /\
  anthropic_api_key (snd (handle_read_resource E uri self)) = anthropic_api_key self.
Proof.
  assert (H : handle_read_resource E uri self = _synthesize_memo E self \/
              exists msg, handle_read_resource E uri self = (inl (Exc ValueError msg), self)).
  { unfold handle_read_resource.
    destruct (negb (scheme uri =? "memo")); [right; eauto|].
    cbv zeta.
    destruct ((py_replace (url_str uri) "memo://" "" =? "")
              || negb (py_replace (url_str uri) "memo://" "" =? "insights"));
      [right; eauto | now left]. }
  split; [exact H|].
  destruct H as [-> | [msg ->]]; [|now split].
  rewrite synthesize_state. now split.
Qed.

End ResourceFacts.

(** ** The demo prompt *)

Section PromptFacts.

Variable format_fields : str -> str -> exception + str.

Implicit Types (name topic : str) (arguments : option (gmap str str)).

(** A name that [handle_list_prompts] does not announce is refused with a
    [ValueError] that names it, whatever the arguments. *)
Theorem unlisted_prompt_is_refused name arguments :
  (forall p, In p handle_list_prompts -> prompt_name p <> name) ->
  handle_get_prompt format_fields name arguments =
    inl (Exc ValueError ("Unknown prompt: " ++ name)).
Proof.
  intros H. unfold handle_get_prompt.
  assert (Hne : (name =? "mcp-demo") = false).
  { apply str_eqb_neq. intros ->. apply (H (hd (mkPrompt "" "" []) handle_list_prompts));
      [now left | reflexivity]. }
  now rewrite Hne.
Qed.

(** The demo prompt without a [topic] (no arguments, an empty mapping, or
    a mapping that binds other names) is refused with a [ValueError]. *)
Theorem demo_prompt_requires_topic arguments :
  prompt_arg arguments "topic" = None ->
  handle_get_prompt format_fields "mcp-demo" arguments =
    inl (Exc ValueError "Missing required argument: topic").
Proof.
  intros H. unfold handle_get_prompt. simpl negb. cbv iota. rewrite H.
  rewrite (bool_decide_eq_false_2 (is_Some None)) by apply is_Some_None.
  now rewrite orb_true_r.
Qed.

Lemma has_brace_app a b : has_brace (a ++ b) = has_brace a || has_brace b.
Proof.
  induction a as [|c a IH]; [reflexivity|].
  rewrite append_cons. simpl. rewrite IH. now rewrite orb_assoc.
Qed.

Lemma lstrip_app a b :
  PyStr.lstrip a <> "" -> PyStr.lstrip (a ++ b) = PyStr.lstrip a ++ b.
Proof.
  induction a as [|c a IH]; [easy|].
  rewrite append_cons. simpl. destruct (PyStr.isspace c); [exact IH | reflexivity].
Qed.

Lemma rstrip_app a b :
  PyStr.rstrip b <> "" -> PyStr.rstrip (a ++ b) = a ++ PyStr.rstrip b.
Proof.
  intros Hb. induction a as [|c a IH]; [reflexivity|].
  rewrite !append_cons. simpl. rewrite IH.
  destruct (a ++ PyStr.rstrip b) eqn:Hab; [|reflexivity].
  destruct a; [|discriminate Hab]. rewrite append_empty_l in Hab. contradiction.
Qed.

Lemma demo_template_has_no_brace topic :
  has_brace topic = false -> has_brace (demo_template topic) = false.
Proof.
  intros H. unfold demo_template. rewrite !has_brace_app, H.
  reflexivity.
Qed.

Lemma demo_template_strip topic :
  PyStr.strip (demo_template topic) =
  PyStr.lstrip demo_head ++ topic ++ demo_mid1 ++ topic ++ demo_mid2 ++ topic
    ++ PyStr.rstrip demo_tail.
Proof.
  unfold demo_template, PyStr.strip.
  rewrite lstrip_app by (vm_compute; discriminate).
  rewrite <- !append_assoc. rewrite rstrip_app by (vm_compute; discriminate).
  now rewrite !append_assoc.
Qed.

(** With a topic that has no brace in it, the demo prompt is answered by
    one user message: the template with the topic at its three places and
    without the white space around it, under a description that names the
    topic. *)
Theorem demo_prompt_substitutes_topic arguments topic :
  prompt_arg arguments "topic" = Some topic ->
  has_brace topic = false ->
  handle_get_prompt format_fields "mcp-demo" arguments =
    inr (mkGetPromptResult
           ("Demo template for " ++ topic)
           [ mkPromptMessage "user"
               (mkTextContent "text"
                  (PyStr.lstrip demo_head ++ topic ++ demo_mid1 ++ topic
                     ++ demo_mid2 ++ topic ++ PyStr.rstrip demo_tail)) ]).
Proof.
  intros Harg Hb. unfold handle_get_prompt. simpl negb. cbv iota.
  assert (Ht : prompt_truthy arguments = true).
  { destruct arguments as [m|]; [|discriminate Harg]. simpl in *.
    rewrite bool_decide_eq_false_2; [reflexivity|].
    intros ->. rewrite lookup_empty in Harg. discriminate. }
  rewrite Ht, Harg. rewrite bool_decide_eq_true_2 by eauto. simpl orb. cbv iota.
  unfold str_format. rewrite (demo_template_has_no_brace topic Hb).
  now rewrite demo_template_strip.
Qed.

End PromptFacts.

(** ** The bullets of the memo *)

Section MemoFacts.

Variable E : Env.

Lemma join_cons sep x (l : list str) :
  l <> [] -> PyStr.join sep (x :: l) = x ++ sep ++ PyStr.join sep l.
Proof. destruct l; [contradiction | reflexivity]. Qed.

Lemma join_skip sep (a l : list str) :
  l <> [] -> exists pre, PyStr.join sep (a ++ l) = pre ++ PyStr.join sep l.
Proof.
  intros Hl. induction a as [|h a [pre IH]].
  - exists "". reflexivity.
  - exists (h ++ sep ++ pre).
    change ((h :: a) ++ l)%list with (h :: (a ++ l))%list.
    rewrite join_cons.
    + now rewrite IH, !append_assoc.
    + intros Habs. apply app_eq_nil in Habs as [_ ?]. contradiction.
Qed.

Lemma join_head sep x (l : list str) :
  exists post, PyStr.join sep (x :: l) = x ++ post.
Proof.
  destruct l as [|y l].
  - exists "". simpl. now rewrite append_empty_r.
  - exists (sep ++ PyStr.join sep (y :: l)). reflexivity.
Qed.

Lemma basic_memo_around_bullets l :
  exists head tail, basic_memo l = head ++ bullets l ++ tail.
Proof.
  unfold basic_memo. destruct (1 <? length l)%nat.
  - set (summary := "Analysis has revealed " ++ _).
    exists (MEMO_HEADING ++ "Key Insights Discovered:" ++ PyStr.nl ++ PyStr.nl),
           ((PyStr.nl ++ "Summary:" ++ PyStr.nl) ++ summary).
    now rewrite !append_assoc.
  - exists (MEMO_HEADING ++ "Key Insights Discovered:" ++ PyStr.nl ++ PyStr.nl), "".
    now rewrite append_empty_r.
Qed.

Lemma bullets_contain l x :
  In x l -> PyStr.contains (bullets l) ("- " ++ py_str x).
Proof.
  intros Hin. apply in_split in Hin as (a & b & ->).
  unfold bullets. rewrite map_app. simpl map.
  destruct (join_skip PyStr.nl (map (fun i => "- " ++ py_str i) a)
              (("- " ++ py_str x) :: map (fun i => "- " ++ py_str i) b))
    as [pre Hpre]; [discriminate|].
  destruct (join_head PyStr.nl ("- " ++ py_str x) (map (fun i => "- " ++ py_str i) b))
    as [post Hpost].
  exists pre, post. now rewrite Hpre, Hpost.
Qed.

Lemma bullets_in_order a x b y c :
  PyStr.occurs_before (bullets (a ++ x :: b ++ y :: c))
    ("- " ++ py_str x) ("- " ++ py_str y).
Proof.
  unfold bullets. set (f := fun i => "- " ++ py_str i).
  rewrite map_app, map_cons, map_app, map_cons.
  change ("- " ++ py_str x) with (f x). change ("- " ++ py_str y) with (f y).
  destruct (join_skip PyStr.nl (map f a) (f x :: (map f b ++ f y :: map f c)))
    as [pre Hpre]; [discriminate|].
  rewrite Hpre, join_cons
    by (intros Habs; apply app_eq_nil in Habs as [_ ?]; discriminate).
  destruct (join_skip PyStr.nl (map f b) (f y :: map f c)) as [mid Hmid]; [discriminate|].
  destruct (join_head PyStr.nl (f y) (map f c)) as [post Hpost].
  rewrite Hmid, Hpost.
  exists pre, (PyStr.nl ++ mid), post. now rewrite !append_assoc.
Qed.

(** Without a key, every insight of the memo is in the rendered text, as a
    bullet line. *)
Theorem memo_shows_every_insight self x :
  anthropic_api_key self = None ->
  In x (insights self) ->
  exists memo,
    fst (_synthesize_memo E self) = inr memo /\
    PyStr.contains memo ("- " ++ py_str x).
Proof.
  intros Hkey Hin. exists (basic_memo (insights self)). split.
  - rewrite synthesize_basic; [reflexivity | | exact Hkey].
    intros Habs. rewrite Habs in Hin. contradiction.
  - destruct (basic_memo_around_bullets (insights self)) as (head & tail & ->).
    destruct (bullets_contain (insights self) x Hin) as (pre & post & ->).
    exists (head ++ pre), (post ++ tail). now rewrite !append_assoc.
Qed.

(** Without a key, the bullets of the rendered memo follow the insight
    sequence: an insight that comes earlier in the sequence comes earlier
    in the text. *)
Theorem memo_follows_the_sequence self a x b y c :
  anthropic_api_key self = None ->
  insights self = (a ++ x :: b ++ y :: c)%list ->
  exists memo,
    fst (_synthesize_memo E self) = inr memo /\
    PyStr.occurs_before memo ("- " ++ py_str x) ("- " ++ py_str y).
Proof.
  intros Hkey Hl. exists (basic_memo (insights self)). split.
  - rewrite synthesize_basic; [reflexivity | | exact Hkey].
    rewrite Hl. intros Habs. apply app_eq_nil in Habs as [_ ?]. discriminate.
  - destruct (basic_memo_around_bullets (insights self)) as (head & tail & ->).
    rewrite Hl.
    destruct (bullets_in_order a x b y c) as (pre & mid & post & ->).
    exists (head ++ pre), mid, (post ++ tail). now rewrite !append_assoc.
Qed.

End MemoFacts.

(** ** The further properties on concrete calls *)

Lemma select_is_never_committed_witness :
  is_select "  select 1" = true /\ commits "  select 1" = false.
Proof.
  split; [reflexivity|].
  apply (select_is_never_committed "  select 1"). reflexivity.
Defined.

Lemma create_table_is_always_committed_witness :
  is_create_table "create table t(id INTEGER)" = true /\
  commits "create table t(id INTEGER)" = true.
Proof.
  split; [reflexivity|].
  apply (create_table_is_always_committed "create table t(id INTEGER)"). reflexivity.
Defined.

Lemma execute_query_result_shape_witness :
  exists cur,
    cursor_execute quiet_env (log fresh ++ [EvConnect (db_path fresh)])
      "insert into t values (1)" [] = inr cur /\
    if commits "insert into t values (1)"
    then [[("affected_rows", SqlInt 0)]] = [[("affected_rows", SqlInt (rowcount cur))]]
    else fetchall cur = inr [[("affected_rows", SqlInt 0)]].
Proof.
  apply (execute_query_result_shape quiet_env "insert into t values (1)" [] fresh
           [[("affected_rows", SqlInt 0)]]).
  reflexivity.
Defined.

Lemma execute_query_raises_what_the_engine_raised_witness :
  sqlite3_connect rejecting_env (log fresh) (db_path fresh) = Some SyntaxError \/
  cursor_execute rejecting_env (log fresh ++ [EvConnect (db_path fresh)])
    "DROP TABLE t" [] = inl SyntaxError \/
  (exists cur,
     cursor_execute rejecting_env (log fresh ++ [EvConnect (db_path fresh)])
       "DROP TABLE t" [] = inr cur /\
     (conn_commit rejecting_env
        (log fresh ++ [EvConnect (db_path fresh); EvExecute "DROP TABLE t" []])
      = Some SyntaxError
      \/ fetchall cur = inl SyntaxError)).
Proof.
  apply (execute_query_raises_what_the_engine_raised rejecting_env "DROP TABLE t" []
           fresh SyntaxError).
  reflexivity.
Defined.

Lemma memo_and_unknown_tools_leave_engine_alone_witness :
  List.filter is_engine_event
    (log (snd (handle_call_tool quiet_env "append-insight"
                 (args1 "insight" (JStr "X")) fresh_with_key))) =
  List.filter is_engine_event (log fresh_with_key).
Proof.
  apply (memo_and_unknown_tools_leave_engine_alone quiet_env "append-insight"
           (args1 "insight" (JStr "X")) fresh_with_key).
  left. reflexivity.
Defined.

Lemma only_write_tools_commit_witness :
  List.filter is_commit
    (log (snd (handle_call_tool quiet_env "read-query"
                 (args1 "query" (JStr "select * from t")) fresh))) =
  List.filter is_commit (log fresh).
Proof.
  apply (only_write_tools_commit quiet_env "read-query"
           (args1 "query" (JStr "select * from t")) fresh);
    apply str_eqb_neq; reflexivity.
Defined.

Lemma engine_rejection_is_reported_witness :
  handle_call_tool rejecting_env "write-query"
      (Some {[ "query" := JStr "INSERT INTO missing VALUES (1)" ]}) fresh =
    (inr [mkTextContent "text" "Database error: near syntax error"],
     add_log [EvConnect (db_path fresh);
              EvExecute "INSERT INTO missing VALUES (1)" []; EvClose] fresh).
Proof.
  apply (engine_rejection_is_reported rejecting_env
           {[ "query" := JStr "INSERT INTO missing VALUES (1)" ]}
           "INSERT INTO missing VALUES (1)" fresh SyntaxError); reflexivity.
Defined.

Lemma write_query_outside_the_keywords_is_not_committed_witness :
  handle_call_tool quiet_env "write-query"
      (Some {[ "query" := JStr "REPLACE INTO t VALUES (1)" ]}) fresh =
    (inr [mkTextContent "text" (str_rows quiet_env [])],
     add_log [EvConnect (db_path fresh);
              EvExecute "REPLACE INTO t VALUES (1)" []; EvClose] fresh).
Proof.
  apply (write_query_outside_the_keywords_is_not_committed quiet_env
           {[ "query" := JStr "REPLACE INTO t VALUES (1)" ]}
           "REPLACE INTO t VALUES (1)" fresh (Cursor 0 (inr [])) []); reflexivity.
Defined.

Lemma write_query_reports_affected_rows_witness :
  handle_call_tool quiet_env "write-query"
      (Some {[ "query" := JStr "UPDATE t SET x = 1" ]}) fresh =
    (inr (text_content
            (str_rows quiet_env
               [[("affected_rows", SqlInt (rowcount (Cursor 0 (inr []))))]])),
     add_log [EvConnect (db_path fresh); EvExecute "UPDATE t SET x = 1" [];
              EvCommit; EvClose] fresh).
Proof.
  apply (write_query_reports_affected_rows quiet_env
           {[ "query" := JStr "UPDATE t SET x = 1" ]}
           "UPDATE t SET x = 1" fresh (Cursor 0 (inr []))); reflexivity.
Defined.

Lemma create_table_confirms_witness :
  handle_call_tool quiet_env "create-table"
      (Some {[ "query" := JStr "CREATE TABLE t(id INTEGER, name TEXT)" ]}) fresh =
    (inr (text_content "Table created successfully"),
     add_log [EvConnect (db_path fresh);
              EvExecute "CREATE TABLE t(id INTEGER, name TEXT)" [];
              EvCommit; EvClose] fresh).
Proof.
  apply (create_table_confirms quiet_env
           {[ "query" := JStr "CREATE TABLE t(id INTEGER, name TEXT)" ]}
           "CREATE TABLE t(id INTEGER, name TEXT)" fresh (Cursor 0 (inr [])));
    reflexivity.
Defined.

Lemma listed_resource_reads_the_memo_witness :
  handle_read_resource quiet_env (resource_uri memo_resource) = _synthesize_memo quiet_env.
Proof.
  apply (listed_resource_reads_the_memo quiet_env memo_resource).
  left. reflexivity.
Defined.

Lemma read_resource_refuses_other_schemes_witness :
  handle_read_resource quiet_env (mkUrl "file" "file:///etc/passwd") fresh =
    (inl (Exc ValueError ("Unsupported URI scheme: " ++ "file")), fresh).
Proof.
  apply (read_resource_refuses_other_schemes quiet_env
           (mkUrl "file" "file:///etc/passwd") fresh).
  apply str_eqb_neq. reflexivity.
Defined.

Lemma unlisted_prompt_is_refused_witness :
  handle_get_prompt only_topic_field "other-demo" None =
    inl (Exc ValueError ("Unknown prompt: " ++ "other-demo")).
Proof.
  apply (unlisted_prompt_is_refused only_topic_field "other-demo" None).
  intros p [<- | []]. apply str_eqb_neq. reflexivity.
Defined.

Lemma demo_prompt_requires_topic_witness :
  handle_get_prompt only_topic_field "mcp-demo" (Some {[ "subject" := "retail" ]}) =
    inl (Exc ValueError "Missing required argument: topic").
Proof.
  apply (demo_prompt_requires_topic only_topic_field (Some {[ "subject" := "retail" ]})).
  reflexivity.
Defined.

Lemma demo_prompt_substitutes_topic_witness :
  handle_get_prompt only_topic_field "mcp-demo" (Some {[ "topic" := "retail sales" ]}) =
    inr (mkGetPromptResult
           ("Demo template for " ++ "retail sales")
           [ mkPromptMessage "user"
               (mkTextContent "text"
                  (PyStr.lstrip demo_head ++ "retail sales" ++ demo_mid1 ++ "retail sales"
                     ++ demo_mid2 ++ "retail sales" ++ PyStr.rstrip demo_tail)) ]).
Proof.
  apply (demo_prompt_substitutes_topic only_topic_field
           (Some {[ "topic" := "retail sales" ]}) "retail sales"); reflexivity.
Defined.

Lemma memo_shows_every_insight_witness :
  exists memo,
    fst (_synthesize_memo quiet_env (two_insights fresh)) = inr memo /\
    PyStr.contains memo ("- " ++ py_str (JStr "Y")).
Proof.
  apply (memo_shows_every_insight quiet_env (two_insights fresh) (JStr "Y")).
  - reflexivity.
  - right. left. reflexivity.
Defined.

Lemma memo_follows_the_sequence_witness :
  exists memo,
    fst (_synthesize_memo quiet_env
           (set_insights [JStr "A"; JInt 7; JStr "B"; JStr "C"] fresh)) = inr memo /\
    PyStr.occurs_before memo ("- " ++ py_str (JInt 7)) ("- " ++ py_str (JStr "C")).
Proof.
  apply (memo_follows_the_sequence quiet_env
           (set_insights [JStr "A"; JInt 7; JStr "B"; JStr "C"] fresh)
           [JStr "A"] (JInt 7) [JStr "B"] (JStr "C") []); reflexivity.
Defined.
